(** * Course management web application: enrollment bookkeeping and access control

    A shallow embedding of the TypeScript handlers
    ([StudentDashboard], [AdminDashboard], [AddCourseModal], [EditCourseModal])
    and of the row-level-security policies of the SQL migration, followed by
    the properties of the enrollment coordinator, the policy evaluator and
    the demo shadow store.

    Conventions of the embedding:
    - JavaScript numbers holding counters are [Z]; timestamps are the instant
      in epoch milliseconds ([Z]) instead of its ISO-8601 rendering;
    - a table is the list of its rows, oldest row first;
    - every call to the hosted backend either fails with a structured error
      chosen by the environment ([Env.fault]: transport failure, policy
      denial, ...) and then leaves the tables as they are, or is executed on
      the tables; supabase-js reports errors in its result and does not
      throw, so the [catch] blocks of the handlers are not reached;
    - [async] handlers are state-passing functions over a [World] that holds
      the backend tables, the browser's [localStorage] and the React state;
      they emit, in order, the backend and [localStorage] accesses and the
      notifications they make; awaited calls, calls that are started and not
      awaited, [Promise.all] and the 800 ms timers of the demo branches run
      in program order. *)

From Stdlib Require Import String List ZArith Bool Lia DecimalString.
Import ListNotations.
Open Scope string_scope.
Open Scope list_scope.
Open Scope Z_scope.

(* ------------------------------------------------------------------------- *)
(** ** src/types.ts *)
(* ------------------------------------------------------------------------- *)

Definition Timestamp := Z.

Module Course.
Record t := mk {
  id : string;
  name : string;
  code : string;
  department : string;
  instructor : string;
  instructor_id : string;
  max_capacity : Z;
  current_enrollment : Z;
  created_at : Timestamp
}.
End Course.

Module Student.
Record t := mk {
  id : string;
  name : string;
  email : string;
  academic_status : option string
}.
End Student.

Inductive Role := admin | student | instructor.

Module User.
Record t := mk {
  id : string;
  email : string;
  role : Role;
  name : option string
}.
End User.

Module Instructor.
Record t := mk {
  id : string;
  name : string;
  department : string
}.
End Instructor.

(** A row of [user_profiles], as returned by [get_user_profile_direct]. *)
Module Profile.
Record t := mk {
  id : string;
  email : string;
  name : string;
  role : string
}.
End Profile.

(* ------------------------------------------------------------------------- *)
(** ** supabase/migrations/20250311165250_turquoise_bird.sql *)
(* ------------------------------------------------------------------------- *)

Module Policy.

(** SQL's three-valued logic: [None] is NULL. *)
Definition sqlbool := option bool.

Definition sql_eq (a b : option string) : sqlbool :=
  match a, b with
  | Some x, Some y => Some (String.eqb x y)
  | _, _ => None
  end.

Definition sql_or (a b : sqlbool) : sqlbool :=
  match a, b with
  | Some true, _ | _, Some true => Some true
  | Some false, Some false => Some false
  | _, _ => None
  end.

Definition sql_and (a b : sqlbool) : sqlbool :=
  match a, b with
  | Some false, _ | _, Some false => Some false
  | Some true, Some true => Some true
  | _, _ => None
  end.

Definition sql_is_null (a : option string) : sqlbool :=
  match a with None => Some true | Some _ => Some false end.

(** A WHERE / USING / WITH CHECK clause keeps a row only when it is TRUE. *)
Definition is_true (b : sqlbool) : bool :=
  match b with Some true => true | _ => false end.

(** The two database roles the policies are granted TO. *)
Inductive DbRole := anon | authenticated.

Definition DbRole_eqb (a b : DbRole) : bool :=
  match a, b with
  | anon, anon | authenticated, authenticated => true
  | _, _ => false
  end.

(** The caller of a query: a session without a user (role [anon], for
    which [auth.uid()] is NULL) or a signed-in user. *)
Inductive Caller :=
| Anonymous
| Authenticated (uid : string).

Definition db_role (c : Caller) : DbRole :=
  match c with Anonymous => anon | Authenticated _ => authenticated end.

Definition auth_uid (c : Caller) : option string :=
  match c with Anonymous => None | Authenticated u => Some u end.

(** A row of [auth.users]: the identity provider's record, with the
    ['role'] entry of [raw_user_meta_data]. *)
Module AuthUser.
Record t := mk {
  id : string;
  raw_user_meta_data_role : option string
}.
End AuthUser.

Section WithAuthUsers.
Variable auth_users : list AuthUser.t.

(** [EXISTS (SELECT 1 FROM auth.users
             WHERE auth.uid() = id AND raw_user_meta_data->>'role' = r)] *)
Definition exists_auth_user_with_role (c : Caller) (r : string) : bool :=
  existsb
    (fun u =>
       is_true (sql_and (sql_eq (auth_uid c) (Some (AuthUser.id u)))
                        (sql_eq (AuthUser.raw_user_meta_data_role u) (Some r))))
    auth_users.

Definition is_admin_from_metadata (c : Caller) : bool :=
  exists_auth_user_with_role c "admin".

Definition is_instructor_from_metadata (c : Caller) : bool :=
  exists_auth_user_with_role c "instructor".

Definition is_student_from_metadata (c : Caller) : bool :=
  exists_auth_user_with_role c "student".

(** [USING]/[WITH CHECK] expressions, on the [id] column of the row. *)
Definition own_row (c : Caller) (row_id : string) : sqlbool :=
  sql_eq (Some row_id) (auth_uid c).

(** CREATE POLICY "allow_users_to_read_own_profile" ON user_profiles
    FOR SELECT TO authenticated
    USING (id = auth.uid() OR is_admin_from_metadata()) *)
Definition allow_users_to_read_own_profile (c : Caller) (row : Profile.t) : bool :=
  DbRole_eqb (db_role c) authenticated
  && is_true (sql_or (own_row c (Profile.id row))
                     (Some (is_admin_from_metadata c))).

(** CREATE POLICY "allow_users_to_update_own_profile" ON user_profiles
    FOR UPDATE TO authenticated
    USING (id = auth.uid()) WITH CHECK (id = auth.uid()) *)
Definition allow_users_to_update_own_profile
    (c : Caller) (old new : Profile.t) : bool :=
  DbRole_eqb (db_role c) authenticated
  && is_true (own_row c (Profile.id old))
  && is_true (own_row c (Profile.id new)).

(** CREATE POLICY "allow_users_to_create_profile_during_signup"
    ON user_profiles FOR INSERT TO authenticated, anon
    WITH CHECK (id = auth.uid() OR auth.uid() IS NULL) *)
Definition allow_users_to_create_profile_during_signup
    (c : Caller) (new : Profile.t) : bool :=
  (DbRole_eqb (db_role c) authenticated || DbRole_eqb (db_role c) anon)
  && is_true (sql_or (own_row c (Profile.id new))
                     (sql_is_null (auth_uid c))).

(** CREATE POLICY "allow_students_to_read_own_record" ON students
    FOR SELECT TO authenticated
    USING (id = auth.uid() OR is_admin_from_metadata()
           OR is_instructor_from_metadata()) *)
Definition allow_students_to_read_own_record (c : Caller) (row : Student.t) : bool :=
  DbRole_eqb (db_role c) authenticated
  && is_true (sql_or (sql_or (own_row c (Student.id row))
                             (Some (is_admin_from_metadata c)))
                     (Some (is_instructor_from_metadata c))).

(** CREATE POLICY "allow_students_to_update_own_record" ON students
    FOR UPDATE TO authenticated
    USING (id = auth.uid()) WITH CHECK (id = auth.uid()) *)
Definition allow_students_to_update_own_record
    (c : Caller) (old new : Student.t) : bool :=
  DbRole_eqb (db_role c) authenticated
  && is_true (own_row c (Student.id old))
  && is_true (own_row c (Student.id new)).

(** CREATE POLICY "allow_students_to_create_own_record" ON students
    FOR INSERT TO authenticated WITH CHECK (id = auth.uid()) *)
Definition allow_students_to_create_own_record
    (c : Caller) (new : Student.t) : bool :=
  DbRole_eqb (db_role c) authenticated
  && is_true (own_row c (Student.id new)).

(** The specification's vocabulary: the caller's id, and the caller's
    role claim, i.e. the ['role'] attribute of the caller's own
    [auth.users] record. *)
Definition caller_id (c : Caller) : option string := auth_uid c.

Definition role_claim (c : Caller) : option string :=
  match auth_uid c with
  | None => None
  | Some u =>
      match find (fun a => String.eqb (AuthUser.id a) u) auth_users with
      | Some a => AuthUser.raw_user_meta_data_role a
      | None => None
      end
  end.

End WithAuthUsers.

(** CREATE FUNCTION get_user_profile_direct(user_id UUID)
    RETURNS TABLE (id, email, name, role) SECURITY DEFINER LANGUAGE sql:
    SELECT id, email, name, role FROM user_profiles WHERE id = user_id.
    It runs with its owner's rights, so the row policies above are not
    applied to its query; EXECUTE is granted to [authenticated]. *)
Definition get_user_profile_direct (user_profiles : list Profile.t)
    (user_id : string) : list Profile.t :=
  filter (fun p => String.eqb (Profile.id p) user_id) user_profiles.

End Policy.

(* ------------------------------------------------------------------------- *)
(** ** src/types.ts, continued: rows that refer to other rows *)
(* ------------------------------------------------------------------------- *)

(** The [details] payload of a log entry ([any] in the source): a flat JSON
    object. *)
Inductive JsonValue :=
| JString (s : string)
| JBool (b : bool).

Definition Json := list (string * JsonValue).

(** [Enrollment]: the columns [status], [enrollment_date] and
    [last_accessed] are filled by schema defaults and are neither written
    nor branched on by any handler; they are left out. [courses] is the
    relationship expansion (the joined course) of a select, absent in the table. *)
Module Enrollment.
Record t := mk {
  id : string;
  course_id : string;
  student_id : string;
  enrollment_status : string;
  created_at : Timestamp;
  courses : option Course.t
}.
End Enrollment.

(** [Log], with the [user_profiles] object the admin dashboard attaches
    ([(name, role)]). *)
Module Log.
Record t := mk {
  id : string;
  action : string;
  performed_by : option string;
  details : Json;
  created_at : Timestamp;
  user_profiles : option (string * string)
}.
End Log.

(* ------------------------------------------------------------------------- *)
(** ** The hosted backend (Entity Store) and the browser *)
(* ------------------------------------------------------------------------- *)

Inductive Table :=
| tbl_user_profiles | tbl_students | tbl_instructors
| tbl_courses | tbl_enrollments | tbl_logs.

Inductive Verb := SELECT | INSERT | UPDATE | DELETE.

Module PostgrestError.
Record t := mk { code : string; message : string }.
End PostgrestError.

(** Postgres' unique_violation. *)
Definition unique_violation : PostgrestError.t :=
  PostgrestError.mk "23505" "duplicate key value violates unique constraint".

(** PostgREST's answer to [.single()] when the result is not exactly one row. *)
Definition not_a_single_row : PostgrestError.t :=
  PostgrestError.mk "PGRST116" "JSON object requested, multiple (or no) rows returned".

(** Everything a handler run takes from outside the program: which backend
    calls fail (transport failure, policy denial, ...) and with which error,
    the values the database generates for defaulted columns, the browser's
    clock and random source, the user's answer to [confirm] and the id of
    the backend session's user. [fault] answers per table and verb: a
    handler makes at most one call of each kind in a run, except the log
    read, whose profile lookups (one per log entry) share one answer. *)
Module Env.
Record t := mk {
  fault : Table -> Verb -> option PostgrestError.t;
  gen_random_uuid : Table -> string;
  db_now : Timestamp;
  Date_now : Timestamp;
  generateUUID : string;
  confirm : bool;
  auth_getUser : option string
}.
End Env.

Module Store.
Record t := mk {
  user_profiles : list Profile.t;
  students : list Student.t;
  courses : list Course.t;
  enrollments : list Enrollment.t;
  logs : list Log.t
}.
End Store.

(** [localStorage], one key per mirrored table, each holding a JSON array;
    [None] is an absent key. The JSON text is kept parsed. *)
Module LocalStorage.
Record t := mk {
  demoCourses : option (list Course.t);
  demoLogs : option (list Log.t)
}.
End LocalStorage.

(** The [useState] cells of the mounted dashboard and of the open modal. *)
Module State.
Record t := mk {
  courses : list Course.t;
  enrollments : list Enrollment.t;
  logs : list Log.t;
  isLoading : bool;
  modalIsLoading : bool
}.
End State.

(** What a handler does that is visible outside the component, in the
    order it happens: calls to the backend, accesses to [localStorage],
    notifications to the user and to the console, and calls of the parent's
    callbacks. *)
Inductive Event :=
| Supabase (t : Table) (v : Verb)
| SupabaseAuthGetUser
| GetItem (key : string)
| SetItem (key : string)
| toast_error (msg : string)
| toast_success (msg : string)
| console_error (msg : string)
| onCourseAdded
| onCourseUpdated
| onClose.

Module World.
Record t := mk {
  db : Store.t;
  localStorage : LocalStorage.t;
  state : State.t
}.
End World.

(** *** The monad of the handlers: state passing over the world, with the
    events emitted on the way *)

Definition M (A : Type) : Type := World.t -> A * World.t * list Event.

Definition ret {A} (a : A) : M A := fun w => (a, w, []).

Definition bind {A B} (m : M A) (k : A -> M B) : M B :=
  fun w =>
    let '(a, w1, e1) := m w in
    let '(b, w2, e2) := k a w1 in
    (b, w2, e1 ++ e2).

Declare Scope handler_scope.
Delimit Scope handler_scope with handler.
Notation "x <- m ;; k" := (bind m (fun x => k))
  (at level 61, m at next level, right associativity) : handler_scope.
Notation "m ;; k" := (bind m (fun _ => k))
  (at level 61, right associativity) : handler_scope.
Open Scope handler_scope.

Definition get_db : M Store.t := fun w => (World.db w, w, []).

Definition put_db (s : Store.t) : M unit :=
  fun w => (tt, World.mk s (World.localStorage w) (World.state w), []).

Definition get_localStorage : M LocalStorage.t :=
  fun w => (World.localStorage w, w, []).

Definition put_localStorage (l : LocalStorage.t) : M unit :=
  fun w => (tt, World.mk (World.db w) l (World.state w), []).

Definition get_state : M State.t := fun w => (World.state w, w, []).

Definition put_state (s : State.t) : M unit :=
  fun w => (tt, World.mk (World.db w) (World.localStorage w) s, []).

Definition emit (e : Event) : M unit := fun w => (tt, w, [e]).

(** The value, the final world and the events of a run. *)
Definition eval {A} (m : M A) (w : World.t) : A := fst (fst (m w)).
Definition exec {A} (m : M A) (w : World.t) : World.t := snd (fst (m w)).
Definition events {A} (m : M A) (w : World.t) : list Event := snd (m w).

(** React state setters. *)
Definition setCourses (v : list Course.t) : M unit :=
  s <- get_state;;
  put_state (State.mk v (State.enrollments s) (State.logs s)
                      (State.isLoading s) (State.modalIsLoading s)).

Definition setEnrollments (v : list Enrollment.t) : M unit :=
  s <- get_state;;
  put_state (State.mk (State.courses s) v (State.logs s)
                      (State.isLoading s) (State.modalIsLoading s)).

Definition setLogs (v : list Log.t) : M unit :=
  s <- get_state;;
  put_state (State.mk (State.courses s) (State.enrollments s) v
                      (State.isLoading s) (State.modalIsLoading s)).

Definition setIsLoading (v : bool) : M unit :=
  s <- get_state;;
  put_state (State.mk (State.courses s) (State.enrollments s) (State.logs s)
                      v (State.modalIsLoading s)).

Definition setModalIsLoading (v : bool) : M unit :=
  s <- get_state;;
  put_state (State.mk (State.courses s) (State.enrollments s) (State.logs s)
                      (State.isLoading s) v).

(** *** Calls to the backend

    [{ data, error }]: exactly one of the two is set. *)
Inductive Response (A : Type) :=
| Ok (data : A)
| Err (error : PostgrestError.t).
Arguments Ok {A} data.
Arguments Err {A} error.

(** One call [supabase.from(t).<verb>(...)]: it is recorded; the environment
    may fail it, and then nothing is executed; otherwise [run] is executed
    on the tables. *)
Definition query {A} (env : Env.t) (t : Table) (v : Verb)
    (run : Store.t -> Response A * Store.t) : M (Response A) :=
  emit (Supabase t v);;
  match Env.fault env t v with
  | Some e => ret (Err e)
  | None =>
      s <- get_db;;
      let (r, s') := run s in
      put_db s';;
      ret r
  end.

(** [.single()] *)
Definition single {A} (rows : list A) : Response A :=
  match rows with
  | [r] => Ok r
  | _ => Err not_a_single_row
  end.

(** [.order(column, { ascending: false })]: a stable insertion sort. *)
Fixpoint insert_desc {A} (key : A -> Z) (x : A) (l : list A) : list A :=
  match l with
  | [] => [x]
  | y :: l' => if key y <=? key x then x :: l else y :: insert_desc key x l'
  end.

Definition order_desc {A} (key : A -> Z) (l : list A) : list A :=
  fold_right (insert_desc key) [] l.

Definition with_students (f : list Student.t -> list Student.t) (s : Store.t) : Store.t :=
  Store.mk (Store.user_profiles s) (f (Store.students s)) (Store.courses s)
           (Store.enrollments s) (Store.logs s).

Definition with_courses (f : list Course.t -> list Course.t) (s : Store.t) : Store.t :=
  Store.mk (Store.user_profiles s) (Store.students s) (f (Store.courses s))
           (Store.enrollments s) (Store.logs s).

Definition with_enrollments (f : list Enrollment.t -> list Enrollment.t) (s : Store.t) : Store.t :=
  Store.mk (Store.user_profiles s) (Store.students s) (Store.courses s)
           (f (Store.enrollments s)) (Store.logs s).

Definition with_logs (f : list Log.t -> list Log.t) (s : Store.t) : Store.t :=
  Store.mk (Store.user_profiles s) (Store.students s) (Store.courses s)
           (Store.enrollments s) (f (Store.logs s)).

(** [from('courses').select('*').order('created_at', { ascending: false })] *)
Definition select_courses (s : Store.t) : Response (list Course.t) * Store.t :=
  (Ok (order_desc Course.created_at (Store.courses s)), s).

(** [from('students').select('id').eq('id', id).single()] *)
Definition select_student (id : string) (s : Store.t) : Response Student.t * Store.t :=
  (single (filter (fun x => String.eqb (Student.id x) id) (Store.students s)), s).

(** [from('user_profiles').select(...).eq('id', id).single()] *)
Definition select_user_profile (id : string) (s : Store.t) : Response Profile.t * Store.t :=
  (single (filter (fun x => String.eqb (Profile.id x) id) (Store.user_profiles s)), s).

(** Modelled from the spec: the schema of [students] is not among the
    sources; a Student row is "one-to-one with a Profile", its [id] being
    the identity, so a second row with the same [id] is a unique violation.

    [from('students').insert([row])] *)
Definition insert_student (row : Student.t) (s : Store.t) : Response unit * Store.t :=
  if existsb (fun x => String.eqb (Student.id x) (Student.id row)) (Store.students s)
  then (Err unique_violation, s)
  else (Ok tt, with_students (fun l => l ++ [row]) s).

Definition same_pair (course_id student_id : string) (e : Enrollment.t) : bool :=
  String.eqb (Enrollment.course_id e) course_id
  && String.eqb (Enrollment.student_id e) student_id.

(** Modelled from the spec: the schema of [enrollments] is not among the
    sources; "Uniqueness invariant: at most one enrollment row per
    (course, student) pair", reported by the store as a unique violation.

    [from('enrollments').insert([{ course_id, student_id, enrollment_status }])] *)
Definition insert_enrollment (env : Env.t) (course_id student_id status : string)
    (s : Store.t) : Response unit * Store.t :=
  if existsb (same_pair course_id student_id) (Store.enrollments s)
  then (Err unique_violation, s)
  else (Ok tt,
        with_enrollments
          (fun l => l ++ [Enrollment.mk (Env.gen_random_uuid env tbl_enrollments)
                                        course_id student_id status
                                        (Env.db_now env) None]) s).

(** [from('enrollments').delete().eq('course_id', c).eq('student_id', u)] *)
Definition delete_enrollment (course_id student_id : string)
    (s : Store.t) : Response unit * Store.t :=
  (Ok tt, with_enrollments (filter (fun e => negb (same_pair course_id student_id e))) s).

Definition set_current_enrollment (v : Z) (c : Course.t) : Course.t :=
  Course.mk (Course.id c) (Course.name c) (Course.code c) (Course.department c)
            (Course.instructor c) (Course.instructor_id c) (Course.max_capacity c)
            v (Course.created_at c).

(** [from('courses').update({ current_enrollment: v }).eq('id', id)] *)
Definition update_current_enrollment (id : string) (v : Z)
    (s : Store.t) : Response unit * Store.t :=
  (Ok tt,
   with_courses
     (map (fun c => if String.eqb (Course.id c) id then set_current_enrollment v c else c))
     s).

(** [from('logs').insert([{ action, performed_by, details }])] *)
Definition insert_log (env : Env.t) (action : string) (performed_by : option string)
    (details : Json) (s : Store.t) : Response unit * Store.t :=
  (Ok tt,
   with_logs
     (fun l => l ++ [Log.mk (Env.gen_random_uuid env tbl_logs) action performed_by
                            details (Env.db_now env) None]) s).

(** [from('enrollments').select('*, courses(...)').eq('student_id', u)
      .order('created_at', { ascending: false })] *)
Definition select_enrollments_of (student_id : string)
    (s : Store.t) : Response (list Enrollment.t) * Store.t :=
  (Ok (order_desc Enrollment.created_at
         (map (fun e =>
                 Enrollment.mk (Enrollment.id e) (Enrollment.course_id e)
                   (Enrollment.student_id e) (Enrollment.enrollment_status e)
                   (Enrollment.created_at e)
                   (find (fun c => String.eqb (Course.id c) (Enrollment.course_id e))
                         (Store.courses s)))
              (filter (fun e => String.eqb (Enrollment.student_id e) student_id)
                      (Store.enrollments s)))),
   s).

(** JavaScript's [a || b] on strings: the empty string is falsy. *)
Definition truthy (s : string) : bool := negb (String.eqb s "").

Definition or_else (a : option string) (b : string) : string :=
  match a with
  | Some s => if truthy s then s else b
  | None => b
  end.

(* ------------------------------------------------------------------------- *)
(** ** src/components/StudentDashboard.tsx *)
(* ------------------------------------------------------------------------- *)

Module StudentDashboard.
Section Component.
Variable env : Env.t.
(** [const { user } = useAuthStore()] *)
Variable user : option User.t.
(** The [courses] state as captured by the closure of the handler that runs. *)
Variable courses : list Course.t.

Definition fetchCourses : M unit :=
  setIsLoading true;;
  r <- query env tbl_courses SELECT select_courses;;
  match r with
  | Err _ =>
      emit (console_error "Error fetching courses:");;
      emit (toast_error "Failed to load courses")
  | Ok data =>
      setCourses data;;
      setIsLoading false
  end.

Definition fetchEnrollments : M unit :=
  match user with
  | None => ret tt
  | Some u =>
      r <- query env tbl_enrollments SELECT (select_enrollments_of (User.id u));;
      match r with
      | Err _ =>
          emit (console_error "Error fetching enrollments:");;
          emit (toast_error "Failed to load your enrollments")
      | Ok data => setEnrollments data
      end
  end.

Definition ensureStudentProfile : M bool :=
  match user with
  | None => ret false
  | Some u =>
      (* First, check if student record exists *)
      r <- query env tbl_students SELECT (select_student (User.id u));;
      match r with
      | Ok _ => ret true
      | Err checkError =>
          if negb (String.eqb (PostgrestError.code checkError) "PGRST116") then
            emit (console_error "Error checking student record:");;
            ret false
          else
            (* If not, create the student record *)
            p <- query env tbl_user_profiles SELECT (select_user_profile (User.id u));;
            match p with
            | Err _ =>
                emit (console_error "Error getting user profile:");;
                ret false
            | Ok userProfile =>
                c <- query env tbl_students INSERT
                       (insert_student
                          (Student.mk (User.id u)
                             (or_else (Some (Profile.name userProfile))
                                      (or_else (User.name u) "Student User"))
                             (or_else (Some (Profile.email userProfile)) (User.email u))
                             (Some "active")));;
                match c with
                | Err _ =>
                    emit (console_error "Error creating student record:");;
                    emit (toast_error "Failed to create student profile");;
                    ret false
                | Ok _ => ret true
                end
            end
      end
  end.

Definition enrollInCourse (courseId : string) : M unit :=
  match user with
  | None => emit (toast_error "You must be logged in to enroll in a course")
  | Some u =>
      (* Ensure student profile exists *)
      profileCreated <- ensureStudentProfile;;
      if negb profileCreated then
        emit (toast_error "Could not create/verify your student profile")
      else
        (* Check if course is already full *)
        let course := find (fun c => String.eqb (Course.id c) courseId) courses in
        if match course with
           | Some c => Course.current_enrollment c >=? Course.max_capacity c
           | None => false
           end
        then emit (toast_error "This course is already full")
        else
          (* First insert the enrollment *)
          r <- query env tbl_enrollments INSERT
                 (insert_enrollment env courseId (User.id u) "enrolled");;
          match r with
          | Err enrollmentError =>
              if String.eqb (PostgrestError.code enrollmentError) "23505" then
                emit (toast_error "You are already enrolled in this course")
              else
                emit (console_error "Error enrolling in course:");;
                emit (toast_error "Failed to enroll in course")
          | Ok _ =>
              (* Then increment the course enrollment count *)
              upd <- query env tbl_courses UPDATE
                       (update_current_enrollment courseId
                          match course with
                          | Some c => Course.current_enrollment c + 1
                          | None => 1
                          end);;
              match upd with
              | Err _ => emit (console_error "Error updating course enrollment count:")
              | Ok _ => ret tt
              end;;
              (* Log the enrollment *)
              query env tbl_logs INSERT
                (insert_log env "student_enrolled" (Some (User.id u))
                   [("course_id", JString courseId); ("student_id", JString (User.id u))]);;
              emit (toast_success "Successfully enrolled in course");;
              fetchCourses;;
              fetchEnrollments
          end
  end.

Definition dropCourse (courseId : string) : M unit :=
  match user with
  | None => emit (toast_error "You must be logged in to drop a course")
  | Some u =>
      (* First delete the enrollment *)
      r <- query env tbl_enrollments DELETE (delete_enrollment courseId (User.id u));;
      match r with
      | Err _ =>
          emit (console_error "Error dropping course:");;
          emit (toast_error "Failed to drop course")
      | Ok _ =>
          (* Then decrement the course enrollment count *)
          let course := find (fun c => String.eqb (Course.id c) courseId) courses in
          upd <- query env tbl_courses UPDATE
                   (update_current_enrollment courseId
                      match course with
                      | Some c =>
                          if Course.current_enrollment c >? 0
                          then Course.current_enrollment c - 1
                          else 0
                      | None => 0
                      end);;
          match upd with
          | Err _ => emit (console_error "Error updating course enrollment count:")
          | Ok _ => ret tt
          end;;
          (* Log the drop *)
          query env tbl_logs INSERT
            (insert_log env "student_dropped" (Some (User.id u))
               [("course_id", JString courseId); ("student_id", JString (User.id u))]);;
          emit (toast_success "Successfully dropped course");;
          fetchCourses;;
          fetchEnrollments
      end
  end.

End Component.
End StudentDashboard.

(* ------------------------------------------------------------------------- *)
(** ** The demo shadow store: [localStorage] *)
(* ------------------------------------------------------------------------- *)

(** [JSON.parse(localStorage.getItem('demoCourses') || '[]')] *)
Definition getItem_demoCourses : M (list Course.t) :=
  emit (GetItem "demoCourses");;
  l <- get_localStorage;;
  ret match LocalStorage.demoCourses l with Some v => v | None => [] end.

(** [localStorage.setItem('demoCourses', JSON.stringify(v))] *)
Definition setItem_demoCourses (v : list Course.t) : M unit :=
  emit (SetItem "demoCourses");;
  l <- get_localStorage;;
  put_localStorage (LocalStorage.mk (Some v) (LocalStorage.demoLogs l)).

(** [JSON.parse(localStorage.getItem('demoLogs') || '[]')] *)
Definition getItem_demoLogs : M (list Log.t) :=
  emit (GetItem "demoLogs");;
  l <- get_localStorage;;
  ret match LocalStorage.demoLogs l with Some v => v | None => [] end.

(** [localStorage.setItem('demoLogs', JSON.stringify(v))] *)
Definition setItem_demoLogs (v : list Log.t) : M unit :=
  emit (SetItem "demoLogs");;
  l <- get_localStorage;;
  put_localStorage (LocalStorage.mk (LocalStorage.demoCourses l) (Some v)).

(** ['' + n] for an integer [n]. *)
Definition string_of_Z (z : Z) : string :=
  DecimalString.NilZero.string_of_int (Z.to_int z).

Fixpoint mapM {A B} (f : A -> M B) (l : list A) : M (list B) :=
  match l with
  | [] => ret []
  | x :: l' =>
      y <- f x;;
      ys <- mapM f l';;
      ret (y :: ys)
  end.

(** The fields a course form writes. *)
Module CourseFields.
Record t := mk {
  name : string;
  code : string;
  department : string;
  instructor_id : string;
  instructor : string;
  max_capacity : Z
}.
End CourseFields.

(** [{ ...c, ...updates }] *)
Definition apply_updates (u : CourseFields.t) (c : Course.t) : Course.t :=
  Course.mk (Course.id c) (CourseFields.name u) (CourseFields.code u)
            (CourseFields.department u) (CourseFields.instructor u)
            (CourseFields.instructor_id u) (CourseFields.max_capacity u)
            (Course.current_enrollment c) (Course.created_at c).

(** [from('courses').insert([{ ...fields, current_enrollment: 0 }]).select().single()] *)
Definition insert_course (env : Env.t) (f : CourseFields.t)
    (s : Store.t) : Response Course.t * Store.t :=
  let row :=
    Course.mk (Env.gen_random_uuid env tbl_courses) (CourseFields.name f)
              (CourseFields.code f) (CourseFields.department f)
              (CourseFields.instructor f) (CourseFields.instructor_id f)
              (CourseFields.max_capacity f) 0 (Env.db_now env) in
  (Ok row, with_courses (fun l => l ++ [row]) s).

(** [from('courses').update({ ...fields }).eq('id', id).select().single()] *)
Definition update_course (id : string) (f : CourseFields.t)
    (s : Store.t) : Response Course.t * Store.t :=
  let s' :=
    with_courses
      (map (fun c => if String.eqb (Course.id c) id then apply_updates f c else c)) s in
  (single (filter (fun c => String.eqb (Course.id c) id) (Store.courses s')), s').

(** [from('courses').delete().eq('id', id)] *)
Definition delete_course (id : string) (s : Store.t) : Response unit * Store.t :=
  (Ok tt, with_courses (filter (fun c => negb (String.eqb (Course.id c) id))) s).

(** [from('courses').select('*').eq('instructor_id', u)
      .order('created_at', { ascending: false })] *)
Definition select_courses_of (instructor_id : string)
    (s : Store.t) : Response (list Course.t) * Store.t :=
  (Ok (order_desc Course.created_at
         (filter (fun c => String.eqb (Course.instructor_id c) instructor_id)
                 (Store.courses s))), s).

(** [from('logs').select('*').order('created_at', { ascending: false }).limit(10)] *)
Definition select_logs (s : Store.t) : Response (list Log.t) * Store.t :=
  (Ok (firstn 10 (order_desc Log.created_at (Store.logs s))), s).

(** [{ ...log, user_profiles: p }] *)
Definition with_user_profiles (p : string * string) (l : Log.t) : Log.t :=
  Log.mk (Log.id l) (Log.action l) (Log.performed_by l) (Log.details l)
         (Log.created_at l) (Some p).

(* ------------------------------------------------------------------------- *)
(** ** src/components/AdminDashboard.tsx *)
(* ------------------------------------------------------------------------- *)

Module AdminDashboard.
Section Component.
Variable env : Env.t.
Variable user : option User.t.

(** Helper functions for demo users *)
Definition isDemoUser (userId : string) : bool :=
  String.eqb userId "11111111-2222-3333-4444-555555555555"    (* admin *)
  || String.eqb userId "12345678-1234-1234-1234-123456789012" (* student *)
  || String.eqb userId "87654321-4321-4321-4321-210987654321" (* instructor *).

(** [user?.id || ''] *)
Definition user_id_or_empty : string :=
  or_else (option_map User.id user) "".

Definition getDemoCoursesFromStorage : M (list Course.t) :=
  (* Get existing courses or initialize with some demo data if empty *)
  stored <- getItem_demoCourses;;
  match stored with
  | [] =>
      let seeded :=
        [ Course.mk "course-1" "Introduction to Programming" "CS101"
            "Computer Science" "Demo Instructor"
            "87654321-4321-4321-4321-210987654321" 30 15 (Env.Date_now env);
          Course.mk "course-2" "Data Structures and Algorithms" "CS201"
            "Computer Science" "Demo Instructor"
            "87654321-4321-4321-4321-210987654321" 25 18 (Env.Date_now env) ] in
      setItem_demoCourses seeded;;
      ret seeded
  | _ => ret stored
  end.

Definition addDemoLog (log : Log.t) : M unit :=
  logs <- getItem_demoLogs;;
  (* Add to beginning; keep only 20 most recent *)
  setItem_demoLogs (firstn 20 (log :: logs)).

Definition removeCourseFromDemoStorage (courseId : string) : M unit :=
  stored <- getItem_demoCourses;;
  setItem_demoCourses
    (filter (fun c => negb (String.eqb (Course.id c) courseId)) stored);;
  (* Also add to demo logs *)
  addDemoLog
    (Log.mk (String.append "log-" (string_of_Z (Env.Date_now env)))
            "course_deleted" (Some user_id_or_empty)
            [("course_id", JString courseId)]
            (Env.Date_now env)
            (Some (or_else match user with Some u => User.name u | None => None end
                           "Demo Admin",
                   "admin"))).

Definition generateDemoLogs : M (list Log.t) :=
  storedLogs <- getItem_demoLogs;;
  match storedLogs with
  | _ :: _ => ret storedLogs   (* If we have stored logs, return those *)
  | [] =>
      (* Otherwise generate some fake logs *)
      let demoLogs :=
        [ Log.mk "log-1" "course_created"
            (Some "11111111-2222-3333-4444-555555555555")
            [("course_name", JString "Introduction to Programming");
             ("course_id", JString "course-1")]
            (Env.Date_now env - 1000 * 60 * 60 * 24)
            (Some ("Demo Admin", "admin"));
          Log.mk "log-2" "course_created"
            (Some "87654321-4321-4321-4321-210987654321")
            [("course_name", JString "Data Structures and Algorithms");
             ("course_id", JString "course-2")]
            (Env.Date_now env - 1000 * 60 * 60 * 12)
            (Some ("Demo Instructor", "instructor")) ] in
      setItem_demoLogs demoLogs;;
      ret demoLogs
  end.

Definition fetchCourses : M unit :=
  setIsLoading true;;
  (* For demo users, use localStorage to get and manage courses *)
  if isDemoUser user_id_or_empty then
    demoCourses <- getDemoCoursesFromStorage;;
    setCourses demoCourses;;
    setIsLoading false
  else
    (* For real users, use Supabase *)
    r <- query env tbl_courses SELECT select_courses;;
    setIsLoading false;;
    match r with
    | Err _ =>
        emit (console_error "Error fetching courses:");;
        emit (toast_error "Failed to load courses")
    | Ok data => setCourses data
    end.

Definition fetchLogs : M unit :=
  r <- query env tbl_logs SELECT select_logs;;
  match r with
  | Err _ => emit (console_error "Error fetching logs:")
  | Ok data =>
      (* For demo users, use fake logs with user info *)
      if isDemoUser user_id_or_empty then
        demoLogs <- generateDemoLogs;;
        setLogs demoLogs
      else
        (* Manually get user names for logs where possible *)
        logsWithUserInfo <-
          mapM (fun log =>
                  let unknown := with_user_profiles ("Unknown User", "unknown") log in
                  match Log.performed_by log with
                  | Some by_id =>
                      if truthy by_id then
                        p <- query env tbl_user_profiles SELECT (select_user_profile by_id);;
                        match p with
                        | Ok userData =>
                            ret (with_user_profiles
                                   (Profile.name userData, Profile.role userData) log)
                        | Err _ => ret unknown
                        end
                      else ret unknown
                  | None => ret unknown
                  end)
               data;;
        setLogs logsWithUserInfo
  end.

Definition deleteCourse (courseId : string) : M unit :=
  if negb (Env.confirm env) then ret tt
  else
    (* For demo users, remove from localStorage *)
    if isDemoUser user_id_or_empty then
      removeCourseFromDemoStorage courseId;;
      emit (toast_success "Course deleted successfully");;
      fetchCourses
    else
      (* For real users, use Supabase *)
      r <- query env tbl_courses DELETE (delete_course courseId);;
      match r with
      | Err error =>
          emit (console_error "Error deleting course:");;
          emit (toast_error (String.append "Failed to delete course: "
                                             (PostgrestError.message error)))
      | Ok _ =>
          (* Log the action *)
          emit SupabaseAuthGetUser;;
          query env tbl_logs INSERT
            (insert_log env "course_deleted" (Env.auth_getUser env)
               [("course_id", JString courseId)]);;
          emit (toast_success "Course deleted successfully");;
          fetchCourses;;
          fetchLogs
      end.

End Component.
End AdminDashboard.

(* ------------------------------------------------------------------------- *)
(** ** src/components/AddCourseModal.tsx *)
(* ------------------------------------------------------------------------- *)

(** The [useState] cells of a course form. *)
Module Form.
Record t := mk {
  name : string;
  code : string;
  department : string;
  maxCapacity : Z;
  selectedInstructorId : string;
  instructors : list Instructor.t
}.
End Form.

Definition Role_eqb (a b : Role) : bool :=
  match a, b with
  | admin, admin | student, student | instructor, instructor => true
  | _, _ => false
  end.

(** [instructors.find(i => i.id === instructorId)?.name || 'Unknown Instructor'] *)
Definition instructor_name_or_unknown (instructors : list Instructor.t)
    (instructorId : string) : string :=
  or_else (option_map Instructor.name
             (find (fun i => String.eqb (Instructor.id i) instructorId) instructors))
          "Unknown Instructor".

(** [interface AddCourseModalProps]: the callbacks the parent passes. *)
Module AddCourseModalProps.
Record t := mk {
  onClose : M unit;
  onCourseAdded : M unit
}.
End AddCourseModalProps.

Module AddCourseModal.
Section Component.
Variable env : Env.t.
Variable user : option User.t.
Variable props : AddCourseModalProps.t.
Variable form : Form.t.

Definition isDemoUser (userId : string) : bool :=
  String.eqb userId "11111111-2222-3333-4444-555555555555"    (* admin *)
  || String.eqb userId "12345678-1234-1234-1234-123456789012" (* student *)
  || String.eqb userId "87654321-4321-4321-4321-210987654321" (* instructor *).

Definition saveCourseToDemoStorage (course : Course.t) : M unit :=
  (* Get existing courses array or initialize new one *)
  existingCourses <- getItem_demoCourses;;
  setItem_demoCourses (existingCourses ++ [course]).

(** Each call of a callback of the parent, [onCourseAdded()] and
    [onClose()], is recorded as an event and then runs what the parent
    passed; the demo branch makes the calls from a timer, 800 ms later. *)
Definition handleSubmit : M unit :=
  match user with
  | None => emit (toast_error "You must be logged in to add a course")
  | Some u =>
      (* For instructors, always use their own ID *)
      let instructorId :=
        if Role_eqb (User.role u) instructor then User.id u
        else Form.selectedInstructorId form in
      if negb (truthy instructorId) then
        emit (toast_error "Please select an instructor")
      else
        (* Get instructor name for display *)
        let instructorName :=
          if Role_eqb (User.role u) admin
          then instructor_name_or_unknown (Form.instructors form) instructorId
          else or_else (User.name u) "Unknown Instructor" in
        let fields :=
          CourseFields.mk (Form.name form) (Form.code form) (Form.department form)
                          instructorId instructorName (Form.maxCapacity form) in
        setModalIsLoading true;;
        if isDemoUser (User.id u) then
          (* Create an initial dummy course to simulate successful creation *)
          let dummyCourse :=
            Course.mk (Env.generateUUID env) (Form.name form) (Form.code form)
                      (Form.department form) instructorName instructorId
                      (Form.maxCapacity form) 0 (Env.Date_now env) in
          (* Store in local storage for persistence *)
          saveCourseToDemoStorage dummyCourse;;
          setModalIsLoading false;;
          emit (toast_success "Course added successfully");;
          emit onCourseAdded;;
          AddCourseModalProps.onCourseAdded props;;
          emit onClose;;
          AddCourseModalProps.onClose props
        else
          (* For real users, continue with normal operation *)
          r <- query env tbl_courses INSERT (insert_course env fields);;
          setModalIsLoading false;;
          match r with
          | Err error =>
              emit (console_error "Error adding course:");;
              emit (toast_error (String.append "Error adding course: "
                                                 (PostgrestError.message error)))
          | Ok course =>
              (* Log the action *)
              query env tbl_logs INSERT
                (insert_log env "course_created" (Some (User.id u))
                   [("course_id", JString (Course.id course));
                    ("course_name", JString (Form.name form));
                    ("instructor_id", JString instructorId)]);;
              emit (toast_success "Course added successfully");;
              emit onCourseAdded;;
              AddCourseModalProps.onCourseAdded props;;
              emit onClose;;
              AddCourseModalProps.onClose props
          end
  end.

End Component.
End AddCourseModal.

(* ------------------------------------------------------------------------- *)
(** ** src/components/EditCourseModal.tsx *)
(* ------------------------------------------------------------------------- *)

(** [interface EditCourseModalProps], but for [course]: the callbacks the
    parent passes. *)
Module EditCourseModalProps.
Record t := mk {
  onClose : M unit;
  onCourseUpdated : M unit
}.
End EditCourseModalProps.

Module EditCourseModal.
Section Component.
Variable env : Env.t.
Variable user : option User.t.
Variable props : EditCourseModalProps.t.
(** The [course] prop. *)
Variable course : Course.t.
Variable form : Form.t.

Definition isDemoUser (userId : string) : bool :=
  String.eqb userId "11111111-2222-3333-4444-555555555555"    (* admin *)
  || String.eqb userId "12345678-1234-1234-1234-123456789012" (* student *)
  || String.eqb userId "87654321-4321-4321-4321-210987654321" (* instructor *).

Definition updateCourseInDemoStorage (courseId : string) (updates : CourseFields.t)
    : M unit :=
  (* Get existing courses *)
  existingCourses <- getItem_demoCourses;;
  (* Find and update the course; save back to localStorage *)
  setItem_demoCourses
    (map (fun c => if String.eqb (Course.id c) courseId then apply_updates updates c else c)
         existingCourses).

Definition handleSubmit : M unit :=
  match user with
  | None => emit (toast_error "You must be logged in to update a course")
  | Some u =>
      (* For instructors, they can't change the instructor *)
      let instructorId :=
        if Role_eqb (User.role u) instructor then Course.instructor_id course
        else Form.selectedInstructorId form in
      if negb (truthy instructorId) then
        emit (toast_error "Please select an instructor")
      else
        (* Get instructor name for display if it's being changed *)
        let instructor_changed :=
          negb (String.eqb instructorId (Course.instructor_id course)) in
        let instructorName :=
          if Role_eqb (User.role u) admin && instructor_changed
          then instructor_name_or_unknown (Form.instructors form) instructorId
          else Course.instructor course in
        let fields :=
          CourseFields.mk (Form.name form) (Form.code form) (Form.department form)
                          instructorId instructorName (Form.maxCapacity form) in
        setModalIsLoading true;;
        if isDemoUser (User.id u) then
          (* Update the course in localStorage *)
          updateCourseInDemoStorage (Course.id course) fields;;
          setModalIsLoading false;;
          emit (toast_success "Course updated successfully");;
          emit onCourseUpdated;;
          EditCourseModalProps.onCourseUpdated props;;
          emit onClose;;
          EditCourseModalProps.onClose props
        else
          (* For real users, use Supabase *)
          r <- query env tbl_courses UPDATE (update_course (Course.id course) fields);;
          setModalIsLoading false;;
          match r with
          | Err error =>
              emit (console_error "Error updating course:");;
              emit (toast_error (String.append "Error updating course: "
                                                 (PostgrestError.message error)))
          | Ok _ =>
              (* Log the action *)
              query env tbl_logs INSERT
                (insert_log env "course_updated" (Some (User.id u))
                   [("course_id", JString (Course.id course));
                    ("previous_name", JString (Course.name course));
                    ("new_name", JString (Form.name form));
                    ("instructor_changed", JBool instructor_changed)]);;
              emit (toast_success "Course updated successfully");;
              emit onCourseUpdated;;
              EditCourseModalProps.onCourseUpdated props;;
              emit onClose;;
              EditCourseModalProps.onClose props
          end
  end.

End Component.
End EditCourseModal.

(* ------------------------------------------------------------------------- *)
(** ** src/components/InstructorDashboard.tsx *)
(* ------------------------------------------------------------------------- *)

Module InstructorDashboard.
Section Component.
Variable env : Env.t.
Variable user : option User.t.

Definition fetchInstructorCourses : M unit :=
  match user with
  | None => ret tt
  | Some u =>
      setIsLoading true;;
      r <- query env tbl_courses SELECT (select_courses_of (User.id u));;
      setIsLoading false;;
      match r with
      | Err _ =>
          emit (console_error "Error fetching courses:");;
          emit (toast_error "Failed to load courses")
      | Ok data => setCourses data
      end
  end.

End Component.
End InstructorDashboard.

(* ------------------------------------------------------------------------- *)
(** ** The operations of the application *)
(* ------------------------------------------------------------------------- *)

(** The two dashboards that mount the course modals. *)
Inductive Dashboard := OnAdminDashboard | OnInstructorDashboard.

(** [<AddCourseModal onClose={...} onCourseAdded={...} />] as each dashboard
    mounts it: the admin dashboard reloads its courses and its log, the
    instructor dashboard its courses. [onClose] only hides the modal
    ([setIsAddModalOpen(false)]); whether a modal is shown is not part of the
    state kept here. *)
Definition AddCourseModal_props (env : Env.t) (user : option User.t)
    (host : Dashboard) : AddCourseModalProps.t :=
  match host with
  | OnAdminDashboard =>
      AddCourseModalProps.mk
        (ret tt)
        (AdminDashboard.fetchCourses env user;; AdminDashboard.fetchLogs env user)
  | OnInstructorDashboard =>
      AddCourseModalProps.mk
        (ret tt)
        (InstructorDashboard.fetchInstructorCourses env user)
  end.

(** [<EditCourseModal course={selectedCourse} onClose={...}
    onCourseUpdated={...} />] as each dashboard mounts it. *)
Definition EditCourseModal_props (env : Env.t) (user : option User.t)
    (host : Dashboard) : EditCourseModalProps.t :=
  match host with
  | OnAdminDashboard =>
      EditCourseModalProps.mk
        (ret tt)
        (AdminDashboard.fetchCourses env user;; AdminDashboard.fetchLogs env user)
  | OnInstructorDashboard =>
      EditCourseModalProps.mk
        (ret tt)
        (InstructorDashboard.fetchInstructorCourses env user)
  end.

(** The commands a signed-in session can trigger; each runs to completion
    before the next one is accepted. A course form is submitted from the
    modal of the dashboard that hosts it. *)
Inductive Op :=
| CourseCreate (host : Dashboard) (form : Form.t)
| CourseUpdate (host : Dashboard) (course : Course.t) (form : Form.t)
| CourseDelete (courseId : string)
| AdminCourseRead
| AdminLogRead
| InstructorCourseRead
| StudentCourseRead
| StudentEnrollmentRead
| Enroll (courseId : string)
| Drop (courseId : string).

(** Handlers capture the [courses] state of the render they belong to. *)
Definition run (env : Env.t) (user : option User.t) (op : Op) : M unit :=
  match op with
  | CourseCreate host form =>
      AddCourseModal.handleSubmit env user (AddCourseModal_props env user host) form
  | CourseUpdate host course form =>
      EditCourseModal.handleSubmit env user (EditCourseModal_props env user host)
                                   course form
  | CourseDelete courseId => AdminDashboard.deleteCourse env user courseId
  | AdminCourseRead => AdminDashboard.fetchCourses env user
  | AdminLogRead => AdminDashboard.fetchLogs env user
  | InstructorCourseRead => InstructorDashboard.fetchInstructorCourses env user
  | StudentCourseRead => StudentDashboard.fetchCourses env
  | StudentEnrollmentRead => StudentDashboard.fetchEnrollments env user
  | Enroll courseId =>
      s <- get_state;;
      StudentDashboard.enrollInCourse env user (State.courses s) courseId
  | Drop courseId =>
      s <- get_state;;
      StudentDashboard.dropCourse env user (State.courses s) courseId
  end.

(** A session with changing users: commands in sequence, each with the
    signed-in user and the environment it runs in. *)
Fixpoint run_session (ops : list (Env.t * option User.t * Op)) : M unit :=
  match ops with
  | [] => ret tt
  | (env, user, op) :: ops' => run env user op;; run_session ops'
  end.

(* ------------------------------------------------------------------------- *)
(** ** Vocabulary of the properties *)
(* ------------------------------------------------------------------------- *)

(** *** Events *)

Definition Table_eqb (a b : Table) : bool :=
  match a, b with
  | tbl_user_profiles, tbl_user_profiles | tbl_students, tbl_students
  | tbl_instructors, tbl_instructors | tbl_courses, tbl_courses
  | tbl_enrollments, tbl_enrollments | tbl_logs, tbl_logs => true
  | _, _ => false
  end.

Definition Verb_eqb (a b : Verb) : bool :=
  match a, b with
  | SELECT, SELECT | INSERT, INSERT | UPDATE, UPDATE | DELETE, DELETE => true
  | _, _ => false
  end.

Definition Event_eqb (a b : Event) : bool :=
  match a, b with
  | Supabase t v, Supabase t' v' => Table_eqb t t' && Verb_eqb v v'
  | SupabaseAuthGetUser, SupabaseAuthGetUser => true
  | GetItem x, GetItem y | SetItem x, SetItem y
  | toast_error x, toast_error y
  | toast_success x, toast_success y
  | console_error x, console_error y => String.eqb x y
  | onCourseAdded, onCourseAdded
  | onCourseUpdated, onCourseUpdated
  | onClose, onClose => true
  | _, _ => false
  end.

(** [occurs e es]: the event [e] is among [es]. *)
Definition occurs (e : Event) (es : list Event) : bool :=
  existsb (Event_eqb e) es.

Definition is_supabase (e : Event) : bool :=
  match e with
  | Supabase _ _ | SupabaseAuthGetUser => true
  | _ => false
  end.

Definition is_supabase_write (e : Event) : bool :=
  match e with
  | Supabase _ INSERT | Supabase _ UPDATE | Supabase _ DELETE => true
  | _ => false
  end.

Definition is_localStorage (e : Event) : bool :=
  match e with
  | GetItem _ | SetItem _ => true
  | _ => false
  end.

(** Calls that change or remove rows of [logs]. *)
Definition rewrites_logs (e : Event) : bool :=
  match e with
  | Supabase tbl_logs UPDATE | Supabase tbl_logs DELETE => true
  | _ => false
  end.

Definition never_supabase (e : Event) : bool := negb (is_supabase e).

Definition never_localStorage (e : Event) : bool := negb (is_localStorage e).

Definition never_rewrites_logs (e : Event) : bool := negb (rewrites_logs e).

Definition any_event (_ : Event) : bool := true.

(** *** Outcomes of [enrollInCourse] and [dropCourse], as the user is told them *)

Definition NotLoggedIn : Event :=
  toast_error "You must be logged in to enroll in a course".
Definition ProfileError : Event :=
  toast_error "Could not create/verify your student profile".
Definition CapacityExceeded : Event :=
  toast_error "This course is already full".
Definition DuplicateEnrollment : Event :=
  toast_error "You are already enrolled in this course".
Definition StoreError : Event :=
  toast_error "Failed to enroll in course".
Definition EnrollSuccess : Event :=
  toast_success "Successfully enrolled in course".
Definition DropSuccess : Event :=
  toast_success "Successfully dropped course".

(** *** Enrollment bookkeeping *)

(** The stored rows of a course (one, [id] being the key of [courses]). *)
Definition stored_course (s : Store.t) (courseId : string) : list Course.t :=
  filter (fun c => String.eqb (Course.id c) courseId) (Store.courses s).

Definition enrolled (s : Store.t) (courseId studentId : string) : bool :=
  existsb (same_pair courseId studentId) (Store.enrollments s).

(** The condition of the capacity check of [enrollInCourse], on the cached
    course list. *)
Definition capacity_check_full (courses : list Course.t) (courseId : string) : bool :=
  match find (fun c => String.eqb (Course.id c) courseId) courses with
  | Some c => Course.current_enrollment c >=? Course.max_capacity c
  | None => false
  end.

(** The Enrollment row an accepted insert adds. *)
Definition new_enrollment (env : Env.t) (courseId studentId : string) : Enrollment.t :=
  Enrollment.mk (Env.gen_random_uuid env tbl_enrollments) courseId studentId
                "enrolled" (Env.db_now env) None.

(** The log entry [enrollInCourse] appends. *)
Definition enrollment_log_entry (env : Env.t) (courseId studentId : string) : Log.t :=
  Log.mk (Env.gen_random_uuid env tbl_logs) "student_enrolled" (Some studentId)
         [("course_id", JString courseId); ("student_id", JString studentId)]
         (Env.db_now env) None.

(** The counter value [dropCourse] writes: the cached counter minus one,
    floored at zero; zero for a course that is not cached. *)
Definition dropped_counter (courses : list Course.t) (courseId : string) : Z :=
  match find (fun c => String.eqb (Course.id c) courseId) courses with
  | Some c =>
      if Course.current_enrollment c >? 0 then Course.current_enrollment c - 1 else 0
  | None => 0
  end.

Definition pair_of (e : Enrollment.t) : string * string :=
  (Enrollment.course_id e, Enrollment.student_id e).

(** At most one Enrollment row per (course, student) pair. *)
Definition unique_pairs (s : Store.t) : Prop :=
  NoDup (map pair_of (Store.enrollments s)).

(** *** The demo gate *)

(** The sentinel identities of the demo mode. *)
Definition sentinel (user : option User.t) : bool :=
  AdminDashboard.isDemoUser (AdminDashboard.user_id_or_empty user).

(** Operations whose handler branches on [isDemoUser] before it touches
    any store. *)
Definition demo_gated (op : Op) : bool :=
  match op with
  | CourseCreate _ _ | CourseUpdate _ _ _ | CourseDelete _ | AdminCourseRead => true
  | _ => false
  end.

(** Operations whose handler has no demo branch. *)
Definition without_demo_branch (op : Op) : bool :=
  match op with
  | InstructorCourseRead | StudentCourseRead | StudentEnrollmentRead
  | Enroll _ | Drop _ => true
  | _ => false
  end.

(** A course mutation passes the checks that precede its write: an
    instructor is selected, resp. the user confirms the deletion. *)
Definition goes_through (env : Env.t) (user : option User.t) (op : Op) : bool :=
  match user, op with
  | Some u, CourseCreate _ form =>
      truthy (if Role_eqb (User.role u) instructor then User.id u
              else Form.selectedInstructorId form)
  | Some u, CourseUpdate _ course form =>
      truthy (if Role_eqb (User.role u) instructor then Course.instructor_id course
              else Form.selectedInstructorId form)
  | _, CourseDelete _ => Env.confirm env
  | _, _ => false
  end.

(** The course and log lists of the demo shadow store, as
    [JSON.parse(localStorage.getItem(key) || '[]')] reads them. *)
Definition demo_courses (w : World.t) : list Course.t :=
  match LocalStorage.demoCourses (World.localStorage w) with
  | Some v => v
  | None => []
  end.

Definition demo_logs (w : World.t) : list Log.t :=
  match LocalStorage.demoLogs (World.localStorage w) with
  | Some v => v
  | None => []
  end.

(** The instructor a course form is submitted for: [own] for an instructor,
    the selected one otherwise. *)
Definition submitted_instructor (u : User.t) (own : string) (form : Form.t) : string :=
  if Role_eqb (User.role u) instructor then own else Form.selectedInstructorId form.

(** The course a sentinel's create adds: the form's fields, a counter of 0,
    the browser's random id and clock. *)
Definition demo_course (env : Env.t) (u : User.t) (form : Form.t) : Course.t :=
  let instructorId := submitted_instructor u (User.id u) form in
  Course.mk (Env.generateUUID env) (Form.name form) (Form.code form)
            (Form.department form)
            (if Role_eqb (User.role u) admin
             then instructor_name_or_unknown (Form.instructors form) instructorId
             else or_else (User.name u) "Unknown Instructor")
            instructorId (Form.maxCapacity form) 0 (Env.Date_now env).

(** The fields an edit of [course] writes. *)
Definition edit_fields (u : User.t) (course : Course.t) (form : Form.t)
    : CourseFields.t :=
  let instructorId := submitted_instructor u (Course.instructor_id course) form in
  CourseFields.mk (Form.name form) (Form.code form) (Form.department form)
                  instructorId
                  (if Role_eqb (User.role u) admin
                      && negb (String.eqb instructorId (Course.instructor_id course))
                   then instructor_name_or_unknown (Form.instructors form) instructorId
                   else Course.instructor course)
                  (Form.maxCapacity form).

(** The demo list [l] after the course mutation [op] of user [u] is applied
    to it: create appends, update rewrites the rows of the course in place,
    delete removes them. *)
Definition shadow_after (env : Env.t) (u : User.t) (op : Op)
    (l : list Course.t) : list Course.t :=
  match op with
  | CourseCreate _ form => l ++ [demo_course env u form]
  | CourseUpdate _ course form =>
      map (fun c => if String.eqb (Course.id c) (Course.id course)
                    then apply_updates (edit_fields u course form) c else c) l
  | CourseDelete courseId =>
      filter (fun c => negb (String.eqb (Course.id c) courseId)) l
  | _ => l
  end.

(** The two courses the admin dashboard puts into an empty demo list. *)
Definition demo_seed (env : Env.t) : list Course.t :=
  [ Course.mk "course-1" "Introduction to Programming" "CS101" "Computer Science"
              "Demo Instructor" "87654321-4321-4321-4321-210987654321" 30 15
              (Env.Date_now env);
    Course.mk "course-2" "Data Structures and Algorithms" "CS201" "Computer Science"
              "Demo Instructor" "87654321-4321-4321-4321-210987654321" 25 18
              (Env.Date_now env) ].

(** What the admin dashboard's course read finds in, and leaves as, the demo
    list [l]. *)
Definition seeded (env : Env.t) (l : list Course.t) : list Course.t :=
  match l with
  | [] => demo_seed env
  | _ :: _ => l
  end.

(** Operations that end with the admin dashboard's course read. *)
Definition admin_read_follows (op : Op) : bool :=
  match op with
  | CourseCreate OnAdminDashboard _ | CourseUpdate OnAdminDashboard _ _
  | CourseDelete _ | AdminCourseRead => true
  | _ => false
  end.

(** The backend calls of a sentinel's demo-gated operation: none of its own;
    the reload the hosting dashboard passes to a course form reads the log
    (admin dashboard) or the courses (instructor dashboard) from the
    backend. *)
Definition reload_calls (op : Op) : list Event :=
  match op with
  | CourseCreate OnAdminDashboard _ | CourseUpdate OnAdminDashboard _ _ =>
      [Supabase tbl_logs SELECT]
  | CourseCreate OnInstructorDashboard _ | CourseUpdate OnInstructorDashboard _ _ =>
      [Supabase tbl_courses SELECT]
  | _ => []
  end.

(** The two entries the admin dashboard puts into an empty demo log. *)
Definition demo_log_seed (env : Env.t) : list Log.t :=
  [ Log.mk "log-1" "course_created" (Some "11111111-2222-3333-4444-555555555555")
           [("course_name", JString "Introduction to Programming");
            ("course_id", JString "course-1")]
           (Env.Date_now env - 1000 * 60 * 60 * 24)
           (Some ("Demo Admin", "admin"));
    Log.mk "log-2" "course_created" (Some "87654321-4321-4321-4321-210987654321")
           [("course_name", JString "Data Structures and Algorithms");
            ("course_id", JString "course-2")]
           (Env.Date_now env - 1000 * 60 * 60 * 12)
           (Some ("Demo Instructor", "instructor")) ].

(** The entry a sentinel's delete puts at the head of the demo log. *)
Definition demo_deletion_entry (env : Env.t) (u : User.t) (courseId : string) : Log.t :=
  Log.mk (String.append "log-" (string_of_Z (Env.Date_now env)))
         "course_deleted" (Some (User.id u))
         [("course_id", JString courseId)]
         (Env.Date_now env)
         (Some (or_else (User.name u) "Demo Admin", "admin")).

(** What an operation without demo branch does with the tables, for the
    caller [user], sentinel or not. *)
Definition applied_to_store (env : Env.t) (user : option User.t) (op : Op)
    (w : World.t) : Prop :=
  let r := run env user op in
  let w' := exec r w in
  match op with
  | StudentCourseRead =>
      filter is_supabase (events r w) = [Supabase tbl_courses SELECT]
      /\ World.db w' = World.db w
      /\ (Env.fault env tbl_courses SELECT = None ->
          State.courses (World.state w')
          = order_desc Course.created_at (Store.courses (World.db w)))
  | StudentEnrollmentRead =>
      forall u, user = Some u ->
        filter is_supabase (events r w) = [Supabase tbl_enrollments SELECT]
        /\ World.db w' = World.db w
        /\ (Env.fault env tbl_enrollments SELECT = None ->
            Ok (State.enrollments (World.state w'))
            = fst (select_enrollments_of (User.id u) (World.db w)))
  | InstructorCourseRead =>
      forall u, user = Some u ->
        filter is_supabase (events r w) = [Supabase tbl_courses SELECT]
        /\ World.db w' = World.db w
        /\ (Env.fault env tbl_courses SELECT = None ->
            State.courses (World.state w')
            = order_desc Course.created_at
                (filter (fun c => String.eqb (Course.instructor_id c) (User.id u))
                        (Store.courses (World.db w))))
  | Enroll courseId =>
      forall u, user = Some u ->
        hd_error (events r w) = Some (Supabase tbl_students SELECT)
        /\ (eval (StudentDashboard.ensureStudentProfile env user) w = true ->
            capacity_check_full (State.courses (World.state w)) courseId = false ->
            Env.fault env tbl_enrollments INSERT = None ->
            enrolled (World.db w) courseId (User.id u) = false ->
            Store.enrollments (World.db w')
            = Store.enrollments (World.db w) ++ [new_enrollment env courseId (User.id u)])
  | Drop courseId =>
      forall u, user = Some u ->
        hd_error (events r w) = Some (Supabase tbl_enrollments DELETE)
        /\ (Env.fault env tbl_enrollments DELETE = None ->
            Store.enrollments (World.db w')
            = filter (fun e => negb (same_pair courseId (User.id u) e))
                     (Store.enrollments (World.db w)))
  | _ => True
  end.

(** *** What a run keeps *)

(** [keeps P Q E m]: whatever the world [m] starts in, the tables before and
    after are related by [P], the [localStorage] before and after by [Q],
    and every event of the run satisfies [E]. *)
Definition keeps (P : Store.t -> Store.t -> Prop)
    (Q : LocalStorage.t -> LocalStorage.t -> Prop) (E : Event -> bool)
    {A} (m : M A) : Prop :=
  forall w,
    P (World.db w) (World.db (exec m w))
    /\ Q (World.localStorage w) (World.localStorage (exec m w))
    /\ forallb E (events m w) = true.

Definition anything {A} (_ _ : A) : Prop := True.

Definition logs_extended (s s' : Store.t) : Prop :=
  exists added, Store.logs s' = Store.logs s ++ added.

Definition unique_pairs_kept (s s' : Store.t) : Prop :=
  unique_pairs s -> unique_pairs s'.

(** Only [students] may differ. *)
Definition only_students_differ (s s' : Store.t) : Prop :=
  Store.user_profiles s' = Store.user_profiles s
  /\ Store.courses s' = Store.courses s
  /\ Store.enrollments s' = Store.enrollments s
  /\ Store.logs s' = Store.logs s.

(** The events of [ensureStudentProfile]. *)
Definition profile_step_event (e : Event) : bool :=
  match e with
  | Supabase tbl_students SELECT
  | Supabase tbl_user_profiles SELECT
  | Supabase tbl_students INSERT => true
  | console_error _ => true
  | toast_error msg => String.eqb msg "Failed to create student profile"
  | _ => false
  end.

(** The events of the refetches that end [enrollInCourse] and [dropCourse]. *)
Definition refetch_event (e : Event) : bool :=
  match e with
  | Supabase tbl_courses SELECT
  | Supabase tbl_enrollments SELECT => true
  | console_error _ => true
  | toast_error msg =>
      String.eqb msg "Failed to load courses"
      || String.eqb msg "Failed to load your enrollments"
  | _ => false
  end.

(** The only backend write the profile step of [enrollInCourse] makes. *)
Definition no_write_but_student_row (e : Event) : bool :=
  negb (is_supabase_write e) || Event_eqb e (Supabase tbl_students INSERT).

Create HintDb handlers.
#[local] Hint Unfold
  setCourses setEnrollments setLogs setIsLoading setModalIsLoading
  getItem_demoCourses setItem_demoCourses getItem_demoLogs setItem_demoLogs
  StudentDashboard.fetchCourses StudentDashboard.fetchEnrollments
  StudentDashboard.ensureStudentProfile StudentDashboard.enrollInCourse
  StudentDashboard.dropCourse
  AdminDashboard.getDemoCoursesFromStorage AdminDashboard.addDemoLog
  AdminDashboard.removeCourseFromDemoStorage AdminDashboard.generateDemoLogs
  AdminDashboard.fetchCourses AdminDashboard.fetchLogs AdminDashboard.deleteCourse
  AddCourseModal.saveCourseToDemoStorage AddCourseModal.handleSubmit
  EditCourseModal.updateCourseInDemoStorage EditCourseModal.handleSubmit
  InstructorDashboard.fetchInstructorCourses
  : handlers.

(* ------------------------------------------------------------------------- *)
(** ** Sample data *)
(* ------------------------------------------------------------------------- *)

Definition sample_env (fault : Table -> Verb -> option PostgrestError.t) : Env.t :=
  Env.mk fault (fun _ => "00000000-0000-4000-8000-000000000001")
         1700000000000 1700000000000 "00000000-0000-4000-8000-000000000002"
         true None.

Definition no_faults : Env.t := sample_env (fun _ _ => None).

Definition counter_update_refused : Env.t :=
  sample_env (fun t v =>
                match t, v with
                | tbl_courses, UPDATE =>
                    Some (PostgrestError.mk "42501" "permission denied for table courses")
                | _, _ => None
                end).

Definition alice : User.t :=
  User.mk "a11ce" "alice@example.com" student (Some "Alice").

Definition alice_student : Student.t :=
  Student.mk "a11ce" "Alice" "alice@example.com" (Some "active").

Definition alice_profile : Profile.t :=
  Profile.mk "a11ce" "alice@example.com" "Alice" "student".

Definition bob_profile : Profile.t :=
  Profile.mk "b0b" "bob@example.com" "Bob" "student".

Definition bob : User.t :=
  User.mk "b0b" "bob@example.com" student (Some "Bob").

Definition bob_student : Student.t :=
  Student.mk "b0b" "Bob" "bob@example.com" (Some "active").

Definition demo_student : User.t :=
  User.mk "12345678-1234-1234-1234-123456789012" "demo.student@example.com"
          student (Some "Demo Student").

Definition demo_student_row : Student.t :=
  Student.mk "12345678-1234-1234-1234-123456789012" "Demo Student"
             "demo.student@example.com" (Some "active").

Definition demo_admin : User.t :=
  User.mk "11111111-2222-3333-4444-555555555555" "demo.admin@example.com"
          admin (Some "Demo Admin").

(** A course with the given counter and capacity. *)
Definition algebra (current_enrollment max_capacity : Z) : Course.t :=
  Course.mk "algebra" "Algebra" "MATH101" "Mathematics" "Emmy" "n0ether"
            max_capacity current_enrollment 1690000000000.

Definition alice_in_algebra : Enrollment.t :=
  Enrollment.mk "e-1" "algebra" "a11ce" "enrolled" 1695000000000 None.

Definition bob_in_algebra : Enrollment.t :=
  Enrollment.mk "e-0" "algebra" "b0b" "enrolled" 1694000000000 None.

(** A world with the given tables and cached course list; [localStorage] is
    empty. *)
Definition sample_world (students : list Student.t) (courses : list Course.t)
    (enrollments : list Enrollment.t) (cached : list Course.t) : World.t :=
  World.mk (Store.mk [alice_profile] students courses enrollments [])
           (LocalStorage.mk None None)
           (State.mk cached [] [] false false).

Definition new_course_form : Form.t :=
  Form.mk "Topology" "MATH301" "Mathematics" 20
          "87654321-4321-4321-4321-210987654321"
          [Instructor.mk "87654321-4321-4321-4321-210987654321" "Demo Instructor"
                         "Computer Science"].

Definition sample_auth_users : list Policy.AuthUser.t :=
  [ Policy.AuthUser.mk "r00t" (Some "admin");
    Policy.AuthUser.mk "n0ether" (Some "instructor");
    Policy.AuthUser.mk "a11ce" (Some "student");
    Policy.AuthUser.mk "b0b" (Some "student") ].

(* ------------------------------------------------------------------------- *)
(** ** src/components/StudentDashboard.tsx: the button of a course card *)
(* ------------------------------------------------------------------------- *)

Module CourseCard.
Section Component.
Variable env : Env.t.
Variable user : option User.t.
(** The [courses] and [enrollments] state of the render the card belongs to. *)
Variable courses : list Course.t.
Variable enrollments : list Enrollment.t.





End Component.
End CourseCard.

(* ------------------------------------------------------------------------- *)
(** ** src/components/AdminDashboard.tsx: the description of a log entry *)
(* ------------------------------------------------------------------------- *)

(** [details?.key]; of two members with the same key the later one counts. *)
Definition details_get (details : Json) (key : string) : option JsonValue :=
  option_map snd (find (fun kv => String.eqb (fst kv) key) (rev details)).

(** [s || 'Unknown'] *)
Definition shown (s : string) : string :=
  if truthy s then s else "Unknown".

(** [v || 'Unknown'] inside a template literal. *)
Definition or_unknown (v : option JsonValue) : string :=
  match v with
  | Some (JString s) => shown s
  | Some (JBool true) => "true"
  | Some (JBool false) | None => "Unknown"
  end.

(** The double quote character. *)
Definition quote : string := String (Ascii.ascii_of_nat 34) EmptyString.

Definition getActionDescription (log : Log.t) : string :=
  let details := Log.details log in
  if String.eqb (Log.action log) "course_created" then
    String.concat EmptyString
      ["Created course "; quote; or_unknown (details_get details "course_name"); quote]
  else if String.eqb (Log.action log) "course_updated" then
    String.concat EmptyString
      ["Updated course "; quote; or_unknown (details_get details "previous_name"); quote;
       " to "; quote; or_unknown (details_get details "new_name"); quote]
  else if String.eqb (Log.action log) "course_deleted" then
    String.append "Deleted course with ID " (or_unknown (details_get details "course_id"))
  else if truthy (Log.action log) then Log.action log
  else "Unknown action".

(* ------------------------------------------------------------------------- *)
(** ** Vocabulary of the further properties *)
(* ------------------------------------------------------------------------- *)

(** A Student row with the given [id] is stored. *)
Definition has_student_row (s : Store.t) (id : string) : bool :=
  existsb (fun x => String.eqb (Student.id x) id) (Store.students s).

(** The notices [enrollInCourse] ends with, for a signed-in user. *)
Definition enroll_outcomes : list Event :=
  [ProfileError; CapacityExceeded; DuplicateEnrollment; StoreError; EnrollSuccess].

(** The outcomes among [enroll_outcomes] that a run told the user. *)
Definition outcomes_told (es : list Event) : list Event :=
  filter (fun o => occurs o es) enroll_outcomes.

(** What an edit of the course [courseId] may do to a row: the row keeps its
    [id], its enrollment counter and its creation time, and either stays as
    it is or is the edited course and takes the form's fields and
    [instructorId]. *)
Definition edit_of (courseId : string) (form : Form.t) (instructorId : string)
    (old new : Course.t) : Prop :=
  Course.id new = Course.id old
  /\ Course.current_enrollment new = Course.current_enrollment old
  /\ Course.created_at new = Course.created_at old
  /\ (new = old
      \/ (Course.id old = courseId
          /\ Course.name new = Form.name form
          /\ Course.code new = Form.code form
          /\ Course.department new = Form.department form
          /\ Course.max_capacity new = Form.maxCapacity form
          /\ Course.instructor_id new = instructorId)).

(** The events of the reads of the admin dashboard, which also end a course
    deletion. *)
Definition admin_read_event (e : Event) : bool :=
  match e with
  | Supabase _ SELECT | GetItem _ | SetItem _ | console_error _ => true
  | toast_error msg => String.eqb msg "Failed to load courses"
  | _ => false
  end.

(** The row [deleteCourse] adds to the action log. *)
Definition deletion_log_entry (env : Env.t) (courseId : string) : Log.t :=
  Log.mk (Env.gen_random_uuid env tbl_logs) "course_deleted" (Env.auth_getUser env)
         [("course_id", JString courseId)] (Env.db_now env) None.

(** How the admin dashboard shows a stored log entry: the entry itself with
    a name and a role attached, which are those of a stored profile of the
    entry's [performed_by], or the placeholder. *)
Definition shown_as (s : Store.t) (stored shown : Log.t) : Prop :=
  exists p,
    shown = with_user_profiles p stored
    /\ (p = ("Unknown User", "unknown")
        \/ exists row,
             In row (Store.user_profiles s)
             /\ Log.performed_by stored = Some (Profile.id row)
             /\ p = (Profile.name row, Profile.role row)).

(** Operations whose handler starts by checking that a user is signed in. *)
Definition login_guarded (op : Op) : bool :=
  match op with
  | CourseCreate _ _ | CourseUpdate _ _ _ | Enroll _ | Drop _
  | InstructorCourseRead | StudentEnrollmentRead => true
  | CourseDelete _ | AdminCourseRead | AdminLogRead | StudentCourseRead => false
  end.

(** How the admin dashboard describes the log entry an operation writes. *)
Definition expected_description (op : Op) : string :=
  match op with
  | CourseCreate _ form =>
      String.concat EmptyString ["Created course "; quote; shown (Form.name form); quote]
  | CourseUpdate _ course form =>
      String.concat EmptyString
        ["Updated course "; quote; shown (Course.name course); quote;
         " to "; quote; shown (Form.name form); quote]
  | CourseDelete courseId => String.append "Deleted course with ID " (shown courseId)
  | Enroll _ => "student_enrolled"
  | Drop _ => "student_dropped"
  | _ => ""
  end.

(** The log has only gained entries, each described as [d]. *)
Definition logs_described (d : string) (s s' : Store.t) : Prop :=
  exists added,
    Store.logs s' = Store.logs s ++ added
    /\ Forall (fun l => getActionDescription l = d) added.

(** *** Enrollment counters *)

(** [counted a]: no course inside [a] has a negative [current_enrollment].
    Values without courses are counted as they are. *)
Class Counted (A : Type) := counted : A -> Prop.

#[local] Instance Counted_unit : Counted unit := fun _ => True.
#[local] Instance Counted_bool : Counted bool := fun _ => True.
#[local] Instance Counted_Student : Counted Student.t := fun _ => True.
#[local] Instance Counted_Profile : Counted Profile.t := fun _ => True.
#[local] Instance Counted_Enrollment : Counted Enrollment.t := fun _ => True.
#[local] Instance Counted_Log : Counted Log.t := fun _ => True.
#[local] Instance Counted_Course : Counted Course.t :=
  fun c => 0 <= Course.current_enrollment c.
#[local] Instance Counted_list {A} `{Counted A} : Counted (list A) :=
  fun l => Forall counted l.
#[local] Instance Counted_Response {A} `{Counted A} : Counted (Response A) :=
  fun r => match r with Ok a => counted a | Err _ => True end.
#[local] Instance Counted_Store : Counted Store.t :=
  fun s => counted (Store.courses s).
#[local] Instance Counted_State : Counted State.t :=
  fun s => counted (State.courses s).
#[local] Instance Counted_LocalStorage : Counted LocalStorage.t :=
  fun l => match LocalStorage.demoCourses l with
           | Some v => counted v
           | None => True
           end.
#[local] Instance Counted_World : Counted World.t :=
  fun w => counted (World.db w) /\ counted (World.localStorage w)
           /\ counted (World.state w).

(** [safe m]: run from a counted world, [m] ends in a counted world and
    returns a counted value. *)
Definition safe {A} `{Counted A} (m : M A) : Prop :=
  forall w, counted w -> counted (exec m w) /\ counted (eval m w).

(** No enrollment counter is negative: in the [courses] table, in the
    course list the dashboard holds, and in the demo list. *)
Definition counters_ok (w : World.t) : Prop :=
  let ok := Forall (fun c => 0 <= Course.current_enrollment c) in
  ok (Store.courses (World.db w))
  /\ ok (State.courses (World.state w))
  /\ ok (demo_courses w).

(* ========================================================================= *)
(** * Properties *)
(* ========================================================================= *)

(* ------------------------------------------------------------------------- *)
(** ** The policy evaluator *)
(* ------------------------------------------------------------------------- *)

Module PolicyFacts.
Import Policy.
Section WithAuthUsers.
Variable auth_users : list AuthUser.t.
(** [id] is the key of [auth.users]. *)
Hypothesis auth_users_key : NoDup (map AuthUser.id auth_users).

Lemma where_clause_bool (u i r : string) (ro : option string) :
  is_true (sql_and (sql_eq (Some u) (Some i)) (sql_eq ro (Some r)))
  = String.eqb u i && match ro with Some x => String.eqb x r | None => false end.
Proof.
  unfold sql_eq. destruct ro as [x|]; cbn.
  - destruct (String.eqb u i), (String.eqb x r); reflexivity.
  - destruct (String.eqb u i); reflexivity.
Qed.

Lemma exists_auth_user_cons (a : AuthUser.t) (l : list AuthUser.t) (u r : string) :
  exists_auth_user_with_role (a :: l) (Authenticated u) r
  = (String.eqb u (AuthUser.id a)
     && match AuthUser.raw_user_meta_data_role a with
        | Some x => String.eqb x r
        | None => false
        end)
    || exists_auth_user_with_role l (Authenticated u) r.
Proof.
  unfold exists_auth_user_with_role. cbn [existsb auth_uid].
  now rewrite where_clause_bool.
Qed.

Lemma no_user_no_role (l : list AuthUser.t) (u r : string) :
  ~ In u (map AuthUser.id l) ->
  exists_auth_user_with_role l (Authenticated u) r = false.
Proof.
  induction l as [|a l IH]; intros Hn.
  - reflexivity.
  - rewrite exists_auth_user_cons. cbn in Hn.
    destruct (String.eqb_spec u (AuthUser.id a)) as [->|_].
    + exfalso. apply Hn. now left.
    + cbn. apply IH. intros Hin. apply Hn. now right.
Qed.

Lemma role_from_metadata_iff (c : Caller) (r : string) :
  exists_auth_user_with_role auth_users c r = true <-> role_claim auth_users c = Some r.
Proof.
  destruct c as [|u].
  - unfold exists_auth_user_with_role, role_claim. cbn. split; [|discriminate].
    intros H. apply existsb_exists in H. destruct H as [a [_ H]].
    destruct (AuthUser.raw_user_meta_data_role a) as [x|]; cbn in H; [|discriminate].
    destruct (String.eqb x r); discriminate.
  - unfold role_claim. cbn [auth_uid].
    revert auth_users_key. clear. induction auth_users as [|a l IH]; intros Hk.
    + cbn. split; discriminate.
    + inversion Hk as [|? ? Hnotin Hk']; subst.
      rewrite exists_auth_user_cons. cbn [find].
      rewrite (String.eqb_sym (AuthUser.id a) u).
      destruct (String.eqb_spec u (AuthUser.id a)) as [->|Hne].
      * rewrite (no_user_no_role l _ r Hnotin), orb_false_r. cbn.
        destruct (AuthUser.raw_user_meta_data_role a) as [x|].
        -- split; intros H.
           ++ apply String.eqb_eq in H. now subst.
           ++ injection H as ->. apply String.eqb_refl.
        -- split; discriminate.
      * cbn. apply IH, Hk'.
Qed.

Lemma own_row_iff (c : Caller) (i : string) :
  is_true (own_row c i) = true <-> caller_id c = Some i.
Proof.
  destruct c as [|u]; cbn.
  - split; discriminate.
  - destruct (String.eqb_spec i u) as [->|Hne]; split; intros H;
      try reflexivity; try discriminate.
    injection H as ->. now elim Hne.
Qed.

Lemma is_true_or_bool (x : sqlbool) (b : bool) :
  is_true (sql_or x (Some b)) = is_true x || b.
Proof. destruct x as [[|]|], b; reflexivity. Qed.

(** C6. A read of a [user_profiles] row passes the policy
    "allow_users_to_read_own_profile" if and only if the caller's id is the
    row's id or the caller's role claim is admin; so a caller with role claim
    admin reads every row, and a caller with role claim student reads
    exactly its own. *)
Theorem profile_read_policy (c : Caller) (row : Profile.t) :
  (allow_users_to_read_own_profile auth_users c row = true
   <-> caller_id c = Some (Profile.id row) \/ role_claim auth_users c = Some "admin")
  /\ (role_claim auth_users c = Some "admin" ->
      allow_users_to_read_own_profile auth_users c row = true)
  /\ (role_claim auth_users c = Some "student" ->
      (allow_users_to_read_own_profile auth_users c row = true
       <-> caller_id c = Some (Profile.id row))).
Proof.
  assert (Hiff :
    allow_users_to_read_own_profile auth_users c row = true
    <-> caller_id c = Some (Profile.id row) \/ role_claim auth_users c = Some "admin").
  { unfold allow_users_to_read_own_profile, is_admin_from_metadata.
    rewrite is_true_or_bool, andb_true_iff, orb_true_iff.
    rewrite own_row_iff, role_from_metadata_iff.
    destruct c as [|uid]; cbn.
    - split; [intros [H _]; discriminate|intros [H|H]; discriminate].
    - tauto. }
  split; [exact Hiff|]. split.
  - intros Hadmin. apply Hiff. now right.
  - intros Hstudent. rewrite Hiff. split; [|now left].
    intros [H|H]; [exact H|congruence].
Qed.

(** C7. A read of a [students] row passes the policy
    "allow_students_to_read_own_record" if and only if the caller's id is the
    row's id or the caller's role claim is admin or instructor; so a caller
    with role claim student is denied every other student's row and reads
    its own. *)
Theorem student_read_policy (c : Caller) (row : Student.t) :
  (allow_students_to_read_own_record auth_users c row = true
   <-> caller_id c = Some (Student.id row)
       \/ role_claim auth_users c = Some "admin"
       \/ role_claim auth_users c = Some "instructor")
  /\ (role_claim auth_users c = Some "student" ->
      (caller_id c <> Some (Student.id row) ->
       allow_students_to_read_own_record auth_users c row = false)
      /\ (caller_id c = Some (Student.id row) ->
          allow_students_to_read_own_record auth_users c row = true)).
Proof.
  assert (Hiff :
    allow_students_to_read_own_record auth_users c row = true
    <-> caller_id c = Some (Student.id row)
        \/ role_claim auth_users c = Some "admin"
        \/ role_claim auth_users c = Some "instructor").
  { unfold allow_students_to_read_own_record, is_admin_from_metadata,
      is_instructor_from_metadata.
    rewrite !is_true_or_bool, andb_true_iff, !orb_true_iff.
    rewrite own_row_iff, !role_from_metadata_iff.
    destruct c as [|uid]; cbn.
    - split; [intros [H _]; discriminate|intros [H|[H|H]]; discriminate].
    - tauto. }
  split; [exact Hiff|]. intros Hstudent. split.
  - intros Hother.
    destruct (allow_students_to_read_own_record auth_users c row) eqn:Hallow;
      [|reflexivity].
    destruct (proj1 Hiff eq_refl) as [H|[H|H]]; [contradiction|congruence|congruence].
  - intros Hown. apply Hiff. now left.
Qed.

End WithAuthUsers.
End PolicyFacts.

(** The direct lookup is outside the policy path: it returns Bob's profile
    whoever asks, while the read policy hides that row from Alice. *)
Example direct_lookup_is_not_filtered :
  Policy.get_user_profile_direct [alice_profile; bob_profile] "b0b" = [bob_profile]
  /\ Policy.allow_users_to_read_own_profile sample_auth_users
       (Policy.Authenticated "a11ce") bob_profile = false.
Proof. split; reflexivity. Qed.

Lemma sample_auth_users_key :
  NoDup (map Policy.AuthUser.id sample_auth_users).
Proof.
  repeat constructor; cbn; intuition discriminate.
Defined.

Lemma profile_read_policy_witness :
  NoDup (map Policy.AuthUser.id sample_auth_users)
  /\ Policy.allow_users_to_read_own_profile sample_auth_users
       (Policy.Authenticated "r00t") alice_profile = true
  /\ Policy.allow_users_to_read_own_profile sample_auth_users
       (Policy.Authenticated "a11ce") alice_profile = true
  /\ Policy.allow_users_to_read_own_profile sample_auth_users
       (Policy.Authenticated "a11ce") bob_profile = false.
Proof.
  split; [exact sample_auth_users_key|].
  split; [|split].
  - exact (proj1 (proj2 (PolicyFacts.profile_read_policy sample_auth_users
                           sample_auth_users_key (Policy.Authenticated "r00t")
                           alice_profile)) eq_refl).
  - exact (proj2 (proj2 (proj2 (PolicyFacts.profile_read_policy sample_auth_users
                           sample_auth_users_key (Policy.Authenticated "a11ce")
                           alice_profile)) eq_refl) eq_refl).
  - reflexivity.
Defined.

Lemma student_read_policy_witness :
  NoDup (map Policy.AuthUser.id sample_auth_users)
  /\ Policy.allow_students_to_read_own_record sample_auth_users
       (Policy.Authenticated "a11ce") bob_student = false
  /\ Policy.allow_students_to_read_own_record sample_auth_users
       (Policy.Authenticated "a11ce") alice_student = true.
Proof.
  split; [exact sample_auth_users_key|].
  destruct (proj2 (PolicyFacts.student_read_policy sample_auth_users
                     sample_auth_users_key (Policy.Authenticated "a11ce")
                     bob_student) eq_refl) as [Hdenied _].
  destruct (proj2 (PolicyFacts.student_read_policy sample_auth_users
                     sample_auth_users_key (Policy.Authenticated "a11ce")
                     alice_student) eq_refl) as [_ Hown].
  split; [apply Hdenied; discriminate|exact (Hown eq_refl)].
Defined.

(* ------------------------------------------------------------------------- *)
(** ** Reasoning about handlers *)
(* ------------------------------------------------------------------------- *)

Lemma run_bind {A B} (m : M A) (k : A -> M B) (w : World.t) :
  bind m k w =
  (eval (k (eval m w)) (exec m w),
   exec (k (eval m w)) (exec m w),
   events m w ++ events (k (eval m w)) (exec m w)).
Proof.
  unfold bind, eval, exec, events.
  destruct (m w) as [[a w1] e1]. cbn.
  destruct (k a w1) as [[b w2] e2]. reflexivity.
Qed.

Lemma exec_bind {A B} (m : M A) (k : A -> M B) (w : World.t) :
  exec (bind m k) w = exec (k (eval m w)) (exec m w).
Proof. unfold exec at 1. now rewrite run_bind. Qed.

Lemma eval_bind {A B} (m : M A) (k : A -> M B) (w : World.t) :
  eval (bind m k) w = eval (k (eval m w)) (exec m w).
Proof. unfold eval at 1. now rewrite run_bind. Qed.

Lemma events_bind {A B} (m : M A) (k : A -> M B) (w : World.t) :
  events (bind m k) w = events m w ++ events (k (eval m w)) (exec m w).
Proof. unfold events at 1. now rewrite run_bind. Qed.

Section Keeps.
Variable P : Store.t -> Store.t -> Prop.
Variable Q : LocalStorage.t -> LocalStorage.t -> Prop.
Variable E : Event -> bool.
Hypothesis P_refl : forall s, P s s.
Hypothesis P_trans : forall a b c, P a b -> P b c -> P a c.
Hypothesis Q_refl : forall l, Q l l.
Hypothesis Q_trans : forall a b c, Q a b -> Q b c -> Q a c.

Lemma keeps_ret {A} (a : A) : keeps P Q E (ret a).
Proof. intros w. cbn. auto. Qed.

Lemma keeps_bind {A B} (m : M A) (k : A -> M B) :
  keeps P Q E m -> (forall a, keeps P Q E (k a)) -> keeps P Q E (bind m k).
Proof.
  intros Hm Hk w. rewrite exec_bind, events_bind, forallb_app.
  destruct (Hm w) as (Hp & Hq & He).
  destruct (Hk (eval m w) (exec m w)) as (Hp' & Hq' & He').
  rewrite He, He'. eauto.
Qed.

Lemma keeps_emit (e : Event) : E e = true -> keeps P Q E (emit e).
Proof. intros He w. cbn. rewrite He. auto. Qed.

Lemma keeps_get_state : keeps P Q E get_state.
Proof. intros w. cbn. auto. Qed.

Lemma keeps_put_state (s : State.t) : keeps P Q E (put_state s).
Proof. intros w. cbn. auto. Qed.

Lemma keeps_get_localStorage : keeps P Q E get_localStorage.
Proof. intros w. cbn. auto. Qed.

Lemma keeps_put_localStorage (l : LocalStorage.t) :
  (forall l0, Q l0 l) -> keeps P Q E (put_localStorage l).
Proof. intros H w. cbn. auto. Qed.

Lemma keeps_query {A} (env : Env.t) (t : Table) (v : Verb)
    (run : Store.t -> Response A * Store.t) :
  E (Supabase t v) = true ->
  (forall s, P s (snd (run s))) ->
  keeps P Q E (query env t v run).
Proof.
  intros He Hrun. unfold query. apply keeps_bind; [now apply keeps_emit|intros _].
  destruct (Env.fault env t v); [apply keeps_ret|].
  intros w. unfold exec, events, bind, get_db, put_db, ret.
  specialize (Hrun (World.db w)).
  destruct (run (World.db w)) as [r s']. cbn in *. auto.
Qed.

Lemma keeps_mapM {A B} (f : A -> M B) (l : list A) :
  (forall x, keeps P Q E (f x)) -> keeps P Q E (mapM f l).
Proof.
  intros Hf. induction l as [|x l IH]; cbn [mapM].
  - apply keeps_ret.
  - apply keeps_bind; [apply Hf|intros y].
    apply keeps_bind; [apply IH|intros ys]. apply keeps_ret.
Qed.

End Keeps.

(** Walks through a handler, one construct at a time. [run_tac] settles what a
    backend call does to the tables, [ls_tac] what [setItem] does to
    [localStorage]. *)
Ltac keeps_step run_tac ls_tac :=
  match goal with
  | |- keeps _ _ _ (ret _) => apply keeps_ret; solve [eauto]
  | |- keeps _ _ _ (emit _) => apply keeps_emit; [solve [eauto] .. | reflexivity]
  | |- keeps _ _ _ get_state => apply keeps_get_state; solve [eauto]
  | |- keeps _ _ _ (put_state _) => apply keeps_put_state; solve [eauto]
  | |- keeps _ _ _ get_localStorage =>
      apply keeps_get_localStorage; solve [eauto]
  | |- keeps _ _ _ (put_localStorage _) =>
      apply keeps_put_localStorage; [solve [eauto] .. | solve [ls_tac]]
  | |- keeps _ _ _ (query _ _ _ _) =>
      apply keeps_query; [solve [eauto] .. | reflexivity | solve [run_tac]]
  | |- keeps _ _ _ (mapM _ _) => apply keeps_mapM; [solve [eauto] .. | intro]
  | |- keeps _ _ _ (bind _ _) => apply keeps_bind; [solve [eauto] .. | | intro]
  | H : ?x = _ |- keeps _ _ _ (match ?x with _ => _ end) => rewrite H
  | |- keeps _ _ _ (match ?x with _ => _ end) => destruct x eqn:?
  end.

Ltac keeps_walk run_tac ls_tac := repeat keeps_step run_tac ls_tac.

(** Lays the handler of an operation open, with the callbacks its dashboard
    passes. *)
Ltac open_run :=
  cbn [run]; autounfold with handlers;
  cbn [AddCourseModal_props EditCourseModal_props
       AddCourseModalProps.onCourseAdded AddCourseModalProps.onClose
       EditCourseModalProps.onCourseUpdated EditCourseModalProps.onClose];
  autounfold with handlers.

(** One case per operation, and per hosting dashboard for the course forms. *)
Ltac each_op op :=
  destruct op;
  try match goal with host : Dashboard |- _ => destruct host end.

(** *** What the operations keep *)

Lemma logs_extended_refl (s : Store.t) : logs_extended s s.
Proof. exists []. now rewrite app_nil_r. Qed.

Lemma logs_extended_trans (a b c : Store.t) :
  logs_extended a b -> logs_extended b c -> logs_extended a c.
Proof.
  intros [x Hx] [y Hy]. exists (x ++ y). now rewrite Hy, Hx, app_assoc.
Qed.

Lemma anything_refl {A} (a : A) : anything a a.
Proof. exact I. Qed.

Lemma anything_trans {A} (a b c : A) : anything a b -> anything b c -> anything a c.
Proof. intros _ _. exact I. Qed.

#[local] Hint Resolve logs_extended_refl logs_extended_trans
  anything_refl anything_trans : core.

Ltac logs_run :=
  intro;
  unfold select_courses, select_student, select_user_profile, insert_student,
    insert_enrollment, delete_enrollment, update_current_enrollment, insert_log,
    select_enrollments_of, insert_course, update_course, delete_course,
    select_courses_of, select_logs;
  repeat match goal with
         | |- context [if ?b then _ else _] => destruct b
         end;
  cbn; first [apply logs_extended_refl
             | exists []; cbn; symmetry; apply app_nil_r
             | eexists; reflexivity].

Lemma run_logs_extended (env : Env.t) (user : option User.t) (op : Op) :
  keeps logs_extended anything never_rewrites_logs (run env user op).
Proof.
  each_op op; open_run; keeps_walk logs_run ltac:(intro; exact I).
Qed.

(** *** Events of a run *)

Lemma Table_eqb_eq (a b : Table) : Table_eqb a b = true -> a = b.
Proof. destruct a, b; cbn; congruence. Qed.

Lemma Verb_eqb_eq (a b : Verb) : Verb_eqb a b = true -> a = b.
Proof. destruct a, b; cbn; congruence. Qed.

Lemma Event_eqb_eq (a b : Event) : Event_eqb a b = true -> a = b.
Proof.
  destruct a, b; cbn; intros H; try discriminate; try reflexivity;
    try (apply String.eqb_eq in H; now subst).
  apply andb_prop in H. destruct H as [Ht Hv].
  apply Table_eqb_eq in Ht. apply Verb_eqb_eq in Hv. now subst.
Qed.

Lemma occurs_app (e : Event) (a b : list Event) :
  occurs e (a ++ b) = occurs e a || occurs e b.
Proof. apply existsb_app. Qed.

(** An event that a class of events excludes does not occur in a run made of
    that class. *)
Lemma occurs_excluded (E : Event -> bool) (e : Event) (es : list Event) :
  forallb E es = true -> E e = false -> occurs e es = false.
Proof.
  intros Hall He. unfold occurs.
  destruct (existsb (Event_eqb e) es) eqn:Hex; [|reflexivity].
  apply existsb_exists in Hex. destruct Hex as [x [Hin Heq]].
  apply Event_eqb_eq in Heq. subst x.
  rewrite forallb_forall in Hall. rewrite (Hall e Hin) in He. discriminate.
Qed.

(** *** The profile step and the refetches *)

Lemma only_students_differ_refl (s : Store.t) : only_students_differ s s.
Proof. repeat split. Qed.

Lemma only_students_differ_trans (a b c : Store.t) :
  only_students_differ a b -> only_students_differ b c -> only_students_differ a c.
Proof.
  unfold only_students_differ. intros (H1 & H2 & H3 & H4) (G1 & G2 & G3 & G4).
  repeat split; congruence.
Qed.

Lemma eq_chain {A} (a b c : A) : a = b -> b = c -> a = c.
Proof. congruence. Qed.

#[local] Hint Resolve only_students_differ_refl only_students_differ_trans
  anything_refl anything_trans : core.
#[local] Hint Resolve eq_chain : core.

Ltac students_run :=
  intro;
  unfold select_student, select_user_profile, insert_student;
  repeat match goal with
         | |- context [if ?b then _ else _] => destruct b
         end;
  cbn; repeat split.

Lemma ensureStudentProfile_keeps (env : Env.t) (user : option User.t) :
  keeps only_students_differ eq profile_step_event
        (StudentDashboard.ensureStudentProfile env user).
Proof.
  autounfold with handlers. keeps_walk students_run fail.
Qed.

Ltac same_run :=
  intro; unfold select_courses, select_enrollments_of; reflexivity.

Lemma refetch_keeps (env : Env.t) (user : option User.t) :
  keeps eq eq refetch_event
        (StudentDashboard.fetchCourses env;; StudentDashboard.fetchEnrollments env user).
Proof.
  autounfold with handlers. keeps_walk same_run fail.
Qed.

(* ------------------------------------------------------------------------- *)
(** ** The enrollment coordinator *)
(* ------------------------------------------------------------------------- *)

Lemma run_query {A} (env : Env.t) (t : Table) (v : Verb)
    (run : Store.t -> Response A * Store.t) (w : World.t) :
  query env t v run w =
  match Env.fault env t v with
  | Some e => (Err e, w, [Supabase t v])
  | None =>
      (fst (run (World.db w)),
       World.mk (snd (run (World.db w))) (World.localStorage w) (World.state w),
       [Supabase t v])
  end.
Proof.
  unfold query, bind, emit, get_db, put_db, ret.
  destruct (Env.fault env t v); [reflexivity|].
  destruct (run (World.db w)); destruct w; reflexivity.
Qed.

Lemma run_emit_then {A} (e : Event) (k : M A) (w : World.t) :
  (emit e;; k) w = (eval k w, exec k w, e :: events k w).
Proof.
  unfold bind, emit, eval, exec, events. destruct (k w) as [[a w'] es]. reflexivity.
Qed.

Section Enroll.
Variable env : Env.t.
Variable u : User.t.
Variable courses : list Course.t.
Variable courseId : string.
Variable w : World.t.

Let ensure := StudentDashboard.ensureStudentProfile env (Some u).
Let r := StudentDashboard.enrollInCourse env (Some u) courses courseId.

(** The counter value [enrollInCourse] writes. *)
Let counter : Z :=
  match find (fun c => String.eqb (Course.id c) courseId) courses with
  | Some c => Course.current_enrollment c + 1
  | None => 1
  end.

(** The run of [enrollInCourse] for a signed-in user, path by path: the
    tables it leaves and the events it emits, after those of the profile
    step. *)
Lemma enrollInCourse_run :
  World.localStorage (exec r w) = World.localStorage w
  /\ if negb (eval ensure w) then
       World.db (exec r w) = World.db (exec ensure w)
       /\ events r w = events ensure w ++ [ProfileError]
     else if capacity_check_full courses courseId then
       World.db (exec r w) = World.db (exec ensure w)
       /\ events r w = events ensure w ++ [CapacityExceeded]
     else
       match Env.fault env tbl_enrollments INSERT with
       | Some e =>
           World.db (exec r w) = World.db (exec ensure w)
           /\ events r w =
              events ensure w ++ Supabase tbl_enrollments INSERT ::
                (if String.eqb (PostgrestError.code e) "23505"
                 then [DuplicateEnrollment]
                 else [console_error "Error enrolling in course:"; StoreError])
       | None =>
           if enrolled (World.db (exec ensure w)) courseId (User.id u) then
             World.db (exec r w) = World.db (exec ensure w)
             /\ events r w =
                events ensure w ++ [Supabase tbl_enrollments INSERT; DuplicateEnrollment]
           else
             let s2 :=
               with_enrollments
                 (fun l => l ++ [new_enrollment env courseId (User.id u)])
                 (World.db (exec ensure w)) in
             let s3 :=
               match Env.fault env tbl_courses UPDATE with
               | Some _ => s2
               | None => snd (update_current_enrollment courseId counter s2)
               end in
             let s4 :=
               match Env.fault env tbl_logs INSERT with
               | Some _ => s3
               | None =>
                   snd (insert_log env "student_enrolled" (Some (User.id u))
                          [("course_id", JString courseId);
                           ("student_id", JString (User.id u))] s3)
               end in
             World.db (exec r w) = s4
             /\ exists tail,
                 forallb refetch_event tail = true
                 /\ events r w =
                    events ensure w
                    ++ [Supabase tbl_enrollments INSERT; Supabase tbl_courses UPDATE]
                    ++ (match Env.fault env tbl_courses UPDATE with
                        | Some _ => [console_error "Error updating course enrollment count:"]
                        | None => []
                        end)
                    ++ [Supabase tbl_logs INSERT; EnrollSuccess]
                    ++ tail
       end.
Proof.
  destruct (ensureStudentProfile_keeps env (Some u) w) as (_ & Hls & _).
  fold ensure in Hls.
  subst r. unfold StudentDashboard.enrollInCourse.
  fold ensure.
  rewrite exec_bind, events_bind.
  set (w1 := exec ensure w) in *. set (e1 := events ensure w).
  destruct (eval ensure w); cbn [negb].
  2:{ cbn. rewrite Hls. repeat split; reflexivity. }
  fold (capacity_check_full courses courseId).
  destruct (capacity_check_full courses courseId).
  { cbn. rewrite Hls. repeat split; reflexivity. }
  unfold exec, events. rewrite run_bind. unfold exec, events, eval.
  rewrite run_query.
  destruct (Env.fault env tbl_enrollments INSERT) as [e|].
  { cbn [fst snd]. rewrite Hls.
    destruct (String.eqb (PostgrestError.code e) "23505"); cbn; repeat split; reflexivity. }
  assert (Hins :
    insert_enrollment env courseId (User.id u) "enrolled" (World.db w1) =
    if enrolled (World.db w1) courseId (User.id u)
    then (Err unique_violation, World.db w1)
    else (Ok tt,
          with_enrollments
            (fun l => l ++ [new_enrollment env courseId (User.id u)])
            (World.db w1))) by reflexivity.
  rewrite Hins. clear Hins.
  destruct (enrolled (World.db w1) courseId (User.id u)).
  { cbn. rewrite Hls. repeat split; reflexivity. }
  cbn [fst snd].
  set (s2 := with_enrollments _ (World.db w1)).
  fold counter.
  rewrite run_bind. unfold exec, events, eval. rewrite run_query.
  set (tail := (StudentDashboard.fetchCourses env;;
                StudentDashboard.fetchEnrollments env (Some u))).
  assert (Htail : forall w0, World.db (exec tail w0) = World.db w0
                          /\ World.localStorage (exec tail w0) = World.localStorage w0
                          /\ forallb refetch_event (events tail w0) = true).
  { intros w0. destruct (refetch_keeps env (Some u) w0) as (A & B & C). auto. }
  destruct (Env.fault env tbl_courses UPDATE) as [e|];
    cbn [fst snd]; rewrite run_bind; unfold exec, events, eval; cbn [fst snd];
    rewrite run_bind; unfold exec, events, eval; rewrite run_query;
    destruct (Env.fault env tbl_logs INSERT) as [e'|];
    cbn [fst snd]; rewrite run_emit_then; cbn [fst snd];
    match goal with
    | |- context [exec tail ?w0] =>
        destruct (Htail w0) as (Hd & Hl & He); rewrite Hd, Hl
    end;
    cbn [World.db World.localStorage]; (split; [symmetry; exact Hls|]);
    (split; [reflexivity|]); eexists; (split; [exact He|]);
    cbn; reflexivity.
Qed.

End Enroll.

Section Drop.
Variable env : Env.t.
Variable u : User.t.
Variable courses : list Course.t.
Variable courseId : string.
Variable w : World.t.

Let r := StudentDashboard.dropCourse env (Some u) courses courseId.

(** The counter value [dropCourse] writes. *)
Let counter : Z :=
  match find (fun c => String.eqb (Course.id c) courseId) courses with
  | Some c =>
      if Course.current_enrollment c >? 0 then Course.current_enrollment c - 1 else 0
  | None => 0
  end.

(** The run of [dropCourse] for a signed-in user, path by path. *)
Lemma dropCourse_run :
  World.localStorage (exec r w) = World.localStorage w
  /\ match Env.fault env tbl_enrollments DELETE with
     | Some _ =>
         World.db (exec r w) = World.db w
         /\ events r w =
            [Supabase tbl_enrollments DELETE; console_error "Error dropping course:";
             toast_error "Failed to drop course"]
     | None =>
         let s1 := snd (delete_enrollment courseId (User.id u) (World.db w)) in
         let s2 :=
           match Env.fault env tbl_courses UPDATE with
           | Some _ => s1
           | None => snd (update_current_enrollment courseId counter s1)
           end in
         let s3 :=
           match Env.fault env tbl_logs INSERT with
           | Some _ => s2
           | None =>
               snd (insert_log env "student_dropped" (Some (User.id u))
                      [("course_id", JString courseId);
                       ("student_id", JString (User.id u))] s2)
           end in
         World.db (exec r w) = s3
         /\ exists tail,
             forallb refetch_event tail = true
             /\ events r w =
                [Supabase tbl_enrollments DELETE; Supabase tbl_courses UPDATE]
                ++ (match Env.fault env tbl_courses UPDATE with
                    | Some _ => [console_error "Error updating course enrollment count:"]
                    | None => []
                    end)
                ++ [Supabase tbl_logs INSERT; DropSuccess]
                ++ tail
     end.
Proof.
  subst r. unfold StudentDashboard.dropCourse.
  unfold exec, events. rewrite run_bind. unfold exec, events, eval.
  rewrite run_query.
  destruct (Env.fault env tbl_enrollments DELETE) as [e|].
  { cbn. repeat split; reflexivity. }
  fold counter.
  set (s1 := snd (delete_enrollment courseId (User.id u) (World.db w))).
  change (fst (delete_enrollment courseId (User.id u) (World.db w)))
    with (@Ok unit tt).
  cbn [fst snd].
  rewrite run_bind. unfold exec, events, eval. rewrite run_query.
  set (tail := (StudentDashboard.fetchCourses env;;
                StudentDashboard.fetchEnrollments env (Some u))).
  assert (Htail : forall w0, World.db (exec tail w0) = World.db w0
                          /\ World.localStorage (exec tail w0) = World.localStorage w0
                          /\ forallb refetch_event (events tail w0) = true).
  { intros w0. destruct (refetch_keeps env (Some u) w0) as (A & B & C). auto. }
  destruct (Env.fault env tbl_courses UPDATE) as [e|];
    cbn [fst snd]; rewrite run_bind; unfold exec, events, eval; cbn [fst snd];
    rewrite run_bind; unfold exec, events, eval; rewrite run_query;
    destruct (Env.fault env tbl_logs INSERT) as [e'|];
    cbn [fst snd]; rewrite run_emit_then; cbn [fst snd];
    match goal with
    | |- context [exec tail ?w0] =>
        destruct (Htail w0) as (Hd & Hl & He); rewrite Hd, Hl
    end;
    cbn [World.db World.localStorage]; (split; [reflexivity|]);
    (split; [reflexivity|]); eexists; (split; [exact He|]);
    cbn; reflexivity.
Qed.

End Drop.

(** ** Facts about the tables *)

Lemma stored_course_update (cid : string) (v : Z) (l : list Course.t) :
  filter (fun c => String.eqb (Course.id c) cid)
         (map (fun c => if String.eqb (Course.id c) cid
                        then set_current_enrollment v c else c) l)
  = map (set_current_enrollment v) (filter (fun c => String.eqb (Course.id c) cid) l).
Proof.
  induction l as [|c l IH]; [reflexivity|]. cbn [map filter].
  destruct (String.eqb (Course.id c) cid) eqn:Hc.
  - cbn [Course.id set_current_enrollment]. rewrite Hc. cbn [map]. now rewrite IH.
  - rewrite Hc. apply IH.
Qed.

Lemma same_pair_refl (env : Env.t) (cid sid : string) :
  same_pair cid sid (new_enrollment env cid sid) = true.
Proof. unfold same_pair. cbn. now rewrite !String.eqb_refl. Qed.

Lemma filter_absent_pair (cid sid : string) (l : list Enrollment.t) :
  existsb (same_pair cid sid) l = false ->
  filter (fun e => negb (same_pair cid sid e)) l = l.
Proof.
  induction l as [|e l IH]; [reflexivity|]. cbn [existsb filter]. intros H.
  apply orb_false_elim in H. destruct H as [He Hl].
  rewrite He. cbn [negb]. now rewrite IH.
Qed.

Lemma same_pair_iff (cid sid : string) (e : Enrollment.t) :
  same_pair cid sid e = true <-> pair_of e = (cid, sid).
Proof.
  unfold same_pair, pair_of. rewrite andb_true_iff, !String.eqb_eq.
  split; [intros [-> ->]; reflexivity | intros H; now inversion H].
Qed.

Lemma absent_pair_not_in (cid sid : string) (l : list Enrollment.t) :
  existsb (same_pair cid sid) l = false -> ~ In (cid, sid) (map pair_of l).
Proof.
  intros H Hin. apply in_map_iff in Hin. destruct Hin as [e [He Hin]].
  assert (Ht : existsb (same_pair cid sid) l = true).
  { apply existsb_exists. exists e. split; [assumption|]. now apply same_pair_iff. }
  congruence.
Qed.

Lemma filter_keeps_pairs_distinct (keep : Enrollment.t -> bool)
    (rows : list Enrollment.t) :
  NoDup (map pair_of rows) -> NoDup (map pair_of (filter keep rows)).
Proof.
  induction rows as [|e rows IH]; cbn; intros Hnd; [constructor|].
  apply NoDup_cons_iff in Hnd. destruct Hnd as [Hfresh Hrest].
  destruct (keep e); cbn; [|now apply IH].
  constructor; [|now apply IH].
  rewrite in_map_iff. intros [x [Hx Hin]]. apply Hfresh.
  rewrite in_map_iff. exists x. split; [exact Hx|].
  now apply filter_In in Hin.
Qed.

Lemma NoDup_map_snoc {A B} (f : A -> B) (l : list A) (a : A) :
  NoDup (map f l) -> ~ In (f a) (map f l) -> NoDup (map f (l ++ [a])).
Proof.
  intros Hl Hn. rewrite map_app. cbn.
  apply NoDup_app; [assumption | repeat constructor; intros [] | ].
  intros x Hx [<-|[]]. contradiction.
Qed.

Arguments StudentDashboard.ensureStudentProfile : simpl never.

Lemma Event_eqb_refl (e : Event) : Event_eqb e e = true.
Proof.
  destruct e; cbn; try reflexivity; try apply String.eqb_refl.
  destruct t, v; reflexivity.
Qed.

Lemma occurs_in (e : Event) (es : list Event) : In e es -> occurs e es = true.
Proof.
  intros H. apply existsb_exists. exists e. split; [assumption|apply Event_eqb_refl].
Qed.

Lemma enrolled_after_profile_step (env : Env.t) (user : option User.t)
    (w : World.t) (cid sid : string) :
  enrolled (World.db (exec (StudentDashboard.ensureStudentProfile env user) w)) cid sid
  = enrolled (World.db w) cid sid.
Proof.
  destruct (ensureStudentProfile_keeps env user w) as ((_ & _ & Hen & _) & _ & _).
  unfold enrolled. now rewrite Hen.
Qed.

(** Settles [occurs e es = false] for the events of a run of [enrollInCourse]
    or [dropCourse], given what its segments are made of. *)
Ltac absent He1 Htail :=
  rewrite ?occurs_app;
  rewrite ?(occurs_excluded _ _ _ He1) by reflexivity;
  rewrite ?(occurs_excluded _ _ _ Htail) by reflexivity;
  repeat match goal with
         | |- context [match ?x with _ => _ end] => destruct x
         end;
  reflexivity.

(** C1 (amended). For a signed-in student whose student record is verified,
    a course that is in the cached course list, no Enrollment row for the
    pair, and a store that answers the insert: [enrollInCourse] reports
    success if and only if the cached [current_enrollment] is below the
    cached [max_capacity]; after a success an Enrollment row for the pair
    exists and, when the store accepts the counter update, the stored counter
    of the course is the cached [current_enrollment] plus one. *)
Theorem fresh_enrollment (env : Env.t) (u : User.t) (courses : list Course.t)
    (courseId : string) (c : Course.t) (w : World.t) :
  find (fun c => String.eqb (Course.id c) courseId) courses = Some c ->
  enrolled (World.db w) courseId (User.id u) = false ->
  eval (StudentDashboard.ensureStudentProfile env (Some u)) w = true ->
  Env.fault env tbl_enrollments INSERT = None ->
  let r := StudentDashboard.enrollInCourse env (Some u) courses courseId in
  (occurs EnrollSuccess (events r w) = true
   <-> Course.current_enrollment c < Course.max_capacity c)
  /\ (occurs EnrollSuccess (events r w) = true ->
      enrolled (World.db (exec r w)) courseId (User.id u) = true
      /\ (Env.fault env tbl_courses UPDATE = None ->
          stored_course (World.db (exec r w)) courseId
          = map (set_current_enrollment (Course.current_enrollment c + 1))
                (stored_course (World.db w) courseId))).
Proof.
  intros Hfind Hfresh Hens Hins r.
  destruct (ensureStudentProfile_keeps env (Some u) w)
    as ((_ & Hco & Hen & _) & _ & He1).
  destruct (enrollInCourse_run env u courses courseId w) as (_ & Hrun).
  fold r in Hrun. rewrite Hens in Hrun. cbn [negb] in Hrun.
  unfold capacity_check_full in Hrun. rewrite Hfind in Hrun.
  rewrite Hins, enrolled_after_profile_step, Hfresh in Hrun.
  destruct (Course.current_enrollment c >=? Course.max_capacity c) eqn:Hfull.
  - destruct Hrun as (_ & Hev).
    assert (Hno : occurs EnrollSuccess (events r w) = false).
    { rewrite Hev. absent He1 He1. }
    rewrite Hno. apply Z.geb_le in Hfull. split; [split; [discriminate|lia]|discriminate].
  - cbn zeta in Hrun. destruct Hrun as (Hdb & tail & Htail & Hev).
    assert (Hyes : occurs EnrollSuccess (events r w) = true).
    { apply occurs_in. rewrite Hev, !in_app_iff. cbn. intuition reflexivity. }
    rewrite Hyes. rewrite Z.geb_leb in Hfull. apply Z.leb_gt in Hfull.
    split; [split; auto|]. intros _. rewrite Hdb. split.
    + unfold enrolled.
      destruct (Env.fault env tbl_logs INSERT), (Env.fault env tbl_courses UPDATE);
        cbn; rewrite existsb_app; cbn; rewrite same_pair_refl;
        now rewrite orb_true_r.
    + intros Hupd. rewrite Hupd. unfold stored_course.
      destruct (Env.fault env tbl_logs INSERT); cbn;
        now rewrite stored_course_update, Hco.
Qed.

Lemma fresh_enrollment_witness :
  let w := sample_world [alice_student] [algebra 0 1] [] [algebra 0 1] in
  let r := StudentDashboard.enrollInCourse no_faults (Some alice) [algebra 0 1] "algebra" in
  occurs EnrollSuccess (events r w) = true
  /\ enrolled (World.db (exec r w)) "algebra" "a11ce" = true
  /\ stored_course (World.db (exec r w)) "algebra" = [algebra 1 1].
Proof.
  intros w r.
  destruct (fresh_enrollment no_faults alice [algebra 0 1] "algebra" (algebra 0 1) w
              eq_refl eq_refl eq_refl eq_refl) as [Hiff Hafter].
  assert (Hs : occurs EnrollSuccess (events r w) = true).
  { apply Hiff. reflexivity. }
  destruct (Hafter Hs) as [Hrow Hcount].
  split; [exact Hs|]. split; [exact Hrow|]. exact (Hcount eq_refl).
Defined.

(** C1 (as stated) fails on the code. First input: the cached snapshot shows
    0 of 1 seats taken while the store already holds 1 of 1 (another student
    enrolled since the last fetch); Alice has no Enrollment row. The enroll
    succeeds although the stored course is full, and the stored counter stays
    1 instead of growing by one. Second input: the course is not in the
    cached list and is full in the store (3 of 3); the enroll succeeds and
    the counter is overwritten with 1. *)
Lemma fresh_enrollment_counterexample :
  (let w := sample_world [alice_student; bob_student] [algebra 1 1]
                         [bob_in_algebra] [algebra 0 1] in
   let r := StudentDashboard.enrollInCourse no_faults (Some alice)
              [algebra 0 1] "algebra" in
   enrolled (World.db w) "algebra" "a11ce" = false
   /\ stored_course (World.db w) "algebra" = [algebra 1 1]
   /\ occurs EnrollSuccess (events r w) = true
   /\ stored_course (World.db (exec r w)) "algebra" = [algebra 1 1])
  /\
  (let w := sample_world [alice_student] [algebra 3 3] [] [] in
   let r := StudentDashboard.enrollInCourse no_faults (Some alice) [] "algebra" in
   enrolled (World.db w) "algebra" "a11ce" = false
   /\ stored_course (World.db w) "algebra" = [algebra 3 3]
   /\ occurs EnrollSuccess (events r w) = true
   /\ stored_course (World.db (exec r w)) "algebra" = [algebra 1 3]).
Proof. vm_compute. repeat split. Qed.

(** C4 (amended). Whenever the capacity check of [enrollInCourse] is reached
    and finds the cached course full, the call fails with CapacityExceeded
    and writes nothing from the check on: no Enrollment row is inserted, no
    course (so no [current_enrollment]) is changed, no log entry is appended,
    [localStorage] is untouched; the only backend write the whole call can
    contain is the insert of the caller's Student row by the profile step
    that precedes the check. *)
Theorem capacity_exceeded (env : Env.t) (u : User.t) (courses : list Course.t)
    (courseId : string) (w : World.t) :
  eval (StudentDashboard.ensureStudentProfile env (Some u)) w = true ->
  capacity_check_full courses courseId = true ->
  let r := StudentDashboard.enrollInCourse env (Some u) courses courseId in
  occurs CapacityExceeded (events r w) = true
  /\ occurs EnrollSuccess (events r w) = false
  /\ Store.enrollments (World.db (exec r w)) = Store.enrollments (World.db w)
  /\ Store.courses (World.db (exec r w)) = Store.courses (World.db w)
  /\ Store.logs (World.db (exec r w)) = Store.logs (World.db w)
  /\ Store.user_profiles (World.db (exec r w)) = Store.user_profiles (World.db w)
  /\ World.localStorage (exec r w) = World.localStorage w
  /\ World.db (exec r w)
     = World.db (exec (StudentDashboard.ensureStudentProfile env (Some u)) w)
  /\ forallb no_write_but_student_row (events r w) = true.
Proof.
  intros Hens Hfull r.
  destruct (ensureStudentProfile_keeps env (Some u) w)
    as ((Hup & Hco & Hen & Hlo) & _ & He1).
  destruct (enrollInCourse_run env u courses courseId w) as (Hls & Hrun).
  fold r in Hrun, Hls. rewrite Hens, Hfull in Hrun. cbn [negb] in Hrun.
  destruct Hrun as (Hdb & Hev). rewrite Hdb, Hev.
  repeat split; try assumption.
  - apply occurs_in. rewrite in_app_iff. right. now left.
  - absent He1 He1.
  - rewrite forallb_app. cbn. rewrite andb_true_r.
    apply forallb_forall. intros e He. rewrite forallb_forall in He1.
    specialize (He1 e He). destruct e as [t v| | | | | | | | |]; try reflexivity.
    destruct t, v; try reflexivity; discriminate.
Qed.

Lemma capacity_exceeded_witness :
  let w := sample_world [alice_student] [algebra 1 1] [bob_in_algebra] [algebra 1 1] in
  let r := StudentDashboard.enrollInCourse no_faults (Some alice)
             [algebra 1 1] "algebra" in
  occurs CapacityExceeded (events r w) = true
  /\ World.db (exec r w) = World.db w.
Proof.
  intros w r.
  destruct (capacity_exceeded no_faults alice [algebra 1 1] "algebra" w
              eq_refl eq_refl) as (Hc & _ & _ & _ & _ & _ & _ & Hdb & _).
  split; [exact Hc|]. exact (eq_trans Hdb eq_refl).
Defined.

(** C4 (as stated) fails on the code: Alice has no Student row yet and the
    cached course is full. The call fails with CapacityExceeded, and it has
    written: the profile step inserted her Student row before the check. *)
Lemma capacity_exceeded_counterexample :
  let w := sample_world [] [algebra 1 1] [bob_in_algebra] [algebra 1 1] in
  let r := StudentDashboard.enrollInCourse no_faults (Some alice)
             [algebra 1 1] "algebra" in
  capacity_check_full [algebra 1 1] "algebra" = true
  /\ occurs CapacityExceeded (events r w) = true
  /\ occurs (Supabase tbl_students INSERT) (events r w) = true
  /\ Store.students (World.db w) = []
  /\ Store.students (World.db (exec r w)) = [alice_student].
Proof. vm_compute. repeat split. Qed.

(** C5 (amended). When the course id is not in the cached course list the
    capacity check is skipped: the call never fails with CapacityExceeded,
    whatever the tables hold. The insert of the Enrollment row then succeeds
    for a signed-in user whose profile step answers true, who is not
    enrolled in the course, when the store answers the insert. And whenever
    an Enrollment row has been inserted, the counter update was sent,
    carrying the constant 1: when the store accepts it every stored row of
    the course gets [current_enrollment = 1], whatever it held before; when
    the store refuses it the stored rows stay as they were. *)
Theorem uncached_course (env : Env.t) (user : option User.t)
    (courses : list Course.t) (courseId : string) (w : World.t) :
  find (fun c => String.eqb (Course.id c) courseId) courses = None ->
  let r := StudentDashboard.enrollInCourse env user courses courseId in
  let w' := exec r w in
  occurs CapacityExceeded (events r w) = false
  /\ (forall u, user = Some u ->
      eval (StudentDashboard.ensureStudentProfile env user) w = true ->
      Env.fault env tbl_enrollments INSERT = None ->
      enrolled (World.db w) courseId (User.id u) = false ->
      Store.enrollments (World.db w')
      = Store.enrollments (World.db w) ++ [new_enrollment env courseId (User.id u)])
  /\ (Store.enrollments (World.db w') <> Store.enrollments (World.db w) ->
      occurs (Supabase tbl_courses UPDATE) (events r w) = true
      /\ stored_course (World.db w') courseId
         = match Env.fault env tbl_courses UPDATE with
           | Some _ => stored_course (World.db w) courseId
           | None => map (set_current_enrollment 1) (stored_course (World.db w) courseId)
           end).
Proof.
  intros Hfind r w'. subst w'.
  destruct user as [u|];
    [|split; [reflexivity|split; [discriminate|intros H; now elim H]]].
  destruct (ensureStudentProfile_keeps env (Some u) w)
    as ((_ & Hco & Hen & _) & _ & He1).
  destruct (enrollInCourse_run env u courses courseId w) as (_ & Hrun).
  fold r in Hrun. unfold capacity_check_full in Hrun. rewrite Hfind in Hrun.
  rewrite enrolled_after_profile_step in Hrun.
  destruct (eval (StudentDashboard.ensureStudentProfile env (Some u)) w);
    cbn [negb] in Hrun.
  2:{ destruct Hrun as (Hdb & Hev). rewrite Hev, Hdb, Hen.
      split; [absent He1 He1|]. split; [discriminate|intros H; now elim H]. }
  destruct (Env.fault env tbl_enrollments INSERT) as [e|].
  { destruct Hrun as (Hdb & Hev). rewrite Hev, Hdb, Hen.
    split; [absent He1 He1|]. split; [discriminate|intros H; now elim H]. }
  destruct (enrolled (World.db w) courseId (User.id u)) eqn:Henr.
  { destruct Hrun as (Hdb & Hev). rewrite Hev, Hdb, Hen.
    split; [absent He1 He1|]. split; [|intros H; now elim H].
    intros u' Hu' _ _ Hfresh. injection Hu' as <-. congruence. }
  cbn zeta in Hrun. destruct Hrun as (Hdb & tail & Htail & Hev).
  rewrite Hev, Hdb. split; [absent He1 Htail|]. split.
  - intros u' Hu' _ _ _. injection Hu' as <-.
    destruct (Env.fault env tbl_logs INSERT), (Env.fault env tbl_courses UPDATE);
      cbn; now rewrite Hen.
  - intros _. split.
    + apply occurs_in. rewrite !in_app_iff. cbn. intuition reflexivity.
    + unfold stored_course.
      destruct (Env.fault env tbl_logs INSERT), (Env.fault env tbl_courses UPDATE);
        cbn; rewrite ?stored_course_update, Hco; reflexivity.
Qed.

Lemma uncached_course_witness :
  let w := sample_world [alice_student] [algebra 3 3] [] [] in
  let r := StudentDashboard.enrollInCourse no_faults (Some alice) [] "algebra" in
  occurs CapacityExceeded (events r w) = false
  /\ Store.enrollments (World.db (exec r w)) = [new_enrollment no_faults "algebra" "a11ce"]
  /\ stored_course (World.db (exec r w)) "algebra" = [algebra 1 3].
Proof.
  intros w r.
  destruct (uncached_course no_faults (Some alice) [] "algebra" w eq_refl)
    as (Hcap & Hins & Hset).
  split; [exact Hcap|].
  split; [exact (Hins alice eq_refl eq_refl eq_refl eq_refl)|].
  refine (proj2 (Hset _)). vm_compute. discriminate.
Defined.

(** C5 (as stated) fails on the code when the store refuses the counter
    update: the course is stored with a counter of 3 and is not cached, the
    Enrollment row is inserted and the user is told the enrollment
    succeeded, and the stored counter is still 3, not 1. *)
Lemma uncached_course_counterexample :
  let w := sample_world [alice_student] [algebra 3 5] [] [] in
  let r := StudentDashboard.enrollInCourse counter_update_refused (Some alice)
             [] "algebra" in
  find (fun c => String.eqb (Course.id c) "algebra") [] = None
  /\ Store.enrollments (World.db (exec r w))
     = [new_enrollment counter_update_refused "algebra" "a11ce"]
  /\ occurs (Supabase tbl_courses UPDATE) (events r w) = true
  /\ occurs EnrollSuccess (events r w) = true
  /\ stored_course (World.db w) "algebra" = [algebra 3 5]
  /\ stored_course (World.db (exec r w)) "algebra" = [algebra 3 5].
Proof. vm_compute. repeat split. Qed.

Lemma filter_excluded (E p : Event -> bool) (es : list Event) :
  forallb E es = true -> (forall e, E e = true -> p e = false) -> filter p es = [].
Proof.
  intros Hall Hp. induction es as [|e es IH]; [reflexivity|].
  cbn in Hall. apply andb_prop in Hall. destruct Hall as [He Hes].
  cbn. rewrite (Hp e He). auto.
Qed.

Lemma refetch_never_writes (e : Event) : refetch_event e = true -> is_supabase_write e = false.
Proof. destruct e as [t v| | | | | | | | |]; try reflexivity. destruct t, v; cbn; congruence. Qed.

(** C9. When the insert of the Enrollment row succeeds and the counter update
    that follows is refused, [enrollInCourse] keeps the inserted row and
    undoes nothing: the Enrollment row is in the table at the end, no course
    and no Student row is changed after the insert, the backend writes of the
    call are the forward steps only (the insert, the refused update, the log
    insert; no delete, no second update), the failure is logged to the
    console, the log entry is still written and the user is told that the
    enrollment succeeded. *)
Theorem counter_update_failure (env : Env.t) (u : User.t) (courses : list Course.t)
    (courseId : string) (w : World.t) (err : PostgrestError.t) :
  eval (StudentDashboard.ensureStudentProfile env (Some u)) w = true ->
  capacity_check_full courses courseId = false ->
  enrolled (World.db w) courseId (User.id u) = false ->
  Env.fault env tbl_enrollments INSERT = None ->
  Env.fault env tbl_courses UPDATE = Some err ->
  let ensure := StudentDashboard.ensureStudentProfile env (Some u) in
  let r := StudentDashboard.enrollInCourse env (Some u) courses courseId in
  Store.enrollments (World.db (exec r w))
  = Store.enrollments (World.db w) ++ [new_enrollment env courseId (User.id u)]
  /\ Store.courses (World.db (exec r w)) = Store.courses (World.db w)
  /\ Store.students (World.db (exec r w)) = Store.students (World.db (exec ensure w))
  /\ filter is_supabase_write (events r w)
     = filter is_supabase_write (events ensure w)
       ++ [Supabase tbl_enrollments INSERT; Supabase tbl_courses UPDATE;
           Supabase tbl_logs INSERT]
  /\ occurs (console_error "Error updating course enrollment count:") (events r w) = true
  /\ (Env.fault env tbl_logs INSERT = None ->
      Store.logs (World.db (exec r w))
      = Store.logs (World.db w) ++ [enrollment_log_entry env courseId (User.id u)])
  /\ occurs EnrollSuccess (events r w) = true.
Proof.
  intros Hens Hroom Hfresh Hins Hupd ensure r.
  destruct (ensureStudentProfile_keeps env (Some u) w)
    as ((_ & Hco & Hen & Hlo) & _ & He1).
  destruct (enrollInCourse_run env u courses courseId w) as (_ & Hrun).
  subst ensure. fold r in Hrun.
  rewrite Hens, Hroom, Hins, enrolled_after_profile_step, Hfresh, Hupd in Hrun.
  cbn [negb] in Hrun. cbn zeta in Hrun.
  destruct Hrun as (Hdb & tail & Htail & Hev). rewrite Hdb, Hev.
  repeat split.
  - destruct (Env.fault env tbl_logs INSERT); cbn; now rewrite Hen.
  - destruct (Env.fault env tbl_logs INSERT); cbn; now rewrite Hco.
  - destruct (Env.fault env tbl_logs INSERT); reflexivity.
  - rewrite !filter_app.
    rewrite (filter_excluded _ _ tail Htail refetch_never_writes).
    reflexivity.
  - apply occurs_in. rewrite !in_app_iff. cbn. intuition reflexivity.
  - intros Hlog. rewrite Hlog. cbn. now rewrite Hlo.
  - apply occurs_in. rewrite !in_app_iff. cbn. intuition reflexivity.
Qed.

Lemma counter_update_failure_witness :
  let w := sample_world [alice_student] [algebra 0 1] [] [algebra 0 1] in
  let r := StudentDashboard.enrollInCourse counter_update_refused (Some alice)
             [algebra 0 1] "algebra" in
  Store.enrollments (World.db (exec r w))
  = [new_enrollment counter_update_refused "algebra" "a11ce"]
  /\ Store.courses (World.db (exec r w)) = [algebra 0 1]
  /\ occurs EnrollSuccess (events r w) = true.
Proof.
  intros w r.
  destruct (counter_update_failure counter_update_refused alice [algebra 0 1]
              "algebra" w
              (PostgrestError.mk "42501" "permission denied for table courses")
              eq_refl eq_refl eq_refl eq_refl eq_refl)
    as (Hrow & Hco & _ & _ & _ & _ & Hs).
  split; [exact Hrow|]. split; [exact Hco|exact Hs].
Defined.

(** ** At most one Enrollment row per pair *)

Lemma unique_pairs_kept_refl (s : Store.t) : unique_pairs_kept s s.
Proof. intros H. exact H. Qed.

Lemma unique_pairs_kept_trans (a b c : Store.t) :
  unique_pairs_kept a b -> unique_pairs_kept b c -> unique_pairs_kept a c.
Proof. unfold unique_pairs_kept. auto. Qed.

#[local] Hint Resolve unique_pairs_kept_refl unique_pairs_kept_trans
  anything_refl anything_trans : core.

Lemma insert_enrollment_unique (env : Env.t) (cid sid st : string) (s : Store.t) :
  unique_pairs_kept s (snd (insert_enrollment env cid sid st s)).
Proof.
  unfold insert_enrollment, unique_pairs_kept, unique_pairs.
  destruct (existsb (same_pair cid sid) (Store.enrollments s)) eqn:Hex; cbn; [auto|].
  intros H. apply NoDup_map_snoc; [assumption|]. cbn.
  now apply absent_pair_not_in.
Qed.

Lemma delete_enrollment_unique (cid sid : string) (s : Store.t) :
  unique_pairs_kept s (snd (delete_enrollment cid sid s)).
Proof.
  unfold delete_enrollment, unique_pairs_kept, unique_pairs. cbn.
  apply filter_keeps_pairs_distinct.
Qed.

Ltac unique_run :=
  intro;
  first
    [ apply insert_enrollment_unique
    | apply delete_enrollment_unique
    | unfold select_courses, select_student, select_user_profile, insert_student,
        update_current_enrollment, insert_log,
        select_enrollments_of, insert_course, update_course, delete_course,
        select_courses_of, select_logs;
      repeat match goal with
             | |- context [if ?b then _ else _] => destruct b
             end;
      cbn; intro; assumption ].

Lemma run_unique_pairs (env : Env.t) (user : option User.t) (op : Op) :
  keeps unique_pairs_kept anything any_event (run env user op).
Proof.
  each_op op; open_run; keeps_walk unique_run ltac:(intro; exact I).
Qed.

Lemma run_session_unique_pairs (ops : list (Env.t * option User.t * Op)) :
  keeps unique_pairs_kept anything any_event (run_session ops).
Proof.
  induction ops as [|[[env user] op] ops IH]; cbn [run_session].
  - apply keeps_ret; auto.
  - apply keeps_bind; eauto. apply run_unique_pairs.
Qed.

(** C2 (amended). Sessions keep the enrollments table free of duplicate
    (course, student) pairs. An [enrollInCourse] for a pair that already has
    an Enrollment row never succeeds, inserts no Enrollment row and changes
    no course, so [current_enrollment] stays as it was. It fails with
    DuplicateEnrollment when the student record is verified, the cached
    snapshot does not show the course full and the store answers the insert;
    when the cached snapshot shows the course full it fails with
    CapacityExceeded instead, before any insert is attempted. *)
Theorem second_enrollment (ops : list (Env.t * option User.t * Op)) (w0 : World.t)
    (env : Env.t) (u : User.t) (courses : list Course.t) (courseId : string)
    (w : World.t) :
  (unique_pairs (World.db w0) -> unique_pairs (World.db (exec (run_session ops) w0)))
  /\ (enrolled (World.db w) courseId (User.id u) = true ->
      let ensure := StudentDashboard.ensureStudentProfile env (Some u) in
      let r := StudentDashboard.enrollInCourse env (Some u) courses courseId in
      occurs EnrollSuccess (events r w) = false
      /\ Store.enrollments (World.db (exec r w)) = Store.enrollments (World.db w)
      /\ Store.courses (World.db (exec r w)) = Store.courses (World.db w)
      /\ (eval ensure w = true ->
          capacity_check_full courses courseId = false ->
          Env.fault env tbl_enrollments INSERT = None ->
          occurs DuplicateEnrollment (events r w) = true)
      /\ (eval ensure w = true ->
          capacity_check_full courses courseId = true ->
          occurs CapacityExceeded (events r w) = true
          /\ occurs DuplicateEnrollment (events r w) = false
          /\ occurs (Supabase tbl_enrollments INSERT) (events r w) = false)).
Proof.
  split; [apply (run_session_unique_pairs ops w0)|].
  intros Hhas ensure r.
  destruct (ensureStudentProfile_keeps env (Some u) w)
    as ((_ & Hco & Hen & _) & _ & He1).
  destruct (enrollInCourse_run env u courses courseId w) as (_ & Hrun).
  subst ensure. fold r in Hrun.
  rewrite enrolled_after_profile_step, Hhas in Hrun.
  destruct (eval (StudentDashboard.ensureStudentProfile env (Some u)) w);
    cbn [negb] in Hrun.
  2:{ destruct Hrun as (Hdb & Hev). rewrite Hdb, Hev.
      repeat split; try assumption; try discriminate. absent He1 He1. }
  destruct (capacity_check_full courses courseId).
  { destruct Hrun as (Hdb & Hev). rewrite Hdb, Hev.
    repeat split; try assumption; try discriminate; absent He1 He1. }
  destruct (Env.fault env tbl_enrollments INSERT) as [e|].
  { destruct Hrun as (Hdb & Hev). rewrite Hdb, Hev.
    repeat split; try assumption; try discriminate. absent He1 He1. }
  destruct Hrun as (Hdb & Hev). rewrite Hdb, Hev.
  repeat split; try assumption; try discriminate; absent He1 He1.
Qed.

Lemma second_enrollment_witness :
  let w := sample_world [alice_student] [algebra 1 2] [alice_in_algebra] [algebra 1 2] in
  let r := StudentDashboard.enrollInCourse no_faults (Some alice)
             [algebra 1 2] "algebra" in
  unique_pairs (World.db (exec (run_session [(no_faults, Some alice, Enroll "algebra")]) w))
  /\ occurs DuplicateEnrollment (events r w) = true
  /\ Store.enrollments (World.db (exec r w)) = [alice_in_algebra]
  /\ Store.courses (World.db (exec r w)) = [algebra 1 2].
Proof.
  intros w r.
  destruct (second_enrollment [(no_faults, Some alice, Enroll "algebra")] w
              no_faults alice [algebra 1 2] "algebra" w) as [Hinv Hsecond].
  destruct (Hsecond eq_refl) as (_ & Hen & Hco & Hdup & _).
  split.
  - apply Hinv. repeat constructor. cbn. intros [].
  - split; [exact (Hdup eq_refl eq_refl eq_refl)|]. split; [exact Hen|exact Hco].
Defined.

(** C2 (as stated) fails on the code: Alice is enrolled in a course whose
    cached snapshot is full (1 of 1). Her second enroll attempt stops at the
    capacity check: it fails with CapacityExceeded, not with
    DuplicateEnrollment, and the insert is never sent. *)
Lemma second_enrollment_counterexample :
  let w := sample_world [alice_student] [algebra 1 1] [alice_in_algebra] [algebra 1 1] in
  let r := StudentDashboard.enrollInCourse no_faults (Some alice)
             [algebra 1 1] "algebra" in
  enrolled (World.db w) "algebra" "a11ce" = true
  /\ occurs DuplicateEnrollment (events r w) = false
  /\ events r w = [Supabase tbl_students SELECT; CapacityExceeded].
Proof. vm_compute. repeat split. Qed.

(** C3 (amended). [dropCourse] for a pair without Enrollment row deletes no
    enrollment: the enrollments table is unchanged. Unless the delete call
    itself fails, it still sends the counter update and the log insert; the
    counter it writes is the cached [current_enrollment] minus one, floored
    at zero (zero for a course that is not cached). For every drop the value
    written is never below 0, so non-negative stored counters stay
    non-negative. *)
Theorem drop_without_enrollment (env : Env.t) (u : User.t) (courses : list Course.t)
    (courseId : string) (w : World.t) :
  let r := StudentDashboard.dropCourse env (Some u) courses courseId in
  (enrolled (World.db w) courseId (User.id u) = false ->
   Store.enrollments (World.db (exec r w)) = Store.enrollments (World.db w))
  /\ (Env.fault env tbl_enrollments DELETE = None ->
      occurs (Supabase tbl_courses UPDATE) (events r w) = true
      /\ occurs (Supabase tbl_logs INSERT) (events r w) = true
      /\ (Env.fault env tbl_courses UPDATE = None ->
          stored_course (World.db (exec r w)) courseId
          = map (set_current_enrollment (dropped_counter courses courseId))
                (stored_course (World.db w) courseId)))
  /\ 0 <= dropped_counter courses courseId
  /\ (Forall (fun c => 0 <= Course.current_enrollment c) (Store.courses (World.db w)) ->
      Forall (fun c => 0 <= Course.current_enrollment c)
             (Store.courses (World.db (exec r w)))).
Proof.
  intros r.
  assert (Hnonneg : 0 <= dropped_counter courses courseId).
  { unfold dropped_counter.
    destruct (find _ courses) as [c|]; [|lia].
    destruct (Course.current_enrollment c >? 0) eqn:Hpos; [|lia].
    apply Z.gtb_lt in Hpos. lia. }
  destruct (dropCourse_run env u courses courseId w) as (_ & Hrun).
  fold r in Hrun. fold (dropped_counter courses courseId) in Hrun.
  destruct (Env.fault env tbl_enrollments DELETE) as [e|].
  { destruct Hrun as (Hdb & Hev). rewrite Hdb.
    repeat split; auto; discriminate. }
  cbn zeta in Hrun. destruct Hrun as (Hdb & tail & Htail & Hev). rewrite Hdb, Hev.
  split; [|split; [|split]].
  - intros Hnone. unfold enrolled in Hnone.
    destruct (Env.fault env tbl_logs INSERT), (Env.fault env tbl_courses UPDATE);
      cbn; now apply filter_absent_pair.
  - intros _. split; [|split].
    + apply occurs_in. rewrite !in_app_iff. cbn. intuition reflexivity.
    + apply occurs_in. rewrite !in_app_iff. cbn. intuition reflexivity.
    + intros Hupd. rewrite Hupd. unfold stored_course.
      destruct (Env.fault env tbl_logs INSERT); cbn; apply stored_course_update.
  - exact Hnonneg.
  - intros Hall.
    destruct (Env.fault env tbl_logs INSERT), (Env.fault env tbl_courses UPDATE);
      cbn; try assumption;
      (apply Forall_map; eapply Forall_impl; [|exact Hall];
       intros c Hc; cbn beta;
       destruct (String.eqb (Course.id c) courseId); cbn; assumption).
Qed.

Lemma drop_without_enrollment_witness :
  let w := sample_world [alice_student] [algebra 2 5] [bob_in_algebra] [algebra 2 5] in
  let r := StudentDashboard.dropCourse no_faults (Some alice) [algebra 2 5] "algebra" in
  Store.enrollments (World.db (exec r w)) = [bob_in_algebra]
  /\ stored_course (World.db (exec r w)) "algebra" = [algebra 1 5].
Proof.
  intros w r.
  destruct (drop_without_enrollment no_faults alice [algebra 2 5] "algebra" w)
    as (Hkeep & Hsent & _ & _).
  split; [exact (Hkeep eq_refl)|].
  destruct (Hsent eq_refl) as (_ & _ & Hcount). exact (Hcount eq_refl).
Defined.

(** C3 (as stated) fails on the code: Alice has no Enrollment row for the
    course, whose counter is 2 in the store and in the cache. Her drop
    deletes nothing, yet it lowers the stored counter to 1 and appends a log
    entry. *)
Lemma drop_without_enrollment_counterexample :
  let w := sample_world [alice_student] [algebra 2 5] [bob_in_algebra] [algebra 2 5] in
  let r := StudentDashboard.dropCourse no_faults (Some alice) [algebra 2 5] "algebra" in
  enrolled (World.db w) "algebra" "a11ce" = false
  /\ Store.enrollments (World.db (exec r w)) = Store.enrollments (World.db w)
  /\ stored_course (World.db w) "algebra" = [algebra 2 5]
  /\ stored_course (World.db (exec r w)) "algebra" = [algebra 1 5]
  /\ Store.logs (World.db w) = []
  /\ length (Store.logs (World.db (exec r w))) = 1%nat
  /\ occurs DropSuccess (events r w) = true.
Proof. vm_compute. repeat split. Qed.

(** *** The scenarios of the specification, run on sample data *)

(** A course with capacity 1 and no enrollment: Alice enrolls and the
    counter becomes 1; Bob, whose dashboard then shows the refetched course,
    is refused with CapacityExceeded and the counter stays 1. *)
Example scenario_last_seat :
  let w0 := sample_world [alice_student; bob_student] [algebra 0 1] [] [algebra 0 1] in
  let first := run no_faults (Some alice) (Enroll "algebra") in
  let second := run no_faults (Some bob) (Enroll "algebra") in
  occurs EnrollSuccess (events first w0) = true
  /\ stored_course (World.db (exec first w0)) "algebra" = [algebra 1 1]
  /\ occurs CapacityExceeded (events second (exec first w0)) = true
  /\ stored_course (World.db (exec second (exec first w0))) "algebra" = [algebra 1 1]
  /\ enrolled (World.db (exec second (exec first w0))) "algebra" "b0b" = false.
Proof. vm_compute. repeat split. Qed.

(** Alice enrolls twice in a course with room for two: the second call is
    refused with DuplicateEnrollment and one Enrollment row exists. *)
Example scenario_enroll_twice :
  let w0 := sample_world [alice_student] [algebra 0 2] [] [algebra 0 2] in
  let once := run no_faults (Some alice) (Enroll "algebra") in
  occurs EnrollSuccess (events once w0) = true
  /\ occurs DuplicateEnrollment (events once (exec once w0)) = true
  /\ length (Store.enrollments (World.db (exec once (exec once w0)))) = 1%nat
  /\ stored_course (World.db (exec once (exec once w0))) "algebra" = [algebra 1 2].
Proof. vm_compute. repeat split. Qed.

(* ------------------------------------------------------------------------- *)
(** ** The demo shadow store *)
(* ------------------------------------------------------------------------- *)

Lemma user_id_or_empty_some (u : User.t) :
  AdminDashboard.user_id_or_empty (Some u) = User.id u.
Proof.
  unfold AdminDashboard.user_id_or_empty, or_else, truthy. cbn.
  destruct (String.eqb_spec (User.id u) ""); cbn; congruence.
Qed.

Lemma sentinel_some (u : User.t) :
  sentinel (Some u) = AdminDashboard.isDemoUser (User.id u).
Proof. unfold sentinel. now rewrite user_id_or_empty_some. Qed.

#[local] Hint Resolve anything_refl anything_trans eq_chain : core.

Ltac no_run := intro; exact I.

Section Gate.
Variable env : Env.t.

Lemma run_nonsentinel (user : option User.t) (op : Op) :
  sentinel user = false ->
  keeps anything eq never_localStorage (run env user op).
Proof.
  intros H. destruct user as [u|].
  - assert (H1 : AdminDashboard.isDemoUser (AdminDashboard.user_id_or_empty (Some u)) = false)
      by exact H.
    rewrite sentinel_some in H.
    assert (H2 : AddCourseModal.isDemoUser (User.id u) = false) by exact H.
    assert (H3 : EditCourseModal.isDemoUser (User.id u) = false) by exact H.
    each_op op; open_run; keeps_walk no_run fail.
  - assert (H1 : AdminDashboard.isDemoUser (AdminDashboard.user_id_or_empty None) = false)
      by exact H.
    each_op op; open_run; keeps_walk no_run fail.
Qed.

Lemma run_without_demo_branch (user : option User.t) (op : Op) :
  without_demo_branch op = true ->
  keeps anything eq never_localStorage (run env user op).
Proof.
  intros H. each_op op; try discriminate H; open_run; keeps_walk no_run fail.
Qed.

End Gate.

(** *** A sentinel's demo-gated operations, run to their end *)

(** Runs a handler on a world given by its parts. *)
Ltac run_out :=
  unfold exec, events, eval, bind, emit, ret, get_state, put_state,
    get_localStorage, put_localStorage, get_db, put_db;
  cbn [World.db World.localStorage World.state LocalStorage.demoCourses
       LocalStorage.demoLogs State.courses fst snd].

(** The reload the instructor dashboard passes to its course forms. *)
Lemma instructor_reload (env : Env.t) (u : User.t) (w : World.t) :
  let m := InstructorDashboard.fetchInstructorCourses env (Some u) in
  World.db (exec m w) = World.db w
  /\ World.localStorage (exec m w) = World.localStorage w
  /\ filter is_supabase (events m w) = [Supabase tbl_courses SELECT].
Proof.
  intros m. subst m. destruct w as [db ls st]. autounfold with handlers.
  unfold query, select_courses_of.
  destruct (Env.fault env tbl_courses SELECT); run_out; cbn; repeat split.
Qed.

(** The demo branch of the Add Course modal, up to the callbacks. *)
Lemma create_demo_branch (env : Env.t) (u : User.t) (props : AddCourseModalProps.t)
    (form : Form.t) (w : World.t) :
  AddCourseModal.isDemoUser (User.id u) = true ->
  truthy (submitted_instructor u (User.id u) form) = true ->
  let r := AddCourseModal.handleSubmit env (Some u) props form in
  let w1 :=
    World.mk (World.db w)
      (LocalStorage.mk (Some (demo_courses w ++ [demo_course env u form]))
                       (LocalStorage.demoLogs (World.localStorage w)))
      (State.mk (State.courses (World.state w)) (State.enrollments (World.state w))
                (State.logs (World.state w)) (State.isLoading (World.state w)) false) in
  let added := AddCourseModalProps.onCourseAdded props in
  let close := AddCourseModalProps.onClose props in
  exec r w = exec close (exec added w1)
  /\ events r w
     = [GetItem "demoCourses"; SetItem "demoCourses";
        toast_success "Course added successfully"; onCourseAdded]
       ++ events added w1 ++ [onClose] ++ events close (exec added w1).
Proof.
  intros Hdemo Hgo r w1 added close. subst r w1 added close.
  destruct w as [db [dc dl] st]. unfold demo_courses, demo_course.
  unfold AddCourseModal.handleSubmit, AddCourseModal.saveCourseToDemoStorage,
    setModalIsLoading, getItem_demoCourses, setItem_demoCourses.
  fold (submitted_instructor u (User.id u) form). rewrite Hgo, Hdemo. cbn [negb].
  run_out.
  destruct (AddCourseModalProps.onCourseAdded props _) as [[a w2] e2].
  destruct (AddCourseModalProps.onClose props _) as [[b w3] e3].
  split; reflexivity.
Qed.

(** The demo branch of the Edit Course modal, up to the callbacks. *)
Lemma update_demo_branch (env : Env.t) (u : User.t) (props : EditCourseModalProps.t)
    (course : Course.t) (form : Form.t) (w : World.t) :
  EditCourseModal.isDemoUser (User.id u) = true ->
  truthy (submitted_instructor u (Course.instructor_id course) form) = true ->
  let r := EditCourseModal.handleSubmit env (Some u) props course form in
  let w1 :=
    World.mk (World.db w)
      (LocalStorage.mk
         (Some (map (fun c => if String.eqb (Course.id c) (Course.id course)
                              then apply_updates (edit_fields u course form) c else c)
                    (demo_courses w)))
         (LocalStorage.demoLogs (World.localStorage w)))
      (State.mk (State.courses (World.state w)) (State.enrollments (World.state w))
                (State.logs (World.state w)) (State.isLoading (World.state w)) false) in
  let updated := EditCourseModalProps.onCourseUpdated props in
  let close := EditCourseModalProps.onClose props in
  exec r w = exec close (exec updated w1)
  /\ events r w
     = [GetItem "demoCourses"; SetItem "demoCourses";
        toast_success "Course updated successfully"; onCourseUpdated]
       ++ events updated w1 ++ [onClose] ++ events close (exec updated w1).
Proof.
  intros Hdemo Hgo r w1 updated close. subst r w1 updated close.
  destruct w as [db [dc dl] st]. unfold demo_courses, edit_fields.
  unfold EditCourseModal.handleSubmit, EditCourseModal.updateCourseInDemoStorage,
    setModalIsLoading, getItem_demoCourses, setItem_demoCourses.
  fold (submitted_instructor u (Course.instructor_id course) form).
  rewrite Hgo, Hdemo. cbn [negb].
  run_out.
  destruct (EditCourseModalProps.onCourseUpdated props _) as [[a w2] e2].
  destruct (EditCourseModalProps.onClose props _) as [[b w3] e3].
  split; reflexivity.
Qed.

Lemma sentinel_read (env : Env.t) (u : User.t) (w : World.t) :
  AdminDashboard.isDemoUser (User.id u) = true ->
  let r := AdminDashboard.fetchCourses env (Some u) in
  World.db (exec r w) = World.db w
  /\ demo_courses (exec r w) = seeded env (demo_courses w)
  /\ State.courses (World.state (exec r w)) = demo_courses (exec r w)
  /\ filter is_supabase (events r w) = [].
Proof.
  intros Hdemo r. subst r.
  assert (H1 : AdminDashboard.isDemoUser (AdminDashboard.user_id_or_empty (Some u)) = true)
    by now rewrite user_id_or_empty_some.
  destruct w as [db [dc dl] st]. unfold demo_courses.
  autounfold with handlers. rewrite !H1. run_out.
  destruct dc as [[|c0 l0]|]; cbn; repeat split.
Qed.

Lemma sentinel_log_read (env : Env.t) (u : User.t) (w : World.t) :
  AdminDashboard.isDemoUser (User.id u) = true ->
  let r := AdminDashboard.fetchLogs env (Some u) in
  World.db (exec r w) = World.db w
  /\ demo_courses (exec r w) = demo_courses w
  /\ State.courses (World.state (exec r w)) = State.courses (World.state w)
  /\ filter is_supabase (events r w) = [Supabase tbl_logs SELECT]
  /\ match Env.fault env tbl_logs SELECT with
     | Some _ => exec r w = w /\ forallb never_localStorage (events r w) = true
     | None =>
         State.logs (World.state (exec r w)) = demo_logs (exec r w)
         /\ demo_logs (exec r w)
            = match demo_logs w with
              | [] => demo_log_seed env
              | _ :: _ => demo_logs w
              end
     end.
Proof.
  intros Hdemo r. subst r.
  assert (H1 : AdminDashboard.isDemoUser (AdminDashboard.user_id_or_empty (Some u)) = true)
    by now rewrite user_id_or_empty_some.
  destruct w as [db [dc dl] st]. unfold demo_courses, demo_logs, demo_log_seed.
  autounfold with handlers. rewrite !H1. unfold query, select_logs.
  destruct (Env.fault env tbl_logs SELECT), dl as [[|g0 gl]|];
    run_out; cbn; repeat split.
Qed.

(** The reload the admin dashboard passes to its course forms, for a
    sentinel. *)
Lemma admin_reload (env : Env.t) (u : User.t) (w : World.t) :
  AdminDashboard.isDemoUser (User.id u) = true ->
  let m := AdminDashboard.fetchCourses env (Some u);;
           AdminDashboard.fetchLogs env (Some u) in
  World.db (exec m w) = World.db w
  /\ demo_courses (exec m w) = seeded env (demo_courses w)
  /\ State.courses (World.state (exec m w)) = demo_courses (exec m w)
  /\ filter is_supabase (events m w) = [Supabase tbl_logs SELECT].
Proof.
  intros Hdemo m. subst m. rewrite exec_bind, events_bind, filter_app.
  destruct (sentinel_read env u w Hdemo) as (Hdb & Hdc & Hst & Hev).
  destruct (sentinel_log_read env u (exec (AdminDashboard.fetchCourses env (Some u)) w)
              Hdemo) as (Hdb' & Hdc' & Hst' & Hev' & _).
  rewrite Hdb', Hdc', Hst', Hev', Hev. repeat split; congruence.
Qed.

Lemma sentinel_create (env : Env.t) (u : User.t) (host : Dashboard) (form : Form.t)
    (w : World.t) :
  AdminDashboard.isDemoUser (User.id u) = true ->
  goes_through env (Some u) (CourseCreate host form) = true ->
  let op := CourseCreate host form in
  let r := run env (Some u) op in
  World.db (exec r w) = World.db w
  /\ demo_courses (exec r w) = shadow_after env u op (demo_courses w)
  /\ seeded env (shadow_after env u op (demo_courses w))
     = shadow_after env u op (demo_courses w)
  /\ (host = OnAdminDashboard ->
      State.courses (World.state (exec r w)) = demo_courses (exec r w))
  /\ filter is_supabase (events r w) = reload_calls op.
Proof.
  intros Hdemo Hgo op r. subst op r. cbn [goes_through] in Hgo.
  destruct (create_demo_branch env u (AddCourseModal_props env (Some u) host) form w
              Hdemo Hgo) as (Hw & Hev).
  cbn [run]. rewrite Hw, Hev. clear Hw Hev.
  set (w1 := World.mk _ _ _).
  assert (Hseed : seeded env (demo_courses w ++ [demo_course env u form])
                  = demo_courses w ++ [demo_course env u form])
    by now destruct (demo_courses w).
  cbn [shadow_after].
  destruct host;
    cbn [AddCourseModal_props AddCourseModalProps.onCourseAdded
         AddCourseModalProps.onClose exec events ret fst snd];
    rewrite !filter_app, app_nil_r.
  - destruct (admin_reload env u w1 Hdemo) as (Hdb & Hdc & Hst & Hcalls).
    rewrite Hdb, Hdc, Hst, Hdc, Hcalls. subst w1. unfold demo_courses at 2 4 6.
    cbn [World.localStorage LocalStorage.demoCourses World.db].
    rewrite Hseed. repeat split.
  - destruct (instructor_reload env u w1) as (Hdb & Hls & Hcalls).
    rewrite Hdb, Hcalls. unfold demo_courses at 1. rewrite Hls. subst w1.
    cbn [World.localStorage LocalStorage.demoCourses World.db].
    repeat split; [exact Hseed|discriminate].
Qed.

Lemma sentinel_update (env : Env.t) (u : User.t) (host : Dashboard) (course : Course.t)
    (form : Form.t) (w : World.t) :
  AdminDashboard.isDemoUser (User.id u) = true ->
  goes_through env (Some u) (CourseUpdate host course form) = true ->
  let op := CourseUpdate host course form in
  let r := run env (Some u) op in
  World.db (exec r w) = World.db w
  /\ demo_courses (exec r w)
     = (if admin_read_follows op
        then seeded env (shadow_after env u op (demo_courses w))
        else shadow_after env u op (demo_courses w))
  /\ (host = OnAdminDashboard ->
      State.courses (World.state (exec r w)) = demo_courses (exec r w))
  /\ filter is_supabase (events r w) = reload_calls op.
Proof.
  intros Hdemo Hgo op r. subst op r. cbn [goes_through] in Hgo.
  destruct (update_demo_branch env u (EditCourseModal_props env (Some u) host)
              course form w Hdemo Hgo) as (Hw & Hev).
  cbn [run]. rewrite Hw, Hev. clear Hw Hev.
  set (w1 := World.mk _ _ _).
  cbn [shadow_after admin_read_follows].
  destruct host;
    cbn [EditCourseModal_props EditCourseModalProps.onCourseUpdated
         EditCourseModalProps.onClose exec events ret fst snd];
    rewrite !filter_app, app_nil_r.
  - destruct (admin_reload env u w1 Hdemo) as (Hdb & Hdc & Hst & Hcalls).
    rewrite Hdb, Hdc, Hst, Hdc, Hcalls. subst w1. unfold demo_courses at 2 4.
    cbn [World.localStorage LocalStorage.demoCourses World.db].
    repeat split.
  - destruct (instructor_reload env u w1) as (Hdb & Hls & Hcalls).
    rewrite Hdb, Hcalls. unfold demo_courses at 1. rewrite Hls. subst w1.
    cbn [World.localStorage LocalStorage.demoCourses World.db].
    repeat split. discriminate.
Qed.

Lemma sentinel_delete (env : Env.t) (u : User.t) (courseId : string) (w : World.t) :
  AdminDashboard.isDemoUser (User.id u) = true ->
  Env.confirm env = true ->
  let op := CourseDelete courseId in
  let r := run env (Some u) op in
  World.db (exec r w) = World.db w
  /\ demo_courses (exec r w) = seeded env (shadow_after env u op (demo_courses w))
  /\ State.courses (World.state (exec r w)) = demo_courses (exec r w)
  /\ demo_logs (exec r w)
     = firstn 20 (demo_deletion_entry env u courseId :: demo_logs w)
  /\ filter is_supabase (events r w) = [].
Proof.
  intros Hdemo Hgo op r. subst op r.
  assert (H1 : AdminDashboard.isDemoUser (AdminDashboard.user_id_or_empty (Some u)) = true)
    by now rewrite user_id_or_empty_some.
  destruct w as [db [dc dl] st].
  unfold demo_courses, demo_logs, shadow_after, demo_deletion_entry.
  open_run. rewrite Hgo, !H1, user_id_or_empty_some. cbn [negb].
  run_out.
  set (remaining := filter _ _).
  destruct remaining; cbn -[firstn]; repeat split.
Qed.

(** A course mutation that does not pass its checks changes nothing and calls
    nothing. *)
Lemma stopped_at_check (env : Env.t) (user : option User.t) (op : Op) (w : World.t) :
  demo_gated op = true -> op <> AdminCourseRead ->
  goes_through env user op = false ->
  exec (run env user op) w = w
  /\ filter is_supabase (events (run env user op) w) = []
  /\ forallb never_localStorage (events (run env user op) w) = true.
Proof.
  intros Hop Hread Hgo. destruct w as [db ls st].
  each_op op; try discriminate Hop; try congruence;
    destruct user as [u|]; cbn [goes_through] in Hgo; try discriminate Hgo; cbn [run].
  all: try (unfold AddCourseModal.handleSubmit; rewrite ?Hgo; repeat split).
  all: try (unfold EditCourseModal.handleSubmit; rewrite ?Hgo; repeat split).
  all: try (unfold AdminDashboard.deleteCourse; rewrite ?Hgo; repeat split).
Qed.

(** *** The operations without demo branch, run on the tables *)

Lemma events_query {A} (env : Env.t) (t : Table) (v : Verb)
    (run : Store.t -> Response A * Store.t) (w : World.t) :
  events (query env t v run) w = [Supabase t v].
Proof. unfold events. rewrite run_query. now destruct (Env.fault env t v). Qed.

Lemma run_applied_to_store (env : Env.t) (user : option User.t) (op : Op)
    (w : World.t) :
  applied_to_store env user op w.
Proof.
  unfold applied_to_store. destruct op; try exact I.
  - (* the instructor's courses *)
    intros u ->. destruct w as [db ls st]. open_run.
    unfold query, select_courses_of.
    destruct (Env.fault env tbl_courses SELECT); run_out; cbn;
      repeat split; discriminate.
  - (* the student's course list *)
    destruct w as [db ls st]. open_run. unfold query, select_courses.
    destruct (Env.fault env tbl_courses SELECT); run_out; cbn;
      repeat split; discriminate.
  - (* the student's enrollments *)
    intros u ->. destruct w as [db ls st]. open_run.
    unfold query, select_enrollments_of.
    destruct (Env.fault env tbl_enrollments SELECT); run_out; cbn;
      repeat split; discriminate.
  - (* enroll *)
    intros u ->. cbn [run]. rewrite exec_bind, events_bind.
    cbn [eval exec events get_state fst snd app].
    set (courses := State.courses (World.state w)). split.
    + unfold StudentDashboard.enrollInCourse, StudentDashboard.ensureStudentProfile.
      now rewrite !events_bind, events_query.
    + intros Hens Hroom Hins Hfresh.
      destruct (ensureStudentProfile_keeps env (Some u) w)
        as ((_ & _ & Hen & _) & _ & _).
      destruct (enrollInCourse_run env u courses courseId w) as (_ & Hrun).
      rewrite Hens, Hroom, Hins, enrolled_after_profile_step, Hfresh in Hrun.
      cbn [negb] in Hrun. cbn zeta in Hrun. destruct Hrun as (Hdb & _).
      rewrite Hdb.
      destruct (Env.fault env tbl_logs INSERT), (Env.fault env tbl_courses UPDATE);
        cbn; now rewrite Hen.
  - (* drop *)
    intros u ->. cbn [run]. rewrite exec_bind, events_bind.
    cbn [eval exec events get_state fst snd app].
    set (courses := State.courses (World.state w)). split.
    + unfold StudentDashboard.dropCourse. now rewrite !events_bind, events_query.
    + intros Hdel.
      destruct (dropCourse_run env u courses courseId w) as (_ & Hrun).
      rewrite Hdel in Hrun. cbn zeta in Hrun. destruct Hrun as (Hdb & _).
      rewrite Hdb.
      destruct (Env.fault env tbl_logs INSERT), (Env.fault env tbl_courses UPDATE);
        reflexivity.
Qed.

(** C8 (amended). Course create, course update, course delete and the admin
    dashboard's course read branch on the sentinel identities. Run by a
    sentinel, they are applied to the demo course list of [localStorage]
    and not to the backend: create appends the new course to the list,
    update rewrites the rows of the course in place, delete removes them and
    puts a [course_deleted] entry at the head of the demo log (cut to 20),
    and the admin dashboard's course read, which also ends a delete and the
    reload after a form of the admin dashboard, shows the list, seeding two
    courses into an empty one. The backend tables stay as they are. Delete
    and the admin course read make no backend call; a create or an update
    makes none of its own, but the reload its dashboard passes to the form
    reads the backend: the log for the admin dashboard, the courses for the
    instructor dashboard. A mutation stopped at its check changes nothing.
    The admin dashboard's log read asks the backend for its log also when a
    sentinel runs it: when that call fails nothing is shown and
    [localStorage] is not read; when it is answered the answer is dropped
    and the demo log is shown, two entries being seeded into an empty one.
    Enroll, drop and the course and enrollment reads of the student and
    instructor dashboards have no demo branch: for every caller, sentinel
    or not, they never read or write [localStorage] and work on the backend
    tables, which a read shows and an accepted insert or delete changes. For
    a caller that is not a sentinel no operation at all reads or writes
    [localStorage]. *)
Theorem demo_gate (env : Env.t) (user : option User.t) (op : Op) (w : World.t) :
  let r := run env user op in
  let w' := exec r w in
  (forall u, user = Some u -> sentinel user = true -> demo_gated op = true ->
     World.db w' = World.db w
     /\ forallb (fun e => negb (is_supabase_write e)) (events r w) = true
     /\ (op = AdminCourseRead \/ goes_through env user op = true ->
         demo_courses w'
         = (if admin_read_follows op
            then seeded env (shadow_after env u op (demo_courses w))
            else shadow_after env u op (demo_courses w))
         /\ (admin_read_follows op = true ->
             State.courses (World.state w') = demo_courses w')
         /\ (forall courseId, op = CourseDelete courseId ->
             demo_logs w'
             = firstn 20 (demo_deletion_entry env u courseId :: demo_logs w))
         /\ filter is_supabase (events r w) = reload_calls op)
     /\ (op <> AdminCourseRead -> goes_through env user op = false ->
         w' = w /\ filter is_supabase (events r w) = []))
  /\ (forall u, user = Some u -> sentinel user = true -> op = AdminLogRead ->
     World.db w' = World.db w
     /\ filter is_supabase (events r w) = [Supabase tbl_logs SELECT]
     /\ match Env.fault env tbl_logs SELECT with
        | Some _ => w' = w /\ forallb never_localStorage (events r w) = true
        | None =>
            State.logs (World.state w') = demo_logs w'
            /\ demo_logs w'
               = match demo_logs w with
                 | [] => demo_log_seed env
                 | _ :: _ => demo_logs w
                 end
            /\ demo_courses w' = demo_courses w
        end)
  /\ (without_demo_branch op = true ->
      World.localStorage w' = World.localStorage w
      /\ forallb never_localStorage (events r w) = true
      /\ applied_to_store env user op w)
  /\ (sentinel user = false ->
      World.localStorage w' = World.localStorage w
      /\ forallb never_localStorage (events r w) = true).
Proof.
  intros r w'. split; [|split; [|split]].
  2:{ intros u -> Hs ->. rewrite sentinel_some in Hs.
      destruct (sentinel_log_read env u w Hs) as (Hdb & Hdc & _ & Hev & Hlog).
      subst r w'. cbn [run]. split; [exact Hdb|]. split; [exact Hev|].
      destruct (Env.fault env tbl_logs SELECT); [exact Hlog|].
      destruct Hlog as (Hshown & Hseed). repeat split; assumption. }
  - intros u -> Hs Hop. rewrite sentinel_some in Hs.
    assert (Hcalls : filter is_supabase (events r w) = reload_calls op
                     \/ filter is_supabase (events r w) = [] ->
                     forallb (fun e => negb (is_supabase_write e)) (events r w) = true).
    { assert (Hsub : forall es, forallb (fun e => negb (is_supabase_write e))
                                  (filter is_supabase es)
                                = forallb (fun e => negb (is_supabase_write e)) es).
      { induction es as [|e es IH]; [reflexivity|]. cbn [filter].
        destruct e as [t v| | | | | | | | |]; cbn; try exact IH.
        now rewrite IH. }
      intros [H|H]; rewrite <- Hsub, H; [|reflexivity].
      each_op op; reflexivity. }
    destruct (goes_through env (Some u) op) eqn:Hgo.
    + assert (Hall :
        World.db w' = World.db w
        /\ demo_courses w'
           = (if admin_read_follows op
              then seeded env (shadow_after env u op (demo_courses w))
              else shadow_after env u op (demo_courses w))
        /\ (admin_read_follows op = true ->
            State.courses (World.state w') = demo_courses w')
        /\ (forall courseId, op = CourseDelete courseId ->
            demo_logs w'
            = firstn 20 (demo_deletion_entry env u courseId :: demo_logs w))
        /\ filter is_supabase (events r w) = reload_calls op).
      { subst r w'. destruct op; try discriminate Hop; try discriminate Hgo.
        - destruct (sentinel_create env u host form w Hs Hgo)
            as (Hdb & Hdc & Hseed & Hst & Hev).
          split; [exact Hdb|]. split; [|split; [|split; [discriminate|exact Hev]]].
          + destruct host; cbn [admin_read_follows]; [now rewrite Hseed|exact Hdc].
          + destruct host; [auto|discriminate].
        - destruct (sentinel_update env u host course form w Hs Hgo)
            as (Hdb & Hdc & Hst & Hev).
          split; [exact Hdb|]. split; [exact Hdc|].
          split; [|split; [discriminate|exact Hev]].
          destruct host; [auto|discriminate].
        - destruct (sentinel_delete env u courseId w Hs Hgo)
            as (Hdb & Hdc & Hst & Hlog & Hev).
          split; [exact Hdb|]. split; [exact Hdc|]. split; [auto|].
          split; [|exact Hev]. intros c Hc. injection Hc as <-. exact Hlog. }
      destruct Hall as (Hdb & Hrest). split; [exact Hdb|].
      split; [apply Hcalls; left; apply Hrest|].
      split; [intros _; exact Hrest|intros _ Hno; discriminate Hno].
    + destruct op; try discriminate Hop.
      * destruct (stopped_at_check env (Some u) (CourseCreate host form) w
                    eq_refl ltac:(discriminate) Hgo) as (Hw & Hev & _).
        fold r in Hw, Hev. fold w' in Hw.
        split; [now rewrite Hw|]. split; [apply Hcalls; now right|].
        split; [intros [H|H]; [discriminate H|discriminate H]|auto].
      * destruct (stopped_at_check env (Some u) (CourseUpdate host course form) w
                    eq_refl ltac:(discriminate) Hgo) as (Hw & Hev & _).
        fold r in Hw, Hev. fold w' in Hw.
        split; [now rewrite Hw|]. split; [apply Hcalls; now right|].
        split; [intros [H|H]; [discriminate H|discriminate H]|auto].
      * destruct (stopped_at_check env (Some u) (CourseDelete courseId) w
                    eq_refl ltac:(discriminate) Hgo) as (Hw & Hev & _).
        fold r in Hw, Hev. fold w' in Hw.
        split; [now rewrite Hw|]. split; [apply Hcalls; now right|].
        split; [intros [H|H]; [discriminate H|discriminate H]|auto].
      * destruct (sentinel_read env u w Hs) as (Hdb & Hdc & Hst & Hev).
        fold r in Hdb, Hdc, Hst, Hev. fold w' in Hdb, Hdc, Hst.
        split; [exact Hdb|]. split; [apply Hcalls; now left|].
        split; [|intros Hne; now elim Hne].
        intros _. split; [exact Hdc|]. split; [auto|]. split; [discriminate|exact Hev].
  - intros Hop.
    destruct (run_without_demo_branch env user op Hop w) as (_ & Hls & Hev).
    split; [now symmetry|]. split; [exact Hev|apply run_applied_to_store].
  - intros Hs.
    destruct (run_nonsentinel env user op Hs w) as (_ & Hls & Hev).
    split; [now symmetry|exact Hev].
Qed.

Lemma demo_gate_witness :
  (let w := sample_world [] [algebra 0 1] [] [] in
   let op := CourseCreate OnInstructorDashboard new_course_form in
   let r := run no_faults (Some demo_admin) op in
   World.db (exec r w) = World.db w
   /\ demo_courses (exec r w) = [demo_course no_faults demo_admin new_course_form]
   /\ filter is_supabase (events r w) = [Supabase tbl_courses SELECT])
  /\
  (let w := sample_world [alice_student] [algebra 0 1] [] [algebra 0 1] in
   let r := run no_faults (Some alice) (Enroll "algebra") in
   World.localStorage (exec r w) = World.localStorage w
   /\ Store.enrollments (World.db (exec r w)) = [new_enrollment no_faults "algebra" "a11ce"]).
Proof.
  split; intros w.
  - intros op r.
    destruct (demo_gate no_faults (Some demo_admin) op w) as (Hdemo & _).
    destruct (Hdemo demo_admin eq_refl eq_refl eq_refl) as (Hdb & _ & Hgo & _).
    destruct (Hgo (or_intror eq_refl)) as (Hdc & _ & _ & Hev).
    split; [exact Hdb|]. split; [exact Hdc|exact Hev].
  - intros r.
    destruct (demo_gate no_faults (Some alice) (Enroll "algebra") w)
      as (_ & _ & Hplain & Hreal).
    destruct (Hreal eq_refl) as (Hls & _).
    destruct (Hplain eq_refl) as (_ & _ & Happ).
    split; [exact Hls|].
    exact (proj2 (Happ alice eq_refl) eq_refl eq_refl eq_refl eq_refl).
Defined.


(** C8 (as stated) fails on the code: the caller is the sentinel demo
    student. Its enroll is applied to the backend: the Enrollment row is
    inserted into the [enrollments] table and the course counter is updated
    there, while [localStorage] is neither read nor written. *)
Lemma demo_gate_counterexample :
  let w := sample_world [demo_student_row] [algebra 0 30] [] [algebra 0 30] in
  let r := run no_faults (Some demo_student) (Enroll "algebra") in
  sentinel (Some demo_student) = true
  /\ occurs (Supabase tbl_enrollments INSERT) (events r w) = true
  /\ enrolled (World.db w) "algebra" (User.id demo_student) = false
  /\ enrolled (World.db (exec r w)) "algebra" (User.id demo_student) = true
  /\ stored_course (World.db (exec r w)) "algebra" = [algebra 1 30]
  /\ forallb never_localStorage (events r w) = true
  /\ World.localStorage (exec r w) = LocalStorage.mk None None.
Proof. vm_compute. repeat split. Qed.

(** ** The action log *)

Lemma run_session_logs (ops : list (Env.t * option User.t * Op)) :
  keeps logs_extended anything never_rewrites_logs (run_session ops).
Proof.
  induction ops as [|[[env user] op] ops IH]; cbn [run_session].
  - apply keeps_ret; auto using logs_extended_refl, anything_refl.
  - apply keeps_bind;
      eauto using logs_extended_trans, anything_trans, run_logs_extended.
Qed.

(** The demo mirror of the log, kept under the [localStorage] key
    ['demoLogs'], is a separate list: [addDemoLog] puts the new entry first
    and keeps the 20 newest. *)
Lemma addDemoLog_keeps_newest (log : Log.t) (w : World.t) :
  LocalStorage.demoLogs (World.localStorage (exec (AdminDashboard.addDemoLog log) w))
  = Some (firstn 20
            (log :: match LocalStorage.demoLogs (World.localStorage w) with
                    | Some logs => logs
                    | None => []
                    end))
  /\ World.db (exec (AdminDashboard.addDemoLog log) w) = World.db w.
Proof. split; reflexivity. Qed.

(** C10. From every state of the world, every sequence of operations of the
    application leaves the rows the [logs] table held in place and only adds
    rows after them; none of its backend calls is an update or a delete on
    [logs]. *)
Theorem action_log_append_only (ops : list (Env.t * option User.t * Op))
    (w : World.t) :
  (exists added,
      Store.logs (World.db (exec (run_session ops) w))
      = Store.logs (World.db w) ++ added)
  /\ forallb never_rewrites_logs (events (run_session ops) w) = true.
Proof.
  destruct (run_session_logs ops w) as (Hlogs & _ & Hev). split; assumption.
Qed.

(* ------------------------------------------------------------------------- *)
(** ** The write policies *)
(* ------------------------------------------------------------------------- *)

Lemma own_row_is (c : Policy.Caller) (i : string) :
  Policy.is_true (Policy.own_row c i) = true <-> Policy.caller_id c = Some i.
Proof.
  destruct c as [|uid]; cbn.
  - split; discriminate.
  - destruct (String.eqb_spec i uid) as [->|Hne]; split; intros H;
      try reflexivity; try discriminate.
    injection H as ->. now elim Hne.
Qed.

(** X1. An update of a [user_profiles] row passes the policy
    "allow_users_to_update_own_profile" exactly when the row is the caller's
    own and the new row keeps its [id]; the role claim plays no part, so an
    admin is refused on every row but its own. *)
Theorem profile_update_policy (auth_users : list Policy.AuthUser.t)
    (c : Policy.Caller) (old new : Profile.t) :
  (Policy.allow_users_to_update_own_profile c old new = true
   <-> Policy.caller_id c = Some (Profile.id old)
       /\ Profile.id new = Profile.id old)
  /\ (Policy.role_claim auth_users c = Some "admin" ->
      Policy.caller_id c <> Some (Profile.id old) ->
      Policy.allow_users_to_update_own_profile c old new = false).
Proof.
  assert (Hiff :
    Policy.allow_users_to_update_own_profile c old new = true
    <-> Policy.caller_id c = Some (Profile.id old)
        /\ Profile.id new = Profile.id old).
  { unfold Policy.allow_users_to_update_own_profile.
    rewrite !andb_true_iff, !own_row_is.
    destruct c as [|uid]; cbn.
    - split; [intros [[H _] _]; discriminate|intros [H _]; discriminate].
    - split.
      + intros [[_ H1] H2]. split; congruence.
      + intros [H1 H2]. repeat split; congruence. }
  split; [exact Hiff|]. intros _ Hother.
  destruct (Policy.allow_users_to_update_own_profile c old new) eqn:Hallow;
    [|reflexivity].
  destruct (proj1 Hiff eq_refl) as [Hown _]. contradiction.
Qed.

Lemma profile_update_policy_witness :
  Policy.allow_users_to_update_own_profile (Policy.Authenticated "r00t")
    bob_profile bob_profile = false.
Proof.
  refine (proj2 (profile_update_policy sample_auth_users
                   (Policy.Authenticated "r00t") bob_profile bob_profile)
                eq_refl _).
  discriminate.
Defined.

(** X2. An insert into [user_profiles] passes the policy
    "allow_users_to_create_profile_during_signup" exactly when the caller
    has no session (then for every row, whatever its [id]) or the row's
    [id] is the caller's. *)
Theorem profile_insert_policy (c : Policy.Caller) (new : Profile.t) :
  Policy.allow_users_to_create_profile_during_signup c new = true
  <-> c = Policy.Anonymous \/ Policy.caller_id c = Some (Profile.id new).
Proof.
  unfold Policy.allow_users_to_create_profile_during_signup.
  destruct c as [|uid]; cbn.
  - split; [now left|reflexivity].
  - destruct (String.eqb_spec (Profile.id new) uid) as [->|Hne]; cbn.
    + split; [now right|reflexivity].
    + split; [discriminate|]. intros [H|H]; [discriminate|].
      injection H as ->. now elim Hne.
Qed.

(** X3. The write policies of [students] pass for the owner only: an update
    exactly when the row is the caller's own and keeps its [id], an insert
    exactly when the new row's [id] is the caller's. Admins and instructors,
    who may read every Student row, can write none but their own. *)
Theorem student_write_policies (c : Policy.Caller) (old new : Student.t) :
  (Policy.allow_students_to_update_own_record c old new = true
   <-> Policy.caller_id c = Some (Student.id old)
       /\ Student.id new = Student.id old)
  /\ (Policy.allow_students_to_create_own_record c new = true
      <-> Policy.caller_id c = Some (Student.id new)).
Proof.
  unfold Policy.allow_students_to_update_own_record,
    Policy.allow_students_to_create_own_record.
  rewrite !andb_true_iff, !own_row_is.
  destruct c as [|uid]; cbn; split.
  - split; [intros [[H _] _]; discriminate|intros [H _]; discriminate].
  - split; [intros [H _]; discriminate|discriminate].
  - split.
    + intros [[_ H1] H2]. split; congruence.
    + intros [H1 H2]. repeat split; congruence.
  - tauto.
Qed.

(** X4. With [id] the key of [auth.users], the three role tests of the
    migration exclude each other: at most one of [is_admin_from_metadata],
    [is_instructor_from_metadata] and [is_student_from_metadata] holds for
    a caller, and none holds for a caller without session. *)
Theorem metadata_roles_exclusive (auth_users : list Policy.AuthUser.t)
    (c : Policy.Caller) :
  NoDup (map Policy.AuthUser.id auth_users) ->
  (Policy.is_admin_from_metadata auth_users c = true ->
   Policy.is_instructor_from_metadata auth_users c = false
   /\ Policy.is_student_from_metadata auth_users c = false)
  /\ (Policy.is_instructor_from_metadata auth_users c = true ->
      Policy.is_student_from_metadata auth_users c = false)
  /\ (c = Policy.Anonymous ->
      Policy.is_admin_from_metadata auth_users c = false
      /\ Policy.is_instructor_from_metadata auth_users c = false
      /\ Policy.is_student_from_metadata auth_users c = false).
Proof.
  intros Hkey.
  assert (Hex : forall r1 r2, r1 <> r2 ->
            Policy.exists_auth_user_with_role auth_users c r1 = true ->
            Policy.exists_auth_user_with_role auth_users c r2 = false).
  { intros r1 r2 Hne H1.
    destruct (Policy.exists_auth_user_with_role auth_users c r2) eqn:H2;
      [|reflexivity].
    apply (PolicyFacts.role_from_metadata_iff auth_users Hkey) in H1.
    apply (PolicyFacts.role_from_metadata_iff auth_users Hkey) in H2.
    congruence. }
  unfold Policy.is_admin_from_metadata, Policy.is_instructor_from_metadata,
    Policy.is_student_from_metadata.
  split; [|split].
  - intros H. split; apply (Hex "admin"); try assumption; discriminate.
  - intros H. apply (Hex "instructor"); [discriminate|assumption].
  - intros ->.
    assert (Hnone : forall r,
              Policy.exists_auth_user_with_role auth_users Policy.Anonymous r = false).
    { intros r.
      destruct (Policy.exists_auth_user_with_role auth_users Policy.Anonymous r) eqn:H;
        [|reflexivity].
      apply (PolicyFacts.role_from_metadata_iff auth_users Hkey) in H.
      discriminate. }
    repeat split; apply Hnone.
Qed.

Lemma metadata_roles_exclusive_witness :
  Policy.is_admin_from_metadata sample_auth_users (Policy.Authenticated "r00t") = true
  /\ Policy.is_instructor_from_metadata sample_auth_users
       (Policy.Authenticated "r00t") = false
  /\ Policy.is_student_from_metadata sample_auth_users
       (Policy.Authenticated "r00t") = false.
Proof.
  split; [reflexivity|].
  exact (proj1 (metadata_roles_exclusive sample_auth_users
                  (Policy.Authenticated "r00t") sample_auth_users_key) eq_refl).
Defined.

(* ------------------------------------------------------------------------- *)
(** ** Running a handler call by call *)
(* ------------------------------------------------------------------------- *)

Lemma eval_query {A} (env : Env.t) (t : Table) (v : Verb)
    (run : Store.t -> Response A * Store.t) (w : World.t) :
  eval (query env t v run) w =
  match Env.fault env t v with
  | Some e => Err e
  | None => fst (run (World.db w))
  end.
Proof. unfold eval. rewrite run_query. now destruct (Env.fault env t v). Qed.

Lemma exec_query {A} (env : Env.t) (t : Table) (v : Verb)
    (run : Store.t -> Response A * Store.t) (w : World.t) :
  exec (query env t v run) w =
  match Env.fault env t v with
  | Some e => w
  | None => World.mk (snd (run (World.db w))) (World.localStorage w) (World.state w)
  end.
Proof. unfold exec. rewrite run_query. now destruct (Env.fault env t v). Qed.

(** Rewrites a run of a handler into the runs of its calls; what a call
    answers is then settled by [destruct]. *)
Ltac by_calls :=
  repeat first
    [ rewrite eval_bind | rewrite exec_bind | rewrite events_bind
    | rewrite eval_query | rewrite exec_query | rewrite events_query
    | progress cbn [fst snd negb eval exec events ret emit get_state put_state
                    get_db put_db get_localStorage put_localStorage
                    World.db World.localStorage World.state app] ].

Lemma or_else_nonempty (a : option string) (b : string) :
  b <> "" -> or_else a b <> "".
Proof.
  intros Hb. unfold or_else, truthy. destruct a as [s|]; [|exact Hb].
  destruct (String.eqb_spec s ""); cbn; assumption.
Qed.

Lemma single_ok {A} (l : list A) (x : A) : single l = Ok x -> l = [x].
Proof.
  destruct l as [|y [|z l]]; cbn; intros H; try discriminate. now injection H as ->.
Qed.

(** Settles, one after the other, what the calls of a run answer. *)
Ltac by_cases :=
  repeat (by_calls;
          match goal with
          | |- context [match Env.fault ?e ?t ?v with _ => _ end] =>
              destruct (Env.fault e t v) eqn:?
          | |- context [fst (if ?b then _ else _)] => destruct b eqn:?
          | |- context [snd (if ?b then _ else _)] => destruct b eqn:?
          | |- context [eval (match ?x with _ => _ end) _] => destruct x eqn:?
          | |- context [exec (match ?x with _ => _ end) _] => destruct x eqn:?
          | |- context [events (match ?x with _ => _ end) _] => destruct x eqn:?
          end).

(* ------------------------------------------------------------------------- *)
(** ** The profile step *)
(* ------------------------------------------------------------------------- *)

(** X5. [ensureStudentProfile] for a signed-in user: when it answers [true]
    a Student row with the user's id is stored; when it answers [false] it
    has written nothing; it never touches a stored row, adding at most one
    row, for the user's id, with a non-empty name and status "active"; and
    when the user's row is already stored the table is left as it is. *)
Theorem ensureStudentProfile_contract (env : Env.t) (u : User.t) (w : World.t) :
  let m := StudentDashboard.ensureStudentProfile env (Some u) in
  (eval m w = true -> has_student_row (World.db (exec m w)) (User.id u) = true)
  /\ (eval m w = false -> World.db (exec m w) = World.db w)
  /\ (has_student_row (World.db w) (User.id u) = true ->
      Store.students (World.db (exec m w)) = Store.students (World.db w))
  /\ exists added,
      Store.students (World.db (exec m w)) = Store.students (World.db w) ++ added
      /\ (length added <= 1)%nat
      /\ Forall (fun s => Student.id s = User.id u
                          /\ Student.name s <> ""
                          /\ Student.academic_status s = Some "active") added.
Proof.
  intros m. subst m. unfold has_student_row. destruct w as [db ls st].
  unfold StudentDashboard.ensureStudentProfile.
  unfold select_student, select_user_profile, insert_student.
  by_cases; by_calls.
  all: cbn [Student.id Student.name Student.academic_status with_students
            Store.students Store.user_profiles Store.courses Store.enrollments
            Store.logs] in *.
  all: repeat match goal with
         | |- _ /\ _ => split
         | |- _ = _ -> _ => intros ?
         end; try discriminate; try reflexivity; try congruence.
  all: try (exists []; rewrite app_nil_r; repeat split; auto; constructor).
  all: try (rewrite existsb_app; cbn; now rewrite String.eqb_refl, orb_true_r).
  all: try (eexists; split; [reflexivity|]; split; [cbn; lia|];
            constructor; [|constructor];
            cbn [Student.id Student.name Student.academic_status];
            split; [reflexivity|];
            split; [|reflexivity];
            apply or_else_nonempty, or_else_nonempty; discriminate).
  match goal with
  | H : single (filter ?f ?l) = Ok ?x |- _ =>
      apply single_ok in H;
      assert (Hin : In x (filter f l)) by (rewrite H; now left);
      apply filter_In in Hin; destruct Hin as [Hin Hid];
      apply existsb_exists; exists x; split; assumption
  end.
Qed.

Lemma ensureStudentProfile_contract_witness :
  let w := sample_world [] [algebra 0 1] [] [algebra 0 1] in
  let m := StudentDashboard.ensureStudentProfile no_faults (Some alice) in
  has_student_row (World.db (exec m w)) "a11ce" = true
  /\ Store.students (World.db (exec m (exec m w))) = [alice_student].
Proof.
  intros w m.
  destruct (ensureStudentProfile_contract no_faults alice w) as (Htrue & _).
  destruct (ensureStudentProfile_contract no_faults alice (exec m w))
    as (_ & _ & Hkept & _).
  split; [exact (Htrue eq_refl)|]. exact (eq_trans (Hkept eq_refl) eq_refl).
Defined.

(** *** The reads and the reloads keep the tables *)

Ltac read_run :=
  intro; unfold select_courses, select_logs, select_user_profile; reflexivity.

Lemma admin_fetchCourses_keeps (env : Env.t) (user : option User.t) :
  keeps eq anything admin_read_event (AdminDashboard.fetchCourses env user).
Proof.
  autounfold with handlers. keeps_walk read_run ltac:(intro; exact I).
Qed.

Lemma admin_fetchLogs_keeps (env : Env.t) (user : option User.t) :
  keeps eq anything admin_read_event (AdminDashboard.fetchLogs env user).
Proof.
  autounfold with handlers. keeps_walk read_run ltac:(intro; exact I).
Qed.

Lemma instructor_fetch_keeps (env : Env.t) (user : option User.t) :
  keeps eq anything admin_read_event
        (InstructorDashboard.fetchInstructorCourses env user).
Proof.
  autounfold with handlers. keeps_walk read_run ltac:(intro; exact I).
Qed.

(** What a dashboard passes to a course form as [onCourseAdded] and
    [onCourseUpdated] only reads. *)
Lemma added_keeps (env : Env.t) (user : option User.t) (host : Dashboard) :
  keeps eq anything admin_read_event
        (AddCourseModalProps.onCourseAdded (AddCourseModal_props env user host)).
Proof.
  destruct host; cbn [AddCourseModal_props AddCourseModalProps.onCourseAdded].
  - apply keeps_bind; eauto using admin_fetchCourses_keeps, admin_fetchLogs_keeps.
  - apply instructor_fetch_keeps.
Qed.

Lemma updated_keeps (env : Env.t) (user : option User.t) (host : Dashboard) :
  keeps eq anything admin_read_event
        (EditCourseModalProps.onCourseUpdated (EditCourseModal_props env user host)).
Proof.
  destruct host; cbn [EditCourseModal_props EditCourseModalProps.onCourseUpdated].
  - apply keeps_bind; eauto using admin_fetchCourses_keeps, admin_fetchLogs_keeps.
  - apply instructor_fetch_keeps.
Qed.

Lemma added_close (env : Env.t) (user : option User.t) (host : Dashboard) :
  AddCourseModalProps.onClose (AddCourseModal_props env user host) = ret tt.
Proof. now destruct host. Qed.

Lemma updated_close (env : Env.t) (user : option User.t) (host : Dashboard) :
  EditCourseModalProps.onClose (EditCourseModal_props env user host) = ret tt.
Proof. now destruct host. Qed.

(* ------------------------------------------------------------------------- *)
(** ** Enroll and drop, further *)
(* ------------------------------------------------------------------------- *)

Lemma outcomes_told_app_excluded (E1 E2 : Event -> bool) (e1 mid tail : list Event) :
  forallb E1 e1 = true -> forallb E2 tail = true ->
  (forall o, In o enroll_outcomes -> E1 o = false /\ E2 o = false) ->
  outcomes_told (e1 ++ mid ++ tail) = outcomes_told mid.
Proof.
  intros H1 H2 Hex. unfold outcomes_told. apply filter_ext_in. intros o Ho.
  destruct (Hex o Ho) as [Ho1 Ho2].
  rewrite !occurs_app, (occurs_excluded _ _ _ H1 Ho1), (occurs_excluded _ _ _ H2 Ho2).
  cbn. now rewrite orb_false_r.
Qed.

Lemma outcomes_not_steps (o : Event) :
  In o enroll_outcomes -> profile_step_event o = false /\ refetch_event o = false.
Proof.
  cbn. intros [<-|[<-|[<-|[<-|[<-|[]]]]]]; split; reflexivity.
Qed.

(** X6. Every [enrollInCourse] of a signed-in user tells the user exactly
    one of five outcomes (ProfileError, CapacityExceeded, DuplicateEnrollment,
    StoreError, success). Unless that outcome is success, the call has
    written nothing after the profile step: no Enrollment row, no counter,
    no log entry. When it is success, exactly one Enrollment row, for the
    course and the user, has been added. [localStorage] is never touched. *)
Theorem enroll_outcome (env : Env.t) (u : User.t) (courses : list Course.t)
    (courseId : string) (w : World.t) :
  let ensure := StudentDashboard.ensureStudentProfile env (Some u) in
  let r := StudentDashboard.enrollInCourse env (Some u) courses courseId in
  (exists o, outcomes_told (events r w) = [o])
  /\ (outcomes_told (events r w) <> [EnrollSuccess] ->
      World.db (exec r w) = World.db (exec ensure w)
      /\ Store.enrollments (World.db (exec r w)) = Store.enrollments (World.db w)
      /\ Store.courses (World.db (exec r w)) = Store.courses (World.db w)
      /\ Store.logs (World.db (exec r w)) = Store.logs (World.db w))
  /\ (outcomes_told (events r w) = [EnrollSuccess] ->
      Store.enrollments (World.db (exec r w))
      = Store.enrollments (World.db w) ++ [new_enrollment env courseId (User.id u)])
  /\ World.localStorage (exec r w) = World.localStorage w.
Proof.
  intros ensure r.
  destruct (ensureStudentProfile_keeps env (Some u) w)
    as ((_ & Hco & Hen & Hlo) & _ & He1).
  destruct (enrollInCourse_run env u courses courseId w) as (Hls & Hrun).
  fold r ensure in Hrun, Hls, Hco, Hen, Hlo, He1.
  assert (Hshort : forall mid,
            events r w = events ensure w ++ mid ->
            outcomes_told (events r w) = outcomes_told mid).
  { intros mid ->. rewrite <- (app_nil_r mid) at 1.
    apply (outcomes_told_app_excluded profile_step_event refetch_event);
      [exact He1|reflexivity|exact outcomes_not_steps]. }
  assert (Hsame : World.db (exec r w) = World.db (exec ensure w) ->
            World.db (exec r w) = World.db (exec ensure w)
            /\ Store.enrollments (World.db (exec r w)) = Store.enrollments (World.db w)
            /\ Store.courses (World.db (exec r w)) = Store.courses (World.db w)
            /\ Store.logs (World.db (exec r w)) = Store.logs (World.db w)).
  { intros Hdb. rewrite Hdb. auto. }
  assert (Hsuccess : forall tail,
            forallb refetch_event tail = true ->
            events r w =
            events ensure w
            ++ [Supabase tbl_enrollments INSERT; Supabase tbl_courses UPDATE]
            ++ (match Env.fault env tbl_courses UPDATE with
                | Some _ => [console_error "Error updating course enrollment count:"]
                | None => []
                end)
            ++ [Supabase tbl_logs INSERT; EnrollSuccess]
            ++ tail ->
            outcomes_told (events r w) = [EnrollSuccess]).
  { intros tail Htail Hev. rewrite Hev.
    destruct (Env.fault env tbl_courses UPDATE).
    - change (outcomes_told
                (events ensure w
                 ++ [Supabase tbl_enrollments INSERT; Supabase tbl_courses UPDATE;
                     console_error "Error updating course enrollment count:";
                     Supabase tbl_logs INSERT; EnrollSuccess]
                 ++ tail) = [EnrollSuccess]).
      now rewrite (outcomes_told_app_excluded profile_step_event refetch_event
                     _ _ _ He1 Htail outcomes_not_steps).
    - change (outcomes_told
                (events ensure w
                 ++ [Supabase tbl_enrollments INSERT; Supabase tbl_courses UPDATE;
                     Supabase tbl_logs INSERT; EnrollSuccess]
                 ++ tail) = [EnrollSuccess]).
      now rewrite (outcomes_told_app_excluded profile_step_event refetch_event
                     _ _ _ He1 Htail outcomes_not_steps). }
  split; [|split; [|split; [|exact Hls]]].
  - destruct (negb (eval ensure w)).
    { destruct Hrun as (_ & Hev). rewrite (Hshort _ Hev). now eexists. }
    destruct (capacity_check_full courses courseId).
    { destruct Hrun as (_ & Hev). rewrite (Hshort _ Hev). now eexists. }
    destruct (Env.fault env tbl_enrollments INSERT) as [e|].
    { destruct Hrun as (_ & Hev). rewrite (Hshort _ Hev).
      destruct (String.eqb (PostgrestError.code e) "23505"); now eexists. }
    destruct (enrolled _ courseId (User.id u)).
    { destruct Hrun as (_ & Hev). rewrite (Hshort _ Hev). now eexists. }
    cbn zeta in Hrun. destruct Hrun as (_ & tail & Htail & Hev).
    rewrite (Hsuccess tail Htail Hev). now eexists.
  - intros Hfail.
    destruct (negb (eval ensure w)); [now apply Hsame|].
    destruct (capacity_check_full courses courseId); [now apply Hsame|].
    destruct (Env.fault env tbl_enrollments INSERT) as [e|]; [now apply Hsame|].
    destruct (enrolled _ courseId (User.id u)); [now apply Hsame|].
    cbn zeta in Hrun. destruct Hrun as (_ & tail & Htail & Hev).
    exfalso. apply Hfail. exact (Hsuccess tail Htail Hev).
  - intros Hok.
    destruct (negb (eval ensure w)).
    { destruct Hrun as (_ & Hev). rewrite (Hshort _ Hev) in Hok. discriminate. }
    destruct (capacity_check_full courses courseId).
    { destruct Hrun as (_ & Hev). rewrite (Hshort _ Hev) in Hok. discriminate. }
    destruct (Env.fault env tbl_enrollments INSERT) as [e|].
    { destruct Hrun as (_ & Hev). rewrite (Hshort _ Hev) in Hok.
      destruct (String.eqb (PostgrestError.code e) "23505"); discriminate. }
    destruct (enrolled _ courseId (User.id u)).
    { destruct Hrun as (_ & Hev). rewrite (Hshort _ Hev) in Hok. discriminate. }
    cbn zeta in Hrun. destruct Hrun as (Hdb & _). rewrite Hdb.
    destruct (Env.fault env tbl_logs INSERT), (Env.fault env tbl_courses UPDATE);
      cbn; now rewrite Hen.
Qed.

Lemma enroll_outcome_witness :
  let r := StudentDashboard.enrollInCourse no_faults (Some alice)
             [algebra 0 1] "algebra" in
  (let w := sample_world [alice_student] [algebra 0 1] [] [algebra 0 1] in
   Store.enrollments (World.db (exec r w)) = [new_enrollment no_faults "algebra" "a11ce"])
  /\ (let w := sample_world [alice_student] [algebra 0 1] [alice_in_algebra]
                            [algebra 0 1] in
      Store.enrollments (World.db (exec r w)) = [alice_in_algebra]).
Proof.
  intros r. split; intros w.
  - destruct (enroll_outcome no_faults alice [algebra 0 1] "algebra" w)
      as (_ & _ & Hok & _).
    exact (Hok eq_refl).
  - destruct (enroll_outcome no_faults alice [algebra 0 1] "algebra" w)
      as (_ & Hfail & _).
    assert (Hno : outcomes_told (events r w) <> [EnrollSuccess]) by discriminate.
    exact (proj1 (proj2 (Hfail Hno))).
Defined.

Lemma same_pair_other (c s c0 s0 : string) (e : Enrollment.t) :
  (c, s) <> (c0, s0) -> same_pair c s e = true -> same_pair c0 s0 e = false.
Proof.
  intros Hne H. apply same_pair_iff in H.
  destruct (same_pair c0 s0 e) eqn:H0; [|reflexivity].
  apply same_pair_iff in H0. congruence.
Qed.

Lemma enrolled_after_delete_other (c s c0 s0 : string) (l : list Enrollment.t) :
  (c, s) <> (c0, s0) ->
  existsb (same_pair c s) (filter (fun e => negb (same_pair c0 s0 e)) l)
  = existsb (same_pair c s) l.
Proof.
  intros Hne. induction l as [|e l IH]; [reflexivity|]. cbn [filter existsb].
  destruct (same_pair c0 s0 e) eqn:H0; cbn [negb existsb].
  - rewrite IH. destruct (same_pair c s e) eqn:H; [|reflexivity].
    rewrite (same_pair_other c s c0 s0 e Hne H) in H0. discriminate.
  - now rewrite IH.
Qed.

Lemma enrolled_after_delete_same (c s : string) (l : list Enrollment.t) :
  existsb (same_pair c s) (filter (fun e => negb (same_pair c s e)) l) = false.
Proof.
  induction l as [|e l IH]; [reflexivity|]. cbn [filter].
  destruct (same_pair c s e) eqn:H; cbn [negb existsb]; [exact IH|].
  now rewrite H, IH.
Qed.

(** X7. [dropCourse] of a signed-in user removes the Enrollment rows of its
    own (course, user) pair and no other: every other pair is enrolled after
    the call exactly when it was before. When the store accepts the delete,
    the pair is not enrolled afterwards and the user is told the drop
    succeeded, whether or not a row existed; when the delete fails, no table
    is changed and no success is told. *)
Theorem drop_removes_only_the_pair (env : Env.t) (u : User.t)
    (courses : list Course.t) (courseId : string) (w : World.t) :
  let r := StudentDashboard.dropCourse env (Some u) courses courseId in
  (forall c s, (c, s) <> (courseId, User.id u) ->
               enrolled (World.db (exec r w)) c s = enrolled (World.db w) c s)
  /\ (Env.fault env tbl_enrollments DELETE = None ->
      enrolled (World.db (exec r w)) courseId (User.id u) = false
      /\ occurs DropSuccess (events r w) = true)
  /\ (Env.fault env tbl_enrollments DELETE <> None ->
      World.db (exec r w) = World.db w
      /\ occurs DropSuccess (events r w) = false
      /\ occurs (toast_error "Failed to drop course") (events r w) = true).
Proof.
  intros r. destruct (dropCourse_run env u courses courseId w) as (_ & Hrun).
  fold r in Hrun.
  destruct (Env.fault env tbl_enrollments DELETE) as [e|].
  - destruct Hrun as (Hdb & Hev). rewrite Hdb, Hev.
    split; [reflexivity|]. split; [discriminate|]. intros _. repeat split.
  - cbn zeta in Hrun. destruct Hrun as (Hdb & tail & Htail & Hev).
    rewrite Hdb, Hev. split; [|split; [|congruence]].
    + intros c s Hne. unfold enrolled.
      destruct (Env.fault env tbl_logs INSERT), (Env.fault env tbl_courses UPDATE);
        cbn; now apply enrolled_after_delete_other.
    + intros _. split.
      * unfold enrolled.
        destruct (Env.fault env tbl_logs INSERT), (Env.fault env tbl_courses UPDATE);
          cbn; apply enrolled_after_delete_same.
      * apply occurs_in. rewrite !in_app_iff. cbn. intuition reflexivity.
Qed.

Lemma drop_removes_only_the_pair_witness :
  let w := sample_world [alice_student; bob_student] [algebra 2 5]
             [bob_in_algebra; alice_in_algebra] [algebra 2 5] in
  let r := StudentDashboard.dropCourse no_faults (Some alice) [algebra 2 5] "algebra" in
  enrolled (World.db (exec r w)) "algebra" "b0b" = true
  /\ enrolled (World.db (exec r w)) "algebra" "a11ce" = false.
Proof.
  intros w r.
  destruct (drop_removes_only_the_pair no_faults alice [algebra 2 5] "algebra" w)
    as (Hother & Hown & _).
  split.
  - refine (eq_trans (Hother "algebra" "b0b" _) eq_refl). discriminate.
  - exact (proj1 (Hown eq_refl)).
Defined.

(** X8. When [dropCourse] has deleted the Enrollment row and the counter
    update that follows is refused, nothing is put back: the pair stays
    dropped, no course is changed (the stored counter still counts the
    dropped enrollment), the failure goes to the console only, the log entry
    is still written and the user is told the drop succeeded. The backend
    writes of the call are the delete, the refused update and the log
    insert. *)
Theorem drop_counter_update_failure (env : Env.t) (u : User.t)
    (courses : list Course.t) (courseId : string) (w : World.t)
    (err : PostgrestError.t) :
  Env.fault env tbl_enrollments DELETE = None ->
  Env.fault env tbl_courses UPDATE = Some err ->
  let r := StudentDashboard.dropCourse env (Some u) courses courseId in
  enrolled (World.db (exec r w)) courseId (User.id u) = false
  /\ Store.courses (World.db (exec r w)) = Store.courses (World.db w)
  /\ filter is_supabase_write (events r w)
     = [Supabase tbl_enrollments DELETE; Supabase tbl_courses UPDATE;
        Supabase tbl_logs INSERT]
  /\ occurs (console_error "Error updating course enrollment count:") (events r w) = true
  /\ occurs DropSuccess (events r w) = true.
Proof.
  intros Hdel Hupd r.
  destruct (dropCourse_run env u courses courseId w) as (_ & Hrun).
  fold r in Hrun. rewrite Hdel, Hupd in Hrun. cbn zeta in Hrun.
  destruct Hrun as (Hdb & tail & Htail & Hev). rewrite Hdb, Hev.
  split; [|split; [|split; [|split]]].
  - unfold enrolled. destruct (Env.fault env tbl_logs INSERT); cbn;
      apply enrolled_after_delete_same.
  - destruct (Env.fault env tbl_logs INSERT); reflexivity.
  - rewrite !filter_app.
    rewrite (filter_excluded _ _ tail Htail refetch_never_writes). reflexivity.
  - apply occurs_in. rewrite !in_app_iff. cbn. intuition reflexivity.
  - apply occurs_in. rewrite !in_app_iff. cbn. intuition reflexivity.
Qed.

Lemma drop_counter_update_failure_witness :
  let w := sample_world [alice_student] [algebra 1 5] [alice_in_algebra] [algebra 1 5] in
  let r := StudentDashboard.dropCourse counter_update_refused (Some alice)
             [algebra 1 5] "algebra" in
  enrolled (World.db (exec r w)) "algebra" "a11ce" = false
  /\ Store.courses (World.db (exec r w)) = [algebra 1 5]
  /\ occurs DropSuccess (events r w) = true.
Proof.
  intros w r.
  destruct (drop_counter_update_failure counter_update_refused alice [algebra 1 5]
              "algebra" w
              (PostgrestError.mk "42501" "permission denied for table courses")
              eq_refl eq_refl) as (Hgone & Hco & _ & _ & Hs).
  split; [exact Hgone|]. split; [exact Hco|exact Hs].
Defined.

(* ------------------------------------------------------------------------- *)
(** ** The course forms *)
(* ------------------------------------------------------------------------- *)

(** Brings the events and the tables of a reload that follows a form into
    the goal's reach: the reload keeps the tables, and its events are reads. *)
Ltac past_reload keeps_lemma :=
  match goal with
  | |- context [exec (?cb ?props) ?w1] =>
      let Hdb := fresh "Hdb" in
      let Hev := fresh "Hev" in
      destruct (keeps_lemma w1) as (Hdb & _ & Hev);
      cbn [World.db] in Hdb; rewrite <- ?Hdb
  end.

(** X9. [handleSubmit] of the Add Course modal, for a user that is not a
    sentinel, adds at most one course to the [courses] table and leaves
    [localStorage] alone, whichever dashboard hosts the modal. The parent's
    [onCourseAdded] is called exactly when a course was added, and a log
    insert is sent exactly then. An added course starts with
    [current_enrollment] 0, carries the form's name and capacity and a
    non-empty [instructor_id], which for an instructor is the user's own id
    whatever the form holds. *)
Theorem course_create_contract (env : Env.t) (u : User.t) (host : Dashboard)
    (form : Form.t) (w : World.t) :
  AddCourseModal.isDemoUser (User.id u) = false ->
  let r := run env (Some u) (CourseCreate host form) in
  let w' := exec r w in
  exists added,
    Store.courses (World.db w') = Store.courses (World.db w) ++ added
    /\ World.localStorage w' = World.localStorage w
    /\ (length added <= 1)%nat
    /\ (occurs onCourseAdded (events r w) = true <-> added <> [])
    /\ (occurs (Supabase tbl_logs INSERT) (events r w) = true <-> added <> [])
    /\ (forall c, In c added ->
          Course.current_enrollment c = 0
          /\ Course.instructor_id c = submitted_instructor u (User.id u) form
          /\ Course.instructor_id c <> ""
          /\ Course.name c = Form.name form
          /\ Course.max_capacity c = Form.maxCapacity form).
Proof.
  intros Hreal r w'.
  assert (Hls : World.localStorage w' = World.localStorage w).
  { destruct (run_nonsentinel env (Some u) (CourseCreate host form)
                ltac:(now rewrite sentinel_some) w) as (_ & H & _).
    now symmetry. }
  revert Hls. subst r w'. destruct w as [db ls st]. cbn [run].
  unfold AddCourseModal.handleSubmit, setModalIsLoading, insert_course, insert_log.
  rewrite added_close. fold (submitted_instructor u (User.id u) form).
  rewrite Hreal.
  by_cases; by_calls; intros Hls.
  1, 2:
    exists []; rewrite ?app_nil_r;
    split; [reflexivity|]; split; [reflexivity|]; split; [cbn; lia|];
    split; [split; [discriminate|congruence]|];
    split; [split; [discriminate|congruence]|intros c []].
  all: past_reload (added_keeps env (Some u) host).
  all: eexists [_]; split; [reflexivity|]; split; [exact Hls|]; split; [cbn; lia|].
  all: split; [split; [discriminate|intros _]|].
  all: try (apply occurs_in; cbn; rewrite ?in_app_iff; cbn; tauto).
  all: split; [split; [discriminate|intros _]|].
  all: try (apply occurs_in; cbn; rewrite ?in_app_iff; cbn; tauto).
  all: intros c [<-|[]]; cbn; (repeat split; try reflexivity);
    intros Hempty; rewrite Hempty in *; discriminate.
Qed.

Lemma course_create_contract_witness :
  let w := sample_world [] [] [] [] in
  let w' := exec (run no_faults (Some alice)
                      (CourseCreate OnAdminDashboard new_course_form)) w in
  exists added,
    Store.courses (World.db w') = Store.courses (World.db w) ++ added
    /\ (length added <= 1)%nat.
Proof.
  intros w w'.
  destruct (course_create_contract no_faults alice OnAdminDashboard new_course_form w
              eq_refl) as (added & Hco & _ & Hlen & _).
  exists added. split; assumption.
Defined.

(** One row of the [map] a course update is made of. *)
Lemma apply_updates_edit (courseId : string) (form : Form.t) (f : CourseFields.t)
    (l : list Course.t) :
  CourseFields.name f = Form.name form ->
  CourseFields.code f = Form.code form ->
  CourseFields.department f = Form.department form ->
  CourseFields.max_capacity f = Form.maxCapacity form ->
  Forall2 (edit_of courseId form (CourseFields.instructor_id f)) l
    (map (fun c => if String.eqb (Course.id c) courseId then apply_updates f c else c) l).
Proof.
  intros Hn Hc Hd Hm. induction l as [|c l IH]; cbn [map]; constructor; [|exact IH].
  unfold edit_of. destruct (String.eqb_spec (Course.id c) courseId) as [Heq|Hne].
  - cbn. repeat split; try reflexivity. right. repeat split; assumption.
  - repeat split; try reflexivity. now left.
Qed.

Lemma edit_of_refl (courseId : string) (form : Form.t) (i : string) (l : list Course.t) :
  Forall2 (edit_of courseId form i) l l.
Proof.
  induction l; constructor; [|assumption].
  unfold edit_of. repeat split; try reflexivity. now left.
Qed.

(** X10. [handleSubmit] of the Edit Course modal changes the rows of the
    [courses] table in place, whoever submits it from whichever dashboard:
    no row is added or removed, every row keeps its [id], its
    [current_enrollment] and its [created_at], and a row that changes has
    the id of the edited course and carries the form's name, code,
    department and capacity and, as [instructor_id], the course's own one
    for an instructor and the selected one otherwise. Enrollments are never
    touched. *)
Theorem course_update_contract (env : Env.t) (u : User.t) (host : Dashboard)
    (course : Course.t) (form : Form.t) (w : World.t) :
  let w' := exec (run env (Some u) (CourseUpdate host course form)) w in
  Forall2 (edit_of (Course.id course) form
             (submitted_instructor u (Course.instructor_id course) form))
          (Store.courses (World.db w)) (Store.courses (World.db w'))
  /\ Store.enrollments (World.db w') = Store.enrollments (World.db w).
Proof.
  intros w'. subst w'. destruct w as [db ls st]. cbn [run].
  unfold EditCourseModal.handleSubmit, EditCourseModal.updateCourseInDemoStorage,
    setModalIsLoading, getItem_demoCourses, setItem_demoCourses, update_course, insert_log.
  rewrite updated_close.
  fold (submitted_instructor u (Course.instructor_id course) form).
  by_cases; by_calls.
  all: try past_reload (updated_keeps env (Some u) host).
  all: cbn.
  all: split; [|reflexivity].
  all: first [ apply edit_of_refl
             | exact (apply_updates_edit _ form (CourseFields.mk _ _ _ _ _ _) _
                        eq_refl eq_refl eq_refl eq_refl) ].
Qed.

(** X11. An instructor cannot reassign a course from the Edit Course modal:
    when the modal was opened on the rows as they are stored (every stored
    row with the course's id has the instructor and instructor name the
    modal was given), the [instructor_id] and [instructor] columns of all
    stored courses are the same after [handleSubmit] as before, whatever
    instructor the form holds. *)
Theorem instructor_edit_keeps_instructor (env : Env.t) (u : User.t) (host : Dashboard)
    (course : Course.t) (form : Form.t) (w : World.t) :
  User.role u = instructor ->
  (forall c, In c (Store.courses (World.db w)) ->
             Course.id c = Course.id course ->
             Course.instructor_id c = Course.instructor_id course
             /\ Course.instructor c = Course.instructor course) ->
  let w' := exec (run env (Some u) (CourseUpdate host course form)) w in
  map (fun c => (Course.instructor_id c, Course.instructor c))
      (Store.courses (World.db w'))
  = map (fun c => (Course.instructor_id c, Course.instructor c))
        (Store.courses (World.db w)).
Proof.
  intros Hrole Hfresh w'. subst w'. destruct w as [db ls st].
  assert (Hmap : forall l nm,
             (forall c, In c l -> Course.id c = Course.id course ->
                        Course.instructor_id c = Course.instructor_id course
                        /\ Course.instructor c = Course.instructor course) ->
             map (fun c => (Course.instructor_id c, Course.instructor c))
               (map (fun c => if String.eqb (Course.id c) (Course.id course)
                              then apply_updates
                                     (CourseFields.mk (Form.name form) (Form.code form)
                                        (Form.department form)
                                        (Course.instructor_id course)
                                        (Course.instructor course) nm) c
                              else c) l)
             = map (fun c => (Course.instructor_id c, Course.instructor c)) l).
  { intros l nm H. induction l as [|c l IH]; [reflexivity|]. cbn [map].
    rewrite IH by (intros c' Hc'; apply H; now right). f_equal.
    destruct (String.eqb_spec (Course.id c) (Course.id course)) as [Heq|]; [|reflexivity].
    destruct (H c (or_introl eq_refl) Heq) as [-> ->]. reflexivity. }
  cbn [run World.db] in *.
  unfold EditCourseModal.handleSubmit, EditCourseModal.updateCourseInDemoStorage,
    setModalIsLoading, getItem_demoCourses, setItem_demoCourses, update_course, insert_log.
  rewrite updated_close, Hrole. cbn [Role_eqb andb].
  by_cases; by_calls.
  all: try past_reload (updated_keeps env (Some u) host).
  all: cbn.
  all: try reflexivity.
  all: apply Hmap; exact Hfresh.
Qed.

Lemma instructor_edit_keeps_instructor_witness :
  let tutor := User.mk "t0m" "tom@example.org" instructor (Some "Tom") in
  let form := Form.mk "Algebra II" "MATH102" "Mathematics" 40 "someone-else" [] in
  let w := sample_world [] [algebra 2 5] [] [algebra 2 5] in
  let w' := exec (run no_faults (Some tutor)
                      (CourseUpdate OnInstructorDashboard (algebra 2 5) form)) w in
  map Course.name (Store.courses (World.db w')) = ["Algebra II"]
  /\ map Course.instructor_id (Store.courses (World.db w'))
     = map Course.instructor_id (Store.courses (World.db w)).
Proof.
  intros tutor form w w'. split; [reflexivity|].
  assert (Hfresh : forall c, In c (Store.courses (World.db w)) ->
                             Course.id c = Course.id (algebra 2 5) ->
                             Course.instructor_id c = Course.instructor_id (algebra 2 5)
                             /\ Course.instructor c = Course.instructor (algebra 2 5)).
  { intros c [<-|[]] _. split; reflexivity. }
  pose proof (instructor_edit_keeps_instructor no_faults tutor OnInstructorDashboard
                (algebra 2 5) form w eq_refl Hfresh) as H.
  apply (f_equal (map fst)) in H. rewrite !map_map in H. exact H.
Defined.

(* ------------------------------------------------------------------------- *)
(** ** Course deletion *)
(* ------------------------------------------------------------------------- *)

Lemma stored_course_after_delete (s : Store.t) (courseId id : string) :
  stored_course (snd (delete_course courseId s)) id
  = if String.eqb id courseId then [] else stored_course s id.
Proof.
  unfold stored_course, delete_course. cbn.
  induction (Store.courses s) as [|c l IH]; cbn [filter].
  - now destruct (String.eqb id courseId).
  - destruct (String.eqb_spec (Course.id c) courseId) as [Hc|Hc]; cbn [negb filter].
    + rewrite IH. destruct (String.eqb_spec id courseId) as [Hi|Hi]; [reflexivity|].
      destruct (String.eqb_spec (Course.id c) id); [congruence|reflexivity].
    + rewrite IH. destruct (String.eqb_spec id courseId) as [Hi|Hi]; [|reflexivity].
      destruct (String.eqb_spec (Course.id c) id); [congruence|reflexivity].
Qed.

(** X12. [deleteCourse] of the admin dashboard, for a user that is not a
    sentinel: without the user's confirmation nothing happens at all; when
    the store refuses the delete, no table changes, no log insert is sent
    and no success is told; when the store accepts it, no course with that
    id is stored afterwards, every other course is stored as before, success
    is told, and the log gains one [course_deleted] entry whose
    [performed_by] is the id of the backend session's user (none when the
    log insert fails, which the handler does not check). *)
Theorem delete_course_contract (env : Env.t) (user : option User.t)
    (courseId : string) (w : World.t) :
  sentinel user = false ->
  let r := AdminDashboard.deleteCourse env user courseId in
  let w' := exec r w in
  let told := occurs (toast_success "Course deleted successfully") (events r w) in
  (Env.confirm env = false -> w' = w /\ events r w = [])
  /\ (Env.confirm env = true -> Env.fault env tbl_courses DELETE <> None ->
      World.db w' = World.db w /\ told = false
      /\ occurs (Supabase tbl_logs INSERT) (events r w) = false)
  /\ (Env.confirm env = true -> Env.fault env tbl_courses DELETE = None ->
      (forall id, stored_course (World.db w') id
                  = if String.eqb id courseId then [] else stored_course (World.db w) id)
      /\ told = true
      /\ Store.logs (World.db w')
         = Store.logs (World.db w)
           ++ match Env.fault env tbl_logs INSERT with
              | None => [deletion_log_entry env courseId]
              | Some _ => []
              end).
Proof.
  intros Hreal r w' told. subst r w' told. unfold sentinel in Hreal.
  unfold AdminDashboard.deleteCourse. rewrite Hreal.
  destruct w as [db ls st].
  by_cases; by_calls.
  all: repeat match goal with
              | H : negb _ = true |- _ => apply negb_true_iff in H
              | H : negb _ = false |- _ => apply negb_false_iff in H
              end.
  all: (split; [intros Hc|split; intros Hc Hd]); try congruence.
  all: try (repeat split; reflexivity).
  all: try match goal with
           | H : fst (delete_course _ _) = Err _ |- _ => discriminate H
           end.
  all: match goal with
       | |- context [exec (AdminDashboard.fetchCourses ?e ?u) ?w1] =>
           destruct (admin_fetchCourses_keeps e u w1) as (Hdb1 & _ & Hev1);
           destruct (admin_fetchLogs_keeps e u
                       (exec (AdminDashboard.fetchCourses e u) w1))
             as (Hdb2 & _ & Hev2);
           rewrite <- Hdb2, <- Hdb1
       end.
  all: cbn [World.db].
  all: split; [intros id|split; [reflexivity|]].
  all: first [ exact (stored_course_after_delete db courseId id)
             | cbn; now rewrite app_nil_r
             | reflexivity ].
Qed.

Lemma delete_course_contract_witness :
  let w := sample_world [] [algebra 2 5] [] [algebra 2 5] in
  let w' := exec (AdminDashboard.deleteCourse no_faults (Some alice) "algebra") w in
  stored_course (World.db w') "algebra" = []
  /\ map Log.action (Store.logs (World.db w')) = ["course_deleted"].
Proof.
  intros w w'.
  destruct (delete_course_contract no_faults (Some alice) "algebra" w eq_refl)
    as (_ & _ & Hok).
  destruct (Hok eq_refl eq_refl) as (Hgone & _ & Hlog).
  split.
  - exact (Hgone "algebra").
  - exact (f_equal (map Log.action) Hlog).
Defined.

(* ------------------------------------------------------------------------- *)
(** ** The admin dashboard's log *)
(* ------------------------------------------------------------------------- *)

(** [mapM] runs its function on each element in turn: what holds of each
    single run, from every world an invariant admits, holds of all. *)
Lemma mapM_each {A B} (f : A -> M B) (Inv : World.t -> Prop) (R : A -> B -> Prop) :
  (forall x w, Inv w -> R x (eval (f x) w) /\ Inv (exec (f x) w)) ->
  forall l w, Inv w ->
    Forall2 R l (eval (mapM f l) w) /\ Inv (exec (mapM f l) w).
Proof.
  intros Hf l. induction l as [|x l IH]; intros w Hw; cbn [mapM].
  - split; [constructor|exact Hw].
  - rewrite !eval_bind, !exec_bind. cbn [eval exec ret fst snd].
    destruct (Hf x w Hw) as [Hx Hw1].
    destruct (IH _ Hw1) as [Hl Hw2].
    split; [constructor; assumption|exact Hw2].
Qed.

Lemma single_in {A} (rows : list A) (r : A) : single rows = Ok r -> In r rows.
Proof.
  destruct rows as [|x [|y rows]]; cbn; intros H; inversion H. now left.
Qed.

(** X13. [fetchLogs] of the admin dashboard, for a user that is not a
    sentinel, changes no table. When the log query fails the dashboard state
    stays as it is; otherwise the dashboard shows the (at most ten) newest
    stored entries, in the order of the query, each with a name and role
    attached: those of a stored profile whose id is the entry's
    [performed_by], or the placeholder Unknown User. *)
Theorem fetch_logs_contract (env : Env.t) (user : option User.t) (w : World.t) :
  sentinel user = false ->
  let w' := exec (AdminDashboard.fetchLogs env user) w in
  World.db w' = World.db w
  /\ match Env.fault env tbl_logs SELECT with
     | Some _ => World.state w' = World.state w
     | None =>
         Forall2 (shown_as (World.db w))
           (firstn 10 (order_desc Log.created_at (Store.logs (World.db w))))
           (State.logs (World.state w'))
     end.
Proof.
  intros Hreal w'. subst w'. unfold sentinel in Hreal.
  unfold AdminDashboard.fetchLogs. rewrite Hreal.
  rewrite exec_bind, eval_query, exec_query.
  destruct (Env.fault env tbl_logs SELECT) as [e|]; [split; reflexivity|].
  unfold select_logs at 1 2 3. cbn [fst snd].
  set (w0 := World.mk _ _ _).
  set (f := fun log : Log.t => _).
  assert (Hw0 : World.db w0 = World.db w /\ World.state w0 = World.state w)
    by (split; reflexivity).
  clearbody w0.
  destruct (mapM_each f
              (fun w1 => World.db w1 = World.db w /\ World.state w1 = World.state w)
              (shown_as (World.db w))) with
    (l := firstn 10 (order_desc Log.created_at (Store.logs (World.db w)))) (w := w0)
    as [Hshown [Hdb Hst]]; [|exact Hw0|].
  - intros log w1 [Hdb1 Hst1]. subst f. cbn beta.
    destruct (Log.performed_by log) as [by_id|] eqn:Hby.
    + destruct (truthy by_id).
      * rewrite eval_bind, exec_bind, eval_query, exec_query.
        destruct (Env.fault env tbl_user_profiles SELECT).
        -- cbn. split; [|now split]. eexists. split; [reflexivity|now left].
        -- unfold select_user_profile. cbn [fst snd].
           destruct (single _) as [row|] eqn:Hrow; cbn.
           ++ split; [|destruct w1; now split].
              eexists. split; [reflexivity|]. right. exists row.
              apply single_in in Hrow. apply filter_In in Hrow.
              destruct Hrow as [Hin Heq]. apply String.eqb_eq in Heq.
              rewrite Hdb1 in Hin. rewrite Hby, Heq. now repeat split.
           ++ split; [|destruct w1; now split].
              eexists. split; [reflexivity|now left].
      * cbn. split; [|now split]. eexists. split; [reflexivity|now left].
    + cbn. split; [|now split]. eexists. split; [reflexivity|now left].
  - rewrite exec_bind. unfold setLogs.
    rewrite exec_bind. cbn. split; [exact Hdb|exact Hshown].
Qed.

Lemma fetch_logs_contract_witness :
  let entry := Log.mk "l1" "course_created" (Some "a11ce") [] 1700000000000 None in
  let w := World.mk (Store.mk [alice_profile] [] [] [] [entry])
                    (LocalStorage.mk None None) (State.mk [] [] [] false false) in
  let w' := exec (AdminDashboard.fetchLogs no_faults (Some alice)) w in
  Forall2 (shown_as (World.db w)) [entry] (State.logs (World.state w')).
Proof.
  intros entry w w'.
  exact (proj2 (fetch_logs_contract no_faults (Some alice) w eq_refl)).
Defined.

(* ------------------------------------------------------------------------- *)
(** ** Enroll and drop as a round trip *)
(* ------------------------------------------------------------------------- *)

Section HappyPath.
Variable env : Env.t.
Variable u : User.t.
Variable courseId : string.
Hypothesis no_fault : forall t v, Env.fault env t v = None.

Let bump (v : Z) (c : Course.t) : Course.t :=
  if String.eqb (Course.id c) courseId then set_current_enrollment v c else c.

Lemma enroll_happy_path (db : Store.t) (ls : LocalStorage.t) (st : State.t)
    (row : Student.t) (c : Course.t) :
  filter (fun x => String.eqb (Student.id x) (User.id u)) (Store.students db) = [row] ->
  enrolled db courseId (User.id u) = false ->
  find (fun x => String.eqb (Course.id x) courseId) (State.courses st) = Some c ->
  Course.current_enrollment c < Course.max_capacity c ->
  let r := run env (Some u) (Enroll courseId) in
  let db' :=
    Store.mk (Store.user_profiles db) (Store.students db)
             (map (bump (Course.current_enrollment c + 1)) (Store.courses db))
             (Store.enrollments db ++ [new_enrollment env courseId (User.id u)])
             (Store.logs db ++ [enrollment_log_entry env courseId (User.id u)]) in
  World.db (exec r (World.mk db ls st)) = db'
  /\ State.courses (World.state (exec r (World.mk db ls st)))
     = order_desc Course.created_at (Store.courses db')
  /\ World.localStorage (exec r (World.mk db ls st)) = ls
  /\ occurs EnrollSuccess (events r (World.mk db ls st)) = true.
Proof.
  intros Hrow Hnot Hfind Hroom r db'. subst r db'.
  unfold enrolled in Hnot.
  unfold run, StudentDashboard.enrollInCourse, StudentDashboard.ensureStudentProfile,
    StudentDashboard.fetchCourses, StudentDashboard.fetchEnrollments,
    setCourses, setEnrollments, setIsLoading, query.
  rewrite !no_fault.
  unfold select_student, insert_enrollment, update_current_enrollment, insert_log,
    select_courses, select_enrollments_of.
  unfold exec, events, bind, emit, ret, get_state, put_state, get_db, put_db.
  cbn [World.db World.localStorage World.state fst snd].
  rewrite Hrow. cbn [single negb].
  cbn [World.db World.localStorage World.state fst snd State.courses].
  rewrite Hfind.
  assert (Hge : (Course.current_enrollment c >=? Course.max_capacity c) = false)
    by (rewrite Z.geb_leb; apply Z.leb_gt; exact Hroom).
  rewrite Hge.
  cbn [World.db World.localStorage World.state fst snd].
  rewrite Hnot.
  cbn [World.db World.localStorage World.state fst snd State.courses].
  repeat split.
Qed.

Lemma drop_happy_path (db : Store.t) (ls : LocalStorage.t) (st : State.t) :
  let r := run env (Some u) (Drop courseId) in
  let db' :=
    Store.mk (Store.user_profiles db) (Store.students db)
             (map (bump (dropped_counter (State.courses st) courseId)) (Store.courses db))
             (filter (fun e => negb (same_pair courseId (User.id u) e))
                     (Store.enrollments db))
             (Store.logs db
              ++ [Log.mk (Env.gen_random_uuid env tbl_logs) "student_dropped"
                         (Some (User.id u))
                         [("course_id", JString courseId);
                          ("student_id", JString (User.id u))]
                         (Env.db_now env) None]) in
  World.db (exec r (World.mk db ls st)) = db'
  /\ State.courses (World.state (exec r (World.mk db ls st)))
     = order_desc Course.created_at (Store.courses db')
  /\ World.localStorage (exec r (World.mk db ls st)) = ls
  /\ occurs DropSuccess (events r (World.mk db ls st)) = true.
Proof.
  intros r db'. subst r db'.
  unfold run, StudentDashboard.dropCourse,
    StudentDashboard.fetchCourses, StudentDashboard.fetchEnrollments,
    setCourses, setEnrollments, setIsLoading, query.
  rewrite !no_fault.
  unfold delete_enrollment, update_current_enrollment, insert_log,
    select_courses, select_enrollments_of.
  unfold exec, events, bind, emit, ret, get_state, put_state, get_db, put_db.
  cbn [World.db World.localStorage World.state fst snd State.courses].
  repeat split.
Qed.

End HappyPath.

(** *** The newest-first order of a read *)

Lemma in_insert_desc {A} (key : A -> Z) (x y : A) (l : list A) :
  In y (insert_desc key x l) <-> y = x \/ In y l.
Proof.
  induction l as [|z l IH]; cbn [insert_desc].
  - cbn. intuition congruence.
  - destruct (key z <=? key x); cbn [In] in *; rewrite ?IH; intuition congruence.
Qed.

Lemma in_order_desc {A} (key : A -> Z) (y : A) (l : list A) :
  In y (order_desc key l) <-> In y l.
Proof.
  induction l as [|x l IH]; [reflexivity|].
  cbn [order_desc fold_right]. fold (order_desc key l).
  rewrite in_insert_desc, IH. cbn. intuition congruence.
Qed.

Lemma count_insert_desc {A} (key : A -> Z) (p : A -> bool) (x : A) (l : list A) :
  length (filter p (insert_desc key x l)) = length (filter p (x :: l)).
Proof.
  induction l as [|z l IH]; [reflexivity|]. cbn [insert_desc].
  destruct (key z <=? key x); [reflexivity|].
  cbn [filter] in *. destruct (p z), (p x); cbn [length] in *; lia.
Qed.

Lemma count_order_desc {A} (key : A -> Z) (p : A -> bool) (l : list A) :
  length (filter p (order_desc key l)) = length (filter p l).
Proof.
  induction l as [|x l IH]; [reflexivity|].
  cbn [order_desc fold_right]. fold (order_desc key l).
  rewrite count_insert_desc. cbn [filter]. destruct (p x); cbn [length]; now rewrite IH.
Qed.

Lemma find_first_match {A} (p : A -> bool) (l : list A) :
  find p l = hd_error (filter p l).
Proof.
  induction l as [|x l IH]; [reflexivity|]. cbn [find filter].
  destruct (p x); [reflexivity|exact IH].
Qed.

(** A row that is the only match of a lookup is found in the reordered list
    as well. *)
Lemma find_in_order_desc {A} (key : A -> Z) (p : A -> bool) (l : list A) (x : A) :
  filter p l = [x] -> find p (order_desc key l) = Some x.
Proof.
  intros Hone. rewrite find_first_match.
  pose proof (count_order_desc key p l) as Hlen. rewrite Hone in Hlen.
  destruct (filter p (order_desc key l)) as [|y [|z rest]] eqn:Hf; try discriminate.
  assert (Hy : In y (filter p (order_desc key l))) by (rewrite Hf; now left).
  apply filter_In in Hy. destruct Hy as [Hin Hp].
  apply in_order_desc in Hin.
  assert (Hy : In y (filter p l)) by (apply filter_In; now split).
  rewrite Hone in Hy. destruct Hy as [->|[]]. reflexivity.
Qed.

Lemma counter_round_trip (courseId : string) (c : Course.t) (v : Z) (l : list Course.t) :
  filter (fun x => String.eqb (Course.id x) courseId) l = [c] ->
  map (fun x => if String.eqb (Course.id x) courseId
                then set_current_enrollment (Course.current_enrollment c) x else x)
      (map (fun x => if String.eqb (Course.id x) courseId
                     then set_current_enrollment v x else x) l)
  = l.
Proof.
  intros Hone.
  assert (Hall : forall x, In x l -> String.eqb (Course.id x) courseId = true -> x = c).
  { intros x Hin Hp.
    assert (Hx : In x (filter (fun x => String.eqb (Course.id x) courseId) l))
      by (apply filter_In; now split).
    rewrite Hone in Hx. destruct Hx as [->|[]]. reflexivity. }
  clear Hone. induction l as [|x l IH]; [reflexivity|]. cbn [map].
  rewrite IH by (intros y Hy; apply Hall; now right). f_equal.
  destruct (String.eqb (Course.id x) courseId) eqn:Hp.
  - cbn [set_current_enrollment Course.id]. rewrite Hp.
    rewrite (Hall x (or_introl eq_refl) Hp). now destruct c.
  - now rewrite Hp.
Qed.

(** X14. Enrolling in a course and dropping it again, from the dashboard,
    is a round trip on the tables when nothing fails: for a student whose
    Student row is stored, who is not enrolled, and a course that is stored
    once and cached as stored with a free seat and a counter that is not
    negative, the enrollments, the courses with their counters, the
    students and the profiles are afterwards what they were before; both
    calls report success, and the log has gained one [student_enrolled] and
    one [student_dropped] entry, in this order. *)
Theorem enroll_then_drop (env : Env.t) (u : User.t) (courseId : string) (w : World.t)
    (row : Student.t) (c : Course.t) :
  (forall t v, Env.fault env t v = None) ->
  filter (fun x => String.eqb (Student.id x) (User.id u))
         (Store.students (World.db w)) = [row] ->
  enrolled (World.db w) courseId (User.id u) = false ->
  stored_course (World.db w) courseId = [c] ->
  find (fun x => String.eqb (Course.id x) courseId) (State.courses (World.state w))
  = Some c ->
  0 <= Course.current_enrollment c < Course.max_capacity c ->
  let enroll := run env (Some u) (Enroll courseId) in
  let drop := run env (Some u) (Drop courseId) in
  let w2 := exec (enroll;; drop) w in
  Store.enrollments (World.db w2) = Store.enrollments (World.db w)
  /\ Store.courses (World.db w2) = Store.courses (World.db w)
  /\ Store.students (World.db w2) = Store.students (World.db w)
  /\ Store.user_profiles (World.db w2) = Store.user_profiles (World.db w)
  /\ map Log.action (Store.logs (World.db w2))
     = map Log.action (Store.logs (World.db w)) ++ ["student_enrolled"; "student_dropped"]
  /\ occurs EnrollSuccess (events enroll w) = true
  /\ occurs DropSuccess (events drop (exec enroll w)) = true.
Proof.
  intros Hnf Hrow Hnot Hstored Hfind Hcur enroll drop w2. subst w2.
  rewrite exec_bind. destruct w as [db ls st].
  cbn [World.db World.state] in *.
  destruct (enroll_happy_path env u courseId Hnf db ls st row c Hrow Hnot Hfind
              (proj2 Hcur)) as (Hdb1 & Hst1 & Hls1 & Hok1).
  fold enroll in Hdb1, Hst1, Hls1, Hok1.
  destruct (exec enroll (World.mk db ls st)) as [db1 ls1 st1] eqn:Hw1.
  cbn [World.db World.state World.localStorage] in *.
  destruct (drop_happy_path env u courseId Hnf db1 ls1 st1) as (Hdb2 & _ & _ & Hok2).
  fold drop in Hdb2, Hok2. rewrite Hdb2.
  assert (Hcounter : dropped_counter (State.courses st1) courseId
                     = Course.current_enrollment c).
  { unfold dropped_counter. rewrite Hst1. cbn [Store.courses].
    rewrite (find_in_order_desc Course.created_at _ _
               (set_current_enrollment (Course.current_enrollment c + 1) c)).
    - cbn [set_current_enrollment Course.current_enrollment].
      destruct (Z.gtb_spec (Course.current_enrollment c + 1) 0); lia.
    - rewrite stored_course_update. unfold stored_course in Hstored.
      now rewrite Hstored. }
  rewrite Hcounter. subst db1. cbn [Store.enrollments Store.courses Store.students
                                Store.user_profiles Store.logs].
  repeat split.
  - rewrite filter_app, (filter_absent_pair _ _ _ Hnot). cbn [filter].
    rewrite same_pair_refl. cbn. apply app_nil_r.
  - apply counter_round_trip. exact Hstored.
  - rewrite !map_app, <- app_assoc. reflexivity.
  - exact Hok1.
  - exact Hok2.
Qed.

Lemma enroll_then_drop_witness :
  let w := sample_world [alice_student] [algebra 2 5] [bob_in_algebra] [algebra 2 5] in
  let w2 := exec (run no_faults (Some alice) (Enroll "algebra");;
                  run no_faults (Some alice) (Drop "algebra")) w in
  Store.enrollments (World.db w2) = [bob_in_algebra]
  /\ Store.courses (World.db w2) = [algebra 2 5].
Proof.
  intros w w2.
  destruct (enroll_then_drop no_faults alice "algebra" w alice_student (algebra 2 5)
              (fun _ _ => eq_refl) eq_refl eq_refl eq_refl eq_refl)
    as (He & Hc & _); [cbn; lia|].
  split; [exact He|exact Hc].
Defined.

(* ------------------------------------------------------------------------- *)
(** ** The instructor dashboard after a course is added *)
(* ------------------------------------------------------------------------- *)



(* ------------------------------------------------------------------------- *)
(** ** The button of a course card *)
(* ------------------------------------------------------------------------- *)






(* ------------------------------------------------------------------------- *)
(** ** Enrollment counters never go negative *)
(* ------------------------------------------------------------------------- *)

Lemma safe_ret {A} `{Counted A} (a : A) : counted a -> safe (ret a).
Proof. intros Ha w Hw. split; [exact Hw|exact Ha]. Qed.

Lemma safe_bind {A B} `{Counted A} `{Counted B} (m : M A) (k : A -> M B) :
  safe m -> (forall a, counted a -> safe (k a)) -> safe (bind m k).
Proof.
  intros Hm Hk w Hw. rewrite exec_bind, eval_bind.
  destruct (Hm w Hw) as [Hw1 Ha]. exact (Hk _ Ha _ Hw1).
Qed.

Lemma safe_emit (e : Event) : safe (emit e).
Proof. intros w Hw. split; [exact Hw|exact I]. Qed.

Lemma safe_get_state : safe get_state.
Proof. intros w Hw. split; [exact Hw|apply Hw]. Qed.

Lemma safe_put_state (s : State.t) : counted s -> safe (put_state s).
Proof. intros Hs w (Hd & Hl & _). repeat split; assumption. Qed.

Lemma safe_get_localStorage : safe get_localStorage.
Proof. intros w Hw. split; [exact Hw|apply Hw]. Qed.

Lemma safe_put_localStorage (l : LocalStorage.t) : counted l -> safe (put_localStorage l).
Proof. intros Hs w (Hd & _ & Hst). repeat split; assumption. Qed.

Lemma safe_query {A} `{Counted A} (env : Env.t) (t : Table) (v : Verb)
    (run : Store.t -> Response A * Store.t) :
  (forall s, counted s -> counted (snd (run s)) /\ counted (fst (run s))) ->
  safe (query env t v run).
Proof.
  intros Hrun w Hw. rewrite exec_query, eval_query.
  destruct (Env.fault env t v); [split; [exact Hw|exact I]|].
  destruct Hw as (Hd & Hl & Hst). destruct (Hrun _ Hd) as [Hs Hr].
  repeat split; assumption.
Qed.

Lemma safe_mapM {A B} `{Counted B} (f : A -> M B) (l : list A) :
  (forall x, safe (f x)) -> safe (mapM f l).
Proof.
  intros Hf. induction l as [|x l IH]; cbn [mapM].
  - apply safe_ret. constructor.
  - apply safe_bind; [apply Hf|intros y Hy].
    apply safe_bind; [exact IH|intros ys Hys].
    apply safe_ret. constructor; assumption.
Qed.

Ltac safe_step :=
  match goal with
  | |- safe (ret _) => apply safe_ret
  | |- safe (emit _) => apply safe_emit
  | |- safe get_state => apply safe_get_state
  | |- safe (put_state _) => apply safe_put_state
  | |- safe get_localStorage => apply safe_get_localStorage
  | |- safe (put_localStorage _) => apply safe_put_localStorage
  | |- safe (query _ _ _ _) => apply safe_query; intros ? ?
  | |- safe (mapM _ _) => apply safe_mapM; intro
  | |- safe (bind _ _) => apply safe_bind; [|intros ? ?]
  | |- safe (match ?x with _ => _ end) => destruct x eqn:?
  end.

Ltac safe_walk := repeat safe_step.

Lemma Forall_order_desc {A} (P : A -> Prop) (key : A -> Z) (l : list A) :
  Forall P l -> Forall P (order_desc key l).
Proof.
  rewrite !Forall_forall. intros H x Hx. apply H. now apply in_order_desc in Hx.
Qed.

Lemma Forall_edit {A} (P : A -> Prop) (p : A -> bool) (f : A -> A) (l : list A) :
  (forall x, P x -> P (f x)) ->
  Forall P l -> Forall P (map (fun x => if p x then f x else x) l).
Proof.
  intros Hf H. induction H as [|x l Hx Hl IH]; cbn [map]; constructor; [|exact IH].
  destruct (p x); auto.
Qed.

Lemma Forall_kept {A} (P : A -> Prop) (p : A -> bool) (l : list A) :
  Forall P l -> Forall P (filter p l).
Proof.
  rewrite !Forall_forall. intros H x Hx. apply H. now apply filter_In in Hx.
Qed.

Lemma Forall_snoc {A} (P : A -> Prop) (l : list A) (x : A) :
  Forall P l -> P x -> Forall P (l ++ [x]).
Proof. intros Hl Hx. apply Forall_app. split; [exact Hl|now constructor]. Qed.

Lemma counted_found (p : Course.t -> bool) (l : list Course.t) (c : Course.t) :
  Forall (fun c => 0 <= Course.current_enrollment c) l ->
  find p l = Some c -> 0 <= Course.current_enrollment c.
Proof.
  intros Hl Hf. apply find_some in Hf. rewrite Forall_forall in Hl. now apply Hl.
Qed.

Ltac counted_open :=
  repeat (unfold counted, Counted_World, Counted_Store, Counted_State,
            Counted_LocalStorage, Counted_Response, Counted_list, Counted_Course,
            Counted_unit, Counted_bool, Counted_Log, Counted_Enrollment,
            Counted_Student, Counted_Profile in *;
          cbn [State.courses Store.courses LocalStorage.demoCourses World.db
               World.localStorage World.state fst snd] in *).

Lemma counted_single {A} (P : A -> Prop) (rows : list A) (r : A) :
  Forall P rows -> single rows = Ok r -> P r.
Proof.
  intros Hall Hr. destruct rows as [|x [|y rows]]; cbn in Hr; inversion Hr; subst.
  now inversion Hall.
Qed.

Lemma Forall_trivial {A} (l : list A) : Forall (fun _ => True) l.
Proof. induction l; constructor; auto. Qed.

Ltac counted_close :=
  repeat first
    [ exact I
    | assumption
    | apply Forall_trivial
    | match goal with
      | H : single _ = Ok ?r |- 0 <= Course.current_enrollment ?r =>
          refine (counted_single (fun c => 0 <= Course.current_enrollment c) _ _ _ H)
      | |- 0 <= match find ?p ?l with _ => _ end =>
          let Hf := fresh "Hf" in
          destruct (find p l) eqn:Hf;
          [apply counted_found in Hf; [|assumption]|]
      | |- 0 <= (if ?a >? ?b then _ else _) => destruct (Z.gtb_spec a b)
      end
    | apply Forall_nil
    | apply Forall_order_desc
    | apply Forall_kept
    | apply Forall_snoc
    | apply Forall_edit; [intros ? ?|]
    | apply Forall_cons
    | progress cbn [Course.current_enrollment set_current_enrollment apply_updates]
    | lia ].

Ltac counted_solve :=
  counted_open;
  unfold select_courses, select_student, select_user_profile, insert_student,
    insert_enrollment, delete_enrollment, update_current_enrollment, insert_log,
    select_enrollments_of, insert_course, update_course, delete_course,
    select_courses_of, select_logs, with_courses, with_students, with_enrollments,
    with_logs in *;
  cbn [State.courses Store.courses LocalStorage.demoCourses World.db
       World.localStorage World.state fst snd] in *;
  repeat match goal with
         | |- _ /\ _ => split
         | |- True => exact I
         | |- match ?x with _ => _ end =>
             destruct x eqn:?;
             cbn [State.courses Store.courses LocalStorage.demoCourses World.db
                  World.localStorage World.state fst snd] in *
         | |- Forall _ (match ?x with _ => _ end) =>
             destruct x eqn:?;
             cbn [State.courses Store.courses LocalStorage.demoCourses World.db
                  World.localStorage World.state fst snd] in *
         | |- context [fst (if ?x then _ else _)] =>
             destruct x eqn:?;
             cbn [State.courses Store.courses LocalStorage.demoCourses World.db
                  World.localStorage World.state fst snd] in *
         | |- context [snd (if ?x then _ else _)] =>
             destruct x eqn:?;
             cbn [State.courses Store.courses LocalStorage.demoCourses World.db
                  World.localStorage World.state fst snd] in *
         end;
  counted_close.

Lemma run_safe (env : Env.t) (user : option User.t) (op : Op) : safe (run env user op).
Proof.
  each_op op; open_run; safe_walk.
  all: counted_solve.
Qed.

Lemma counters_ok_counted (w : World.t) : counters_ok w <-> counted w.
Proof.
  unfold counters_ok, demo_courses. destruct w as [db [dc dl] st].
  counted_open. destruct dc; cbn; intuition auto using Forall_nil.
Qed.

(** X17. No operation makes an enrollment counter negative. When no course
    in the [courses] table, in the course list the dashboard holds and in
    the demo list of [localStorage] has a negative [current_enrollment],
    the same holds after every sequence of operations (course create,
    update and delete, the dashboards' reads, enroll and drop), whoever
    runs them and whichever backend calls fail. *)
Theorem counters_never_negative (ops : list (Env.t * option User.t * Op)) (w : World.t) :
  counters_ok w -> counters_ok (exec (run_session ops) w).
Proof.
  rewrite !counters_ok_counted. revert w.
  induction ops as [|[[env user] op] ops IH]; intros w Hw; cbn [run_session].
  - exact Hw.
  - rewrite exec_bind. apply IH. now apply run_safe.
Qed.

Lemma counters_never_negative_witness :
  let w := sample_world [alice_student] [algebra 0 5] [] [algebra 0 5] in
  counters_ok (exec (run_session [(no_faults, Some alice, Drop "algebra");
                                  (no_faults, Some alice, Drop "algebra")]) w).
Proof.
  intros w. apply (counters_never_negative _ w).
  unfold counters_ok. cbn. repeat constructor; cbn; lia.
Defined.

(* ------------------------------------------------------------------------- *)
(** ** Guards of the handlers *)
(* ------------------------------------------------------------------------- *)

(** X18. What the handlers do when nobody is signed in. Course create and
    update, enroll, drop and the reads of the instructor's courses and of
    the student's enrollments check for a user first: without one they
    leave the world as it is and make no backend call and no [localStorage]
    access. Course delete and the other three reads have no such check:
    without a user they still call the backend (delete once the deletion is
    confirmed). *)
Theorem signed_out (env : Env.t) (op : Op) (w : World.t) :
  let r := run env None op in
  (login_guarded op = true ->
   exec r w = w
   /\ forallb never_supabase (events r w) = true
   /\ forallb never_localStorage (events r w) = true)
  /\ (login_guarded op = false ->
      (forall courseId, op = CourseDelete courseId -> Env.confirm env = true) ->
      existsb is_supabase (events r w) = true).
Proof.
  intros r. subst r. destruct w as [db ls st]. split.
  - destruct op; cbn [login_guarded]; intros H; try discriminate H;
      repeat split.
  - destruct op; cbn [login_guarded]; intros H Hc; try discriminate H; cbn [run].
    + unfold AdminDashboard.deleteCourse. rewrite (Hc courseId eq_refl).
      cbn [negb]. change (AdminDashboard.isDemoUser (AdminDashboard.user_id_or_empty None))
        with false. cbv iota. now rewrite events_bind, events_query.
    + unfold AdminDashboard.fetchCourses.
      change (AdminDashboard.isDemoUser (AdminDashboard.user_id_or_empty None)) with false.
      cbv iota. rewrite !events_bind, events_query. unfold setIsLoading.
      rewrite events_bind. reflexivity.
    + unfold AdminDashboard.fetchLogs. now rewrite events_bind, events_query.
    + unfold StudentDashboard.fetchCourses, setIsLoading.
      rewrite !events_bind, events_query. reflexivity.
Qed.

Lemma signed_out_witness :
  exec (run no_faults None (Enroll "algebra")) (sample_world [] [algebra 0 5] [] [])
  = sample_world [] [algebra 0 5] [] []
  /\ existsb is_supabase
       (events (run no_faults None (CourseDelete "algebra"))
               (sample_world [] [algebra 0 5] [] [])) = true.
Proof.
  split.
  - exact (proj1 (proj1 (signed_out no_faults (Enroll "algebra")
                           (sample_world [] [algebra 0 5] [] [])) eq_refl)).
  - exact (proj2 (signed_out no_faults (CourseDelete "algebra")
                    (sample_world [] [algebra 0 5] [] [])) eq_refl (fun _ _ => eq_refl)).
Defined.

Lemma stored_course_edit (cid : string) (f : CourseFields.t) (l : list Course.t) :
  filter (fun c => String.eqb (Course.id c) cid)
         (map (fun c => if String.eqb (Course.id c) cid then apply_updates f c else c) l)
  = map (apply_updates f) (filter (fun c => String.eqb (Course.id c) cid) l).
Proof.
  induction l as [|c l IH]; [reflexivity|]. cbn [map filter].
  destruct (String.eqb (Course.id c) cid) eqn:Hc.
  - cbn [Course.id apply_updates]. rewrite Hc. cbn [map]. now rewrite IH.
  - rewrite Hc. exact IH.
Qed.

Lemma single_map_ok {A B} (g : A -> B) (rows : list A) :
  (exists b, single (map g rows) = Ok b) <-> (exists a, rows = [a]).
Proof.
  destruct rows as [|x [|y rows]]; cbn; split; intros [z Hz]; try discriminate.
  - now exists x.
  - now exists (g x).
Qed.

(** X19. When [handleSubmit] of the Edit Course modal, past its instructor
    check, calls its parent's [onCourseUpdated], on either dashboard. For a
    sentinel user: always, also when the
    demo list holds no such course and nothing was changed. For any other
    user: exactly when the store answers the update and holds exactly one
    row with the course's id; a log insert is sent exactly in that case, and
    otherwise (update refused, course no longer stored) the log is left as
    it is. *)
Theorem course_update_notifies (env : Env.t) (u : User.t) (host : Dashboard)
    (course : Course.t) (form : Form.t) (w : World.t) :
  truthy (submitted_instructor u (Course.instructor_id course) form) = true ->
  let r := run env (Some u) (CourseUpdate host course form) in
  let notified := occurs onCourseUpdated (events r w) in
  if EditCourseModal.isDemoUser (User.id u)
  then notified = true
  else (notified = true <->
        Env.fault env tbl_courses UPDATE = None
        /\ exists c, stored_course (World.db w) (Course.id course) = [c])
       /\ occurs (Supabase tbl_logs INSERT) (events r w) = notified
       /\ (notified = false -> Store.logs (World.db (exec r w)) = Store.logs (World.db w)).
Proof.
  intros Hsel r notified. subst r notified. destruct w as [db ls st]. cbn [run].
  unfold EditCourseModal.handleSubmit, EditCourseModal.updateCourseInDemoStorage,
    setModalIsLoading, getItem_demoCourses, setItem_demoCourses.
  rewrite updated_close.
  fold (submitted_instructor u (Course.instructor_id course) form).
  rewrite Hsel. cbn [negb].
  destruct (EditCourseModal.isDemoUser (User.id u)).
  - by_calls. reflexivity.
  - by_calls.
    destruct (Env.fault env tbl_courses UPDATE) as [e|].
    + cbn. repeat split; try discriminate. intros [H _]. discriminate H.
    + unfold update_course, with_courses. cbn [fst snd Store.courses].
      rewrite !stored_course_edit. fold (stored_course db (Course.id course)).
      destruct (single_map_ok
                  (apply_updates
                     (CourseFields.mk (Form.name form) (Form.code form)
                        (Form.department form)
                        (submitted_instructor u (Course.instructor_id course) form)
                        (if Role_eqb (User.role u) admin
                            && negb (String.eqb
                                       (submitted_instructor u (Course.instructor_id course)
                                          form)
                                       (Course.instructor_id course))
                         then instructor_name_or_unknown (Form.instructors form)
                                (submitted_instructor u (Course.instructor_id course) form)
                         else Course.instructor course)
                        (Form.maxCapacity form)))
                  (stored_course db (Course.id course))) as [Hok Hone].
      destruct (single _) as [row|err] eqn:Hrow.
      * by_calls. cbn [occurs existsb Event_eqb Table_eqb Verb_eqb andb orb app].
        split; [|split; [reflexivity|discriminate]].
        split; [intros _; split; [reflexivity|]|reflexivity].
        apply Hok. now exists row.
      * cbn. repeat split; try discriminate.
        intros [_ Hc]. destruct (Hone Hc). discriminate.
Qed.

Lemma course_update_notifies_witness :
  let form := Form.mk "Algebra II" "MATH102" "Mathematics" 40 "n0ether" [] in
  let r := run no_faults (Some alice)
               (CourseUpdate OnAdminDashboard (algebra 2 5) form) in
  let gone := sample_world [] [] [] [] in
  occurs onCourseUpdated (events r gone) = false
  /\ Store.logs (World.db (exec r gone)) = [].
Proof.
  intros form r gone.
  destruct (course_update_notifies no_faults alice OnAdminDashboard (algebra 2 5) form
              gone eq_refl)
    as (_ & _ & Hlogs).
  split; [reflexivity|exact (Hlogs eq_refl)].
Defined.

(* ------------------------------------------------------------------------- *)
(** ** Descriptions of log entries *)
(* ------------------------------------------------------------------------- *)

Lemma logs_described_refl (d : string) (s : Store.t) : logs_described d s s.
Proof. exists []. split; [now rewrite app_nil_r|constructor]. Qed.

Lemma logs_described_trans (d : string) (a b c : Store.t) :
  logs_described d a b -> logs_described d b c -> logs_described d a c.
Proof.
  intros (x & Hx & Hdx) (y & Hy & Hdy). exists (x ++ y). split.
  - now rewrite Hy, Hx, app_assoc.
  - apply Forall_app. now split.
Qed.

#[local] Hint Resolve logs_described_refl logs_described_trans : core.

Ltac described_run :=
  intro;
  unfold select_courses, select_student, select_user_profile, insert_student,
    insert_enrollment, delete_enrollment, update_current_enrollment, insert_log,
    select_enrollments_of, insert_course, update_course, delete_course,
    select_courses_of, select_logs;
  repeat match goal with
         | |- context [if ?b then _ else _] => destruct b
         end;
  cbn [snd fst with_logs with_courses with_students with_enrollments Store.logs];
  first [ apply logs_described_refl
        | exists []; split; [cbn; symmetry; apply app_nil_r|constructor]
        | eexists [_]; split; [reflexivity|]; constructor; [reflexivity|constructor] ].

(** X20. The admin dashboard's description of a log entry reads the fields
    the writers put there. Every entry an operation adds to the [logs] table
    is described by [getActionDescription] with the created course's name,
    with the previous and the new name of an updated course, or with the id
    of a deleted course (Unknown for an empty one); the entries of enroll
    and drop have no description of their own and are shown as their raw
    action names. Reads add no entry. *)
Theorem written_entries_described (env : Env.t) (user : option User.t) (op : Op)
    (w : World.t) :
  exists added,
    Store.logs (World.db (exec (run env user op) w)) = Store.logs (World.db w) ++ added
    /\ Forall (fun l => getActionDescription l = expected_description op) added.
Proof.
  assert (H : keeps (logs_described (expected_description op)) anything any_event
                (run env user op)).
  { each_op op; open_run;
      keeps_walk described_run ltac:(intro; exact I). }
  exact (proj1 (H w)).
Qed.
